(** * VOR-FIX-CALCULATION: geodetic projection and radial/distance solver

    A shallow embedding of the calculation core of the repository:
    - [vor_fix_calculation.py] (module [VorFixCalculation]),
    - [core_vor_calc.py] (module [CoreVorCalc]),
    - the earlier revisions "VOR FIX CALCULATION.py" kept in the repository
      (module [Legacy]): their [get_radius_letter], which is the same in
      all of them, and the [find_radial_distance_intersection] of the
      revision that runs up to 200 passes and has the stagnation step;
      the projection of that revision is module [LegacyProjection],

    and of what [vor_fix_calculation.py] has around it: the validators of
    the entries (module [InputValidator]; [CoreInputValidator] has the one
    of [core_vor_calc.py]), the search in the navigation files (module
    [NavigationDataService]), the time of the declination model (module
    [MagneticDeclinationService]), and, of the two frames, the dialog for
    several records, the coordinates taken from a record, the calculation
    from a DME and the output lines (modules [Frames],
    [WaypointCalculationFrame] and [FixCalculationFrame]).  The widgets
    themselves are not modelled: a method of a frame is a function of the
    texts of its entries, and what it shows in a dialog is its result.

    Python floats are modelled as exact rationals ([Qc], canonical
    fractions, so that equality is Leibniz equality and every definition
    computes).  Rounding is modelled in the one operation whose range
    depends on it, the remainder [x % 360]: the functions that take a
    remainder have the rounding as a parameter ([Num.Rounding], with the
    sample [Chart.doubles]); the other operations are exact.  Infinities and
    NaN are not modelled, except for the [float('inf')] that two variables
    of the solver start from, which is the extra element [Inf] of
    [Num.xfloat], and for what [float(s)] can return to a validator, which
    is a [Py.pyfloat].  The negative zero is not modelled.  The geodesy oracle ([GEODESIC.Direct] and [GEODESIC.Inverse]
    of geographiclib) is a parameter of every function that calls it; module
    [Chart] has small oracles to run the functions on.  In the same way
    [float], [int] and the reading of a file are parameters of the
    functions that call them, with samples in the modules [Literals] and
    [Files].  Strings are strings of ASCII characters (module [Str]); numbers
    are written as Python's format specifications write them (module [Fmt]).

    The file has three parts: the functions of the repository, the
    predicates the statements are written with, and the facts. *)

From Stdlib Require Import QArith Qcanon Qcabs Qround ZArith NArith Lia Lqa List
  String Ascii Bool.
Import ListNotations.

Open Scope Qc_scope.

(** ** Numbers *)

Module Num.

Definition ltb (x y : Qc) : bool :=
  match x ?= y with Lt => true | _ => false end.

Definition leb (x y : Qc) : bool :=
  match x ?= y with Gt => false | _ => true end.

Definition eqb (x y : Qc) : bool :=
  match x ?= y with Eq => true | _ => false end.

(** Python's [max(a, b)] and [min(a, b)]: the first argument is kept
    unless the second is strictly larger (smaller). *)
Definition max (a b : Qc) : Qc := if ltb a b then b else a.
Definition min (a b : Qc) : Qc := if ltb b a then b else a.

Definition abs (x : Qc) : Qc := Qcabs x.

(** [int(x)]: truncation toward zero. *)
Definition int (x : Qc) : Z := Z.quot (Qnum x) (Zpos (Qden x)).

Definition of_Z (z : Z) : Qc := Q2Qc (inject_Z z).

Definition floor (x : Qc) : Z := Qfloor x.

(** What a float operation does to its exact result: [fl x] is the float
    nearest to [x].  Of the rounding only this is used: it keeps the order,
    and it leaves 0 and 360, which are floats, as they are. *)
Record Rounding : Type := {
  fl : Qc -> Qc;
  fl_monotone : forall x y : Qc, x <= y -> fl x <= fl y;
  fl_0 : fl (Q2Qc 0) = Q2Qc 0;
  fl_360 : fl (Q2Qc 360) = Q2Qc 360
}.

(** The rounding that changes nothing. *)
Definition exact : Rounding :=
  {| fl := fun x => x;
     fl_monotone := fun _ _ H => H;
     fl_0 := eq_refl;
     fl_360 := eq_refl |}.

(** C's [fmod(x, m)]: the remainder with the sign of [x].  It is a float
    whenever [x] and [m] are, so nothing is rounded. *)
Definition fmod (x m : Qc) : Qc := x - m * of_Z (int (x / m)).

(** [x % m] on floats, for a positive modulus: [fmod(x, m)], to which [m] is
    added when it is negative.  This addition is rounded: for a negative [x]
    close enough to 0 the sum is [m] itself. *)
Definition pymod (FLOAT : Rounding) (x m : Qc) : Qc :=
  let mod_ := fmod x m in
  if ltb mod_ (Q2Qc 0) then fl FLOAT (mod_ + m) else mod_.

(** Floats extended with [float('inf')]. *)
Inductive xfloat : Type :=
| Fin (q : Qc)
| Inf.

(** [e < b] for a finite [e] and a possibly infinite [b]. *)
Definition ltb_x (e : Qc) (b : xfloat) : bool :=
  match b with
  | Fin q => ltb e q
  | Inf => true
  end.

(** [abs(p - e) < t] where [p] may be [inf] ([abs(inf - e)] is [inf]). *)
Definition abs_diff_ltb (p : xfloat) (e t : Qc) : bool :=
  match p with
  | Fin q => ltb (abs (q - e)) t
  | Inf => false
  end.

Definition x_le (b : xfloat) (e : Qc) : Prop :=
  match b with
  | Fin q => q <= e
  | Inf => False
  end.

End Num.

Notation "x <? y" := (Num.ltb x y) (at level 70, no associativity) : Qc_scope.
Notation "x <=? y" := (Num.leb x y) (at level 70, no associativity) : Qc_scope.
Notation "x =? y" := (Num.eqb x y) (at level 70, no associativity) : Qc_scope.
Notation "x >? y" := (Num.ltb y x)
  (at level 70, no associativity, only parsing) : Qc_scope.
Notation "x >=? y" := (Num.leb y x)
  (at level 70, no associativity, only parsing) : Qc_scope.
Notation "'$' q" := (Q2Qc q%Q) (at level 5, q at level 0, format "'$' q") : Qc_scope.

(** ** Module constants (identical in both current files) *)

Definition MAX_ITERATIONS : nat := 200.
Definition DISTANCE_TOLERANCE_M : Qc := $1.0.
Definition METERS_PER_NM : Qc := $1852.0.

Definition meters_to_nm (meters : Qc) : Qc := meters / METERS_PER_NM.
Definition nm_to_meters (nm : Qc) : Qc := nm * METERS_PER_NM.

(** ** The geodesy oracle *)

Record DirectResult : Type := { lat2 : Qc; lon2 : Qc }.
Record InverseResult : Type := { s12 : Qc; azi1 : Qc }.

(** [Direct lat1 lon1 azi1 s12] and [Inverse lat1 lon1 lat2 lon2]. *)
Record Geodesic : Type := {
  Direct : Qc -> Qc -> Qc -> Qc -> DirectResult;
  Inverse : Qc -> Qc -> Qc -> Qc -> InverseResult
}.

(** ** Exceptions and loops *)

(** [ValueError] raised by a [Coordinates] constructor. *)
Inductive ValueError : Type :=
| LatitudeOutOfRange (lat : Qc)
| LongitudeOutOfRange (lon : Qc).

Inductive Result (A : Type) : Type :=
| Ok (a : A)
| Raise (e : ValueError).
Arguments Ok {A} a.
Arguments Raise {A} e.

Definition bind {A B : Type} (r : Result A) (k : A -> Result B) : Result B :=
  match r with
  | Ok a => k a
  | Raise e => Raise e
  end.

Notation "x <- r ;; k" := (bind r (fun x => k))
  (at level 61, r at next level, right associativity).

(** The number a computation ends with, when it ends without raising:
    [f] picks the number out of the result. *)
Definition outcome {A : Type} (f : A -> Qc) (r : Result A) : option Q :=
  match r with
  | Ok a => Some (this (f a))
  | Raise _ => None
  end.

(** How one pass through a loop body ends: [break], or falling through /
    [continue] to the next pass. *)
Inductive Flow (S : Type) : Type :=
| Break (s : S)
| Next (s : S).
Arguments Break {S} s.
Arguments Next {S} s.

(** [for _ in range(n): body] with [break] and [continue], for a body that
    cannot raise. *)
Fixpoint for_range_pure {S : Type} (n : nat) (body : S -> Flow S) (s : S) : S :=
  match n with
  | O => s
  | Datatypes.S n' =>
      match body s with
      | Break s' => s'
      | Next s' => for_range_pure n' body s'
      end
  end.

(** [for x in xs: body] with [break], [continue] and exceptions. *)
Fixpoint for_each {A S : Type} (xs : list A) (body : A -> S -> Result (Flow S))
  (s : S) : Result S :=
  match xs with
  | [] => Ok s
  | x :: xs' =>
      match body x s with
      | Raise e => Raise e
      | Ok (Break s') => Ok s'
      | Ok (Next s') => for_each xs' body s'
      end
  end.

(** [for _ in range(n): body], with [break], [continue] and exceptions. *)
Fixpoint for_range {S : Type} (n : nat) (body : S -> Result (Flow S)) (s : S)
  : Result S :=
  match n with
  | O => Ok s
  | Datatypes.S n' =>
      match body s with
      | Raise e => Raise e
      | Ok (Break s') => Ok s'
      | Ok (Next s') => for_range n' body s'
      end
  end.

(** ** vor_fix_calculation.py *)

Module VorFixCalculation.

(** The [Coordinates] dataclass.  A value of the record is a Python object
    (its fields can hold anything); [new_Coordinates] is the constructor
    call [Coordinates(lat, lon)], which runs [__post_init__]. *)
Record Coordinates : Type := { lat : Qc; lon : Qc }.

Definition new_Coordinates (lat lon : Qc) : Result Coordinates :=
  if negb ((- $90 <=? lat) && (lat <=? $90)) then
    Raise (LatitudeOutOfRange lat)
  else if negb ((- $180 <? lon) && (lon <=? $180)) then
    Raise (LongitudeOutOfRange lon)
  else Ok {| lat := lat; lon := lon |}.

(** [CoordinateCalculator.get_radius_letter] *)
Definition ranges : list (Qc * Qc * string) :=
  [ ($0.1, $1.5, "A"); ($1.5, $2.5, "B"); ($2.5, $3.5, "C"); ($3.5, $4.5, "D");
    ($4.5, $5.5, "E"); ($5.5, $6.5, "F"); ($6.5, $7.5, "G"); ($7.5, $8.5, "H");
    ($8.5, $9.5, "I"); ($9.5, $10.5, "J"); ($10.5, $11.5, "K"); ($11.5, $12.5, "L");
    ($12.5, $13.5, "M"); ($13.5, $14.5, "N"); ($14.5, $15.5, "O"); ($15.5, $16.5, "P");
    ($16.5, $17.5, "Q"); ($17.5, $18.5, "R"); ($18.5, $19.5, "S"); ($19.5, $20.5, "T");
    ($20.5, $21.5, "U"); ($21.5, $22.5, "V"); ($22.5, $23.5, "W"); ($23.5, $24.5, "X");
    ($24.5, $25.5, "Y"); ($25.5, $26.5, "Z") ]%string.

(** The [for low, high, letter in ranges] scan; [None] when the loop ends
    without returning. *)
Fixpoint scan_ranges (distance_nm : Qc) (rs : list (Qc * Qc * string))
  : option string :=
  match rs with
  | [] => None
  | (low, high, letter) :: rs' =>
      if (low <=? distance_nm) && (distance_nm <? high) then Some letter
      else scan_ranges distance_nm rs'
  end.

Definition get_radius_letter (distance_nm : Qc) : string :=
  match scan_ranges distance_nm ranges with
  | Some letter => letter
  | None => if distance_nm <? $0.1 then "A"%string else "Z"%string
  end.

Section WithOracle.

Variable GEODESIC : Geodesic.

(** One pass of the multi-step loop of [calculate_target_coords_geodesic]. *)
Definition step_body (azimuth step_distance : Qc) (step_coords : Coordinates)
  : Result (Flow Coordinates) :=
  let step_result :=
    Direct GEODESIC (lat step_coords) (lon step_coords) azimuth step_distance in
  c <- new_Coordinates (lat2 step_result) (lon2 step_result) ;;
  Ok (Next c).

(** [CoordinateCalculator.calculate_target_coords_geodesic] *)
Definition calculate_target_coords_geodesic
  (start_coords : Coordinates) (azimuth distance_nm : Qc) : Result Coordinates :=
  let distance_m := nm_to_meters distance_nm in
  let result :=
    Direct GEODESIC (lat start_coords) (lon start_coords) azimuth distance_m in
  let verification :=
    Inverse GEODESIC (lat start_coords) (lon start_coords)
            (lat2 result) (lon2 result) in
  let actual_distance_m := s12 verification in
  let distance_error_m := Num.abs (actual_distance_m - distance_m) in
  if distance_error_m >? $0.1 then
    let num_steps := Z.max 1 (Num.int (distance_nm / $500)) in
    if (1 <? num_steps)%Z then
      let step_distance := distance_m / Num.of_Z num_steps in
      for_range (Z.to_nat num_steps) (step_body azimuth step_distance)
                start_coords
    else new_Coordinates (lat2 result) (lon2 result)
  else new_Coordinates (lat2 result) (lon2 result).

(** Ghost record of one pass of the bisection loop: the distance tried, the
    point and its error, and the bracket the pass leaves behind. *)
Record Pass : Type := {
  pass_dist : Qc;
  pass_point : Coordinates;
  pass_error : Qc;
  pass_min : Qc;
  pass_max : Qc
}.

(** The variables of [_find_radial_distance_intersection] that live across
    passes.  [passes] is ghost state, most recent pass first; nothing reads
    it. *)
Record Search : Type := {
  min_dist : Qc;
  max_dist : Qc;
  best_approx_distance : Num.xfloat;
  best_approx_point : Coordinates;
  passes : list Pass
}.

(** "Determine search range" with "Validate search range". *)
Definition search_range (fix_dme_distance_nm distance_nm : Qc) : Qc * Qc :=
  let '(min_dist, max_dist) :=
    if distance_nm <? $0.05 then ($0.0, $0.2)
    else if distance_nm <? $0.5 then ($0.0, Num.max $1.0 (distance_nm * $2))
    else (Num.max $0.0 (fix_dme_distance_nm - distance_nm - $1),
          fix_dme_distance_nm + distance_nm + $1) in
  if min_dist >=? max_dist then ($0.0, Num.max $1.0 (distance_nm * $2))
  else (min_dist, max_dist).

(** The error of a point: [abs(Inverse(point, dme)['s12'] - distance_m)]. *)
Definition error_of (dme_coords : Coordinates) (distance_m : Qc)
  (p : Coordinates) : Qc :=
  Num.abs (s12 (Inverse GEODESIC (lat p) (lon p) (lat dme_coords) (lon dme_coords))
           - distance_m).

(** Body of [for iteration in range(MAX_ITERATIONS)]. *)
Definition bisect_body (fix_coords : Coordinates) (true_bearing : Qc)
  (dme_coords : Coordinates) (distance_m : Qc) (st : Search)
  : Result (Flow Search) :=
  let test_dist := (min_dist st + max_dist st) / $2.0 in
  let test_point_result :=
    Direct GEODESIC (lat fix_coords) (lon fix_coords) true_bearing
           (nm_to_meters test_dist) in
  test_point <- new_Coordinates (lat2 test_point_result) (lon2 test_point_result) ;;
  let test_to_dme :=
    Inverse GEODESIC (lat test_point) (lon test_point)
            (lat dme_coords) (lon dme_coords) in
  let test_to_dme_m := s12 test_to_dme in
  let error_m := Num.abs (test_to_dme_m - distance_m) in
  let '(best_d, best_p) :=
    if Num.ltb_x error_m (best_approx_distance st)
    then (Num.Fin error_m, test_point)
    else (best_approx_distance st, best_approx_point st) in
  let log lo hi :=
    {| pass_dist := test_dist; pass_point := test_point; pass_error := error_m;
       pass_min := lo; pass_max := hi |} :: passes st in
  if error_m <? DISTANCE_TOLERANCE_M then
    Ok (Break {| min_dist := min_dist st; max_dist := max_dist st;
                 best_approx_distance := best_d; best_approx_point := best_p;
                 passes := log (min_dist st) (max_dist st) |})
  else
    let '(lo, hi) :=
      if test_to_dme_m >? distance_m then (min_dist st, test_dist)
      else (test_dist, max_dist st) in
    let st' := {| min_dist := lo; max_dist := hi;
                  best_approx_distance := best_d; best_approx_point := best_p;
                  passes := log lo hi |} in
    if (hi - lo) <? $0.000001 then Ok (Break st') else Ok (Next st').

(** The state on entry to the loop. *)
Definition search_init (fix_coords dme_coords : Coordinates) (distance_nm : Qc)
  : Search :=
  let fix_dme_result :=
    Inverse GEODESIC (lat fix_coords) (lon fix_coords)
            (lat dme_coords) (lon dme_coords) in
  let fix_dme_distance_nm := meters_to_nm (s12 fix_dme_result) in
  let '(lo, hi) := search_range fix_dme_distance_nm distance_nm in
  {| min_dist := lo; max_dist := hi;
     best_approx_distance := Num.Inf;
     best_approx_point :=
       match new_Coordinates (lat fix_coords) (lon fix_coords) with
       | Ok c => c
       | Raise _ => {| lat := $0; lon := $0 |}
       end;
     passes := [] |}.

(** The loop of [_find_radial_distance_intersection], run to its end. *)
Definition search (fix_coords : Coordinates) (true_bearing : Qc)
  (dme_coords : Coordinates) (distance_nm : Qc) : Result Search :=
  let distance_m := nm_to_meters distance_nm in
  for_range MAX_ITERATIONS
            (bisect_body fix_coords true_bearing dme_coords distance_m)
            (search_init fix_coords dme_coords distance_nm).

(** [_find_radial_distance_intersection] *)
Definition _find_radial_distance_intersection (fix_coords : Coordinates)
  (true_bearing : Qc) (dme_coords : Coordinates) (distance_nm : Qc)
  : Result Coordinates :=
  st <- search fix_coords true_bearing dme_coords distance_nm ;;
  Ok (best_approx_point st).

End WithOracle.

End VorFixCalculation.

(** ** core_vor_calc.py *)

Module CoreVorCalc.

Record Coordinates : Type := { lat : Qc; lon : Qc }.

(** [Coordinates(lat, lon)] with the [__post_init__] of this file. *)
Definition new_Coordinates (lat lon : Qc) : Result Coordinates :=
  if negb ((- $90 <=? lat) && (lat <=? $90)) then
    Raise (LatitudeOutOfRange lat)
  else if negb ((- $180 <=? lon) && (lon <=? $180)) then
    Raise (LongitudeOutOfRange lon)
  else Ok {| lat := lat; lon := lon |}.

(** [CoordinateCalculator._calculate_accuracy_rating] *)
Definition _calculate_accuracy_rating (distance_error_m azimuth_error_deg : Qc)
  : string :=
  if (distance_error_m <=? $1.0) && (azimuth_error_deg <=? $0.001) then "EXCELLENT"
  else if (distance_error_m <=? $5.0) && (azimuth_error_deg <=? $0.01) then "VERY_GOOD"
  else if (distance_error_m <=? $10.0) && (azimuth_error_deg <=? $0.1) then "GOOD"
  else if (distance_error_m <=? $50.0) && (azimuth_error_deg <=? $1.0) then "ACCEPTABLE"
  else "POOR".

(** The dictionary returned by [validate_calculation_accuracy]. *)
Record Accuracy : Type := {
  distance_error_nm : Qc;
  distance_error_m : Qc;
  azimuth_error_deg : Qc;
  actual_distance_nm : Qc;
  actual_azimuth_deg : Qc;
  accuracy_rating : string
}.

(** The dictionary returned by [calculate_precision_metrics]. *)
Record Metrics : Type := {
  mean_distance_error_m : Qc;
  max_distance_error_m : Qc;
  min_distance_error_m : Qc;
  mean_azimuth_error_deg : Qc;
  max_azimuth_error_deg : Qc;
  min_azimuth_error_deg : Qc;
  total_calculations : nat
}.

(** [sum(xs)], and [max(xs)], [min(xs)] of the non-empty list [x :: xs]. *)
Definition sum (xs : list Qc) : Qc := fold_left Qcplus xs $0.
Definition max_of (x : Qc) (xs : list Qc) : Qc := fold_left Num.max xs x.
Definition min_of (x : Qc) (xs : list Qc) : Qc := fold_left Num.min xs x.
Definition len {A : Type} (xs : list A) : Qc := Num.of_Z (Z.of_nat (List.length xs)).

Section WithOracle.

Variable GEODESIC : Geodesic.
Variable FLOAT : Num.Rounding.

(** The variables of the step-size loop of
    [calculate_target_coords_geodesic]. *)
Record Refine : Type := { optimal_coords : Coordinates; min_error : Qc }.

Definition step_body (azimuth step_distance : Qc) (step_coords : Coordinates)
  : Result (Flow Coordinates) :=
  let step_result :=
    Direct GEODESIC (lat step_coords) (lon step_coords) azimuth step_distance in
  c <- new_Coordinates (lat2 step_result) (lon2 step_result) ;;
  Ok (Next c).

(** Body of [for step_size_km in step_sizes]. *)
Definition refine_body (start_coords : Coordinates)
  (azimuth distance_nm distance_m : Qc) (step_size_km : Qc) (st : Refine)
  : Result (Flow Refine) :=
  if distance_nm <? step_size_km / $1.852 then Ok (Next st)
  else
    let num_steps := Z.max 2 (Num.int (distance_nm * $1.852 / step_size_km)) in
    let step_distance := distance_m / Num.of_Z num_steps in
    step_coords <- for_range (Z.to_nat num_steps)
                     (step_body azimuth step_distance) start_coords ;;
    let final_verification :=
      Inverse GEODESIC (lat start_coords) (lon start_coords)
              (lat step_coords) (lon step_coords) in
    let final_distance_error := Num.abs (s12 final_verification - distance_m) in
    if final_distance_error <? min_error st then
      let st' := {| optimal_coords := step_coords;
                    min_error := final_distance_error |} in
      if final_distance_error <=? DISTANCE_TOLERANCE_M then Ok (Break st')
      else Ok (Next st')
    else Ok (Next st).

(** [CoordinateCalculator.calculate_target_coords_geodesic] *)
Definition calculate_target_coords_geodesic
  (start_coords : Coordinates) (azimuth distance_nm : Qc) : Result Coordinates :=
  let distance_m := nm_to_meters distance_nm in
  let result :=
    Direct GEODESIC (lat start_coords) (lon start_coords) azimuth distance_m in
  initial_coords <- new_Coordinates (lat2 result) (lon2 result) ;;
  let verification :=
    Inverse GEODESIC (lat start_coords) (lon start_coords)
            (lat2 result) (lon2 result) in
  let actual_distance_m := s12 verification in
  let distance_error_m := Num.abs (actual_distance_m - distance_m) in
  if distance_error_m <=? DISTANCE_TOLERANCE_M then Ok initial_coords
  else
    let step_sizes := [$100; $250; $500; $1000] in
    st <- for_each step_sizes
            (refine_body start_coords azimuth distance_nm distance_m)
            {| optimal_coords := initial_coords; min_error := distance_error_m |} ;;
    Ok (optimal_coords st).

(** [CoordinateCalculator.validate_calculation_accuracy] *)
Definition validate_calculation_accuracy (start_coords end_coords : Coordinates)
  (expected_azimuth expected_distance_nm : Qc) : Accuracy :=
  let result :=
    Inverse GEODESIC (lat start_coords) (lon start_coords)
            (lat end_coords) (lon end_coords) in
  let actual_distance_m := s12 result in
  let actual_distance_nm := meters_to_nm actual_distance_m in
  let actual_azimuth := azi1 result in
  let actual_azimuth := Num.pymod FLOAT actual_azimuth $360 in
  let expected_azimuth := Num.pymod FLOAT expected_azimuth $360 in
  let azimuth_diff := Num.abs (actual_azimuth - expected_azimuth) in
  let azimuth_diff := Num.min azimuth_diff ($360 - azimuth_diff) in
  let distance_error_nm := Num.abs (actual_distance_nm - expected_distance_nm) in
  let distance_error_m :=
    Num.abs (actual_distance_m - nm_to_meters expected_distance_nm) in
  {| distance_error_nm := distance_error_nm;
     distance_error_m := distance_error_m;
     azimuth_error_deg := azimuth_diff;
     actual_distance_nm := actual_distance_nm;
     actual_azimuth_deg := actual_azimuth;
     accuracy_rating := _calculate_accuracy_rating distance_error_m azimuth_diff |}.

(** [CoordinateCalculator.calculate_precision_metrics].  Past the
    [if not calculations] guard the list has a first element. *)
Definition calculate_precision_metrics
  (calculations : list (Coordinates * Coordinates * Qc * Qc)) : Metrics :=
  match calculations with
  | [] =>
      {| mean_distance_error_m := $0.0; max_distance_error_m := $0.0;
         min_distance_error_m := $0.0; mean_azimuth_error_deg := $0.0;
         max_azimuth_error_deg := $0.0; min_azimuth_error_deg := $0.0;
         total_calculations := 0 |}
  | c :: cs =>
      let validate '(start_coords, end_coords, expected_azimuth, expected_distance_nm) :=
        validate_calculation_accuracy start_coords end_coords
                                      expected_azimuth expected_distance_nm in
      let d := distance_error_m (validate c) in
      let ds := map (fun x => distance_error_m (validate x)) cs in
      let a := azimuth_error_deg (validate c) in
      let az := map (fun x => azimuth_error_deg (validate x)) cs in
      {| mean_distance_error_m := sum (d :: ds) / len (d :: ds);
         max_distance_error_m := max_of d ds;
         min_distance_error_m := min_of d ds;
         mean_azimuth_error_deg := sum (a :: az) / len (a :: az);
         max_azimuth_error_deg := max_of a az;
         min_azimuth_error_deg := min_of a az;
         total_calculations := List.length calculations |}
  end.

End WithOracle.

End CoreVorCalc.

(** ** The earlier revisions, "VOR FIX CALCULATION.py"

    Module-level functions and methods on plain latitude/longitude numbers;
    points are dictionaries [{'lat': ..., 'lon': ...}] and nothing validates
    them.  The constants [MAX_ITERATIONS], [DISTANCE_TOLERANCE_M] and
    [METERS_PER_NM] of the revision with the stagnation step are those
    above. *)

Module Legacy.

Record Point : Type := { lat : Qc; lon : Qc }.

(** [get_radius_letter] *)
Definition ranges : list (Qc * Qc * string) :=
  [ ($0.1, $1.4, "A"); ($1.5, $2.4, "B"); ($2.5, $3.4, "C"); ($3.5, $4.4, "D");
    ($4.5, $5.4, "E"); ($5.5, $6.4, "F"); ($6.5, $7.4, "G"); ($7.5, $8.4, "H");
    ($8.5, $9.4, "I"); ($9.5, $10.4, "J"); ($10.5, $11.4, "K"); ($11.5, $12.4, "L");
    ($12.5, $13.4, "M"); ($13.5, $14.4, "N"); ($14.5, $15.4, "O"); ($15.5, $16.4, "P");
    ($16.5, $17.4, "Q"); ($17.5, $18.4, "R"); ($18.5, $19.4, "S"); ($19.5, $20.4, "T");
    ($20.5, $21.4, "U"); ($21.5, $22.4, "V"); ($22.5, $23.4, "W"); ($23.5, $24.4, "X");
    ($24.5, $25.4, "Y"); ($25.5, $26.4, "Z") ]%string.

Fixpoint scan_ranges (distance_nm : Qc) (rs : list (Qc * Qc * string))
  : option string :=
  match rs with
  | [] => None
  | (low, high, letter) :: rs' =>
      if (low <=? distance_nm) && (distance_nm <=? high) then Some letter
      else scan_ranges distance_nm rs'
  end.

Definition get_radius_letter (distance_nm : Qc) : string :=
  match scan_ranges distance_nm ranges with
  | Some letter => letter
  | None => "Z"%string
  end.

(** Ghost record of one oracle evaluation: which statement made it, the
    distance along the radial, the point reached and its distance to the
    DME in meters. *)
Inductive EvalKind : Type := Midpoint | Endpoint | Secant.

Record Eval : Type := {
  eval_kind : EvalKind;
  eval_dist : Qc;
  eval_point : Point;
  eval_to_dme_m : Qc
}.

(** Ghost record of one pass of the loop: its evaluations in order, the
    outcome of the test [abs(prev_error - error_m) < DISTANCE_TOLERANCE_M / 10]
    ([false] when the pass ends before it), whether the stagnation branch
    ran, and the bracket the pass leaves behind. *)
Record Pass : Type := {
  pass_evals : list Eval;
  pass_small : bool;
  pass_stagnation : bool;
  pass_min : Qc;
  pass_max : Qc
}.

(** The variables of [find_radial_distance_intersection] that are read
    after the pass that wrote them.  [passes] is ghost state, most recent
    pass first; nothing reads it. *)
Record Search : Type := {
  min_dist : Qc;
  max_dist : Qc;
  intersection_found : bool;
  best_approx_distance : Num.xfloat;
  best_approx_point : Point;
  prev_error : Num.xfloat;
  stagnation_counter : Z;
  passes : list Pass
}.

(** The initial bracket; this revision has no check of [min_dist >= max_dist]. *)
Definition search_range (fix_dme_distance_nm distance_nm : Qc) : Qc * Qc :=
  if distance_nm <? $0.05 then ($0.0, $0.2)
  else if distance_nm <? $0.5 then ($0.0, Num.max $1.0 (distance_nm * $2))
  else (Num.max $0.0 (fix_dme_distance_nm - distance_nm - $1),
        fix_dme_distance_nm + distance_nm + $1).

(** "Reset stagnation counter and adjust bounds": the new bracket.
    [test_to_dme_m] is the value measured at the midpoint of the pass, also
    when [test_dist] has been replaced by the interpolated distance. *)
Definition adjust_bounds (min_dist max_dist test_dist test_to_dme_m distance_m : Qc)
  : Qc * Qc :=
  if (min_dist <? test_dist) && (test_dist <? max_dist) then
    if test_to_dme_m >? distance_m then (min_dist, test_dist)
    else (test_dist, max_dist)
  else
    let min_dist := (min_dist + max_dist) / $3 in
    let max_dist := $2 * (min_dist + max_dist) / $3 in
    (min_dist, max_dist).

Section WithOracle.

Variable GEODESIC : Geodesic.

Definition error_of (lat_dme lon_dme distance_m : Qc) (p : Point) : Qc :=
  Num.abs (s12 (Inverse GEODESIC (lat p) (lon p) lat_dme lon_dme) - distance_m).

(** Body of [for iteration in range(MAX_ITERATIONS)]. *)
Definition search_body (lat_fix lon_fix true_bearing lat_dme lon_dme distance_m : Qc)
  (st : Search) : Flow Search :=
  let test_dist := (min_dist st + max_dist st) / $2.0 in
  let test_point :=
    Direct GEODESIC lat_fix lon_fix true_bearing (nm_to_meters test_dist) in
  let lat_test := lat2 test_point in
  let lon_test := lon2 test_point in
  let test_to_dme := Inverse GEODESIC lat_test lon_test lat_dme lon_dme in
  let test_to_dme_m := s12 test_to_dme in
  let error_m := Num.abs (test_to_dme_m - distance_m) in
  let '(best_d, best_p) :=
    if Num.ltb_x error_m (best_approx_distance st)
    then (Num.Fin error_m, {| lat := lat_test; lon := lon_test |})
    else (best_approx_distance st, best_approx_point st) in
  let mid := {| eval_kind := Midpoint; eval_dist := test_dist;
                eval_point := {| lat := lat_test; lon := lon_test |};
                eval_to_dme_m := test_to_dme_m |} in
  if error_m <? DISTANCE_TOLERANCE_M then
    Break {| min_dist := min_dist st; max_dist := max_dist st;
             intersection_found := true;
             best_approx_distance := best_d; best_approx_point := best_p;
             prev_error := prev_error st;
             stagnation_counter := stagnation_counter st;
             passes := {| pass_evals := [mid]; pass_small := false;
                          pass_stagnation := false;
                          pass_min := min_dist st; pass_max := max_dist st |}
                       :: passes st |}
  else
    let small :=
      Num.abs_diff_ltb (prev_error st) error_m (DISTANCE_TOLERANCE_M / $10) in
    let counter := if small then (stagnation_counter st + 1)%Z else 0%Z in
    if (counter >? 5)%Z then
      let test_dist_1 := min_dist st in
      let point_1 :=
        Direct GEODESIC lat_fix lon_fix true_bearing (nm_to_meters test_dist_1) in
      let to_dme_1 :=
        Inverse GEODESIC (lat2 point_1) (lon2 point_1) lat_dme lon_dme in
      let error_1 := s12 to_dme_1 - distance_m in
      let test_dist_2 := max_dist st in
      let point_2 :=
        Direct GEODESIC lat_fix lon_fix true_bearing (nm_to_meters test_dist_2) in
      let to_dme_2 :=
        Inverse GEODESIC (lat2 point_2) (lon2 point_2) lat_dme lon_dme in
      let error_2 := s12 to_dme_2 - distance_m in
      let ends :=
        [ {| eval_kind := Endpoint; eval_dist := test_dist_1;
             eval_point := {| lat := lat2 point_1; lon := lon2 point_1 |};
             eval_to_dme_m := s12 to_dme_1 |};
          {| eval_kind := Endpoint; eval_dist := test_dist_2;
             eval_point := {| lat := lat2 point_2; lon := lon2 point_2 |};
             eval_to_dme_m := s12 to_dme_2 |} ] in
      (* the statements after the [if error_1 != error_2] block *)
      let rest test_dist best_d best_p evals :=
        let '(lo, hi) :=
          adjust_bounds (min_dist st) (max_dist st) test_dist test_to_dme_m
                        distance_m in
        Next {| min_dist := lo; max_dist := hi;
                intersection_found := intersection_found st;
                best_approx_distance := best_d; best_approx_point := best_p;
                prev_error := prev_error st;
                stagnation_counter := 0;
                passes := {| pass_evals := evals; pass_small := small;
                             pass_stagnation := true;
                             pass_min := lo; pass_max := hi |} :: passes st |} in
      if negb (error_1 =? error_2) then
        let test_dist :=
          test_dist_1
          + (test_dist_2 - test_dist_1) * ($0 - error_1) / (error_2 - error_1) in
        let test_point :=
          Direct GEODESIC lat_fix lon_fix true_bearing (nm_to_meters test_dist) in
        let lat_test := lat2 test_point in
        let lon_test := lon2 test_point in
        let test_to_dme := Inverse GEODESIC lat_test lon_test lat_dme lon_dme in
        let error_m := Num.abs (s12 test_to_dme - distance_m) in
        let '(best_d, best_p) :=
          if Num.ltb_x error_m best_d
          then (Num.Fin error_m, {| lat := lat_test; lon := lon_test |})
          else (best_d, best_p) in
        let sec := {| eval_kind := Secant; eval_dist := test_dist;
                      eval_point := {| lat := lat_test; lon := lon_test |};
                      eval_to_dme_m := s12 test_to_dme |} in
        if error_m <? DISTANCE_TOLERANCE_M then
          Break {| min_dist := min_dist st; max_dist := max_dist st;
                   intersection_found := true;
                   best_approx_distance := best_d; best_approx_point := best_p;
                   prev_error := prev_error st;
                   stagnation_counter := counter;
                   passes := {| pass_evals := mid :: ends ++ [sec];
                                pass_small := small;
                                pass_stagnation := true;
                                pass_min := min_dist st;
                                pass_max := max_dist st |} :: passes st |}
        else rest test_dist best_d best_p (mid :: ends ++ [sec])
      else rest test_dist best_d best_p (mid :: ends)
    else
      let prev_error := Num.Fin error_m in
      let '(lo, hi) :=
        if test_to_dme_m >? distance_m then (min_dist st, test_dist)
        else (test_dist, max_dist st) in
      let st' := {| min_dist := lo; max_dist := hi;
                    intersection_found := intersection_found st;
                    best_approx_distance := best_d; best_approx_point := best_p;
                    prev_error := prev_error;
                    stagnation_counter := counter;
                    passes := {| pass_evals := [mid]; pass_small := small;
                                 pass_stagnation := false;
                                 pass_min := lo; pass_max := hi |} :: passes st |} in
      if (hi - lo) <? $0.000001 then Break st' else Next st'.

(** The state on entry to the loop. *)
Definition search_init (lat_fix lon_fix lat_dme lon_dme distance_nm : Qc) : Search :=
  let fix_dme_result := Inverse GEODESIC lat_fix lon_fix lat_dme lon_dme in
  let fix_dme_distance_m := s12 fix_dme_result in
  let fix_dme_distance_nm := meters_to_nm fix_dme_distance_m in
  let '(lo, hi) := search_range fix_dme_distance_nm distance_nm in
  {| min_dist := lo; max_dist := hi;
     intersection_found := false;
     best_approx_distance := Num.Inf;
     best_approx_point := {| lat := $0; lon := $0 |};
     prev_error := Num.Inf;
     stagnation_counter := 0;
     passes := [] |}.

Definition search (lat_fix lon_fix true_bearing lat_dme lon_dme distance_nm : Qc)
  : Search :=
  let distance_m := nm_to_meters distance_nm in
  for_range_pure MAX_ITERATIONS
    (search_body lat_fix lon_fix true_bearing lat_dme lon_dme distance_m)
    (search_init lat_fix lon_fix lat_dme lon_dme distance_nm).

(** [CoordinateCalculatorApp.find_radial_distance_intersection].  The final
    [print] of the achieved precision is not modelled. *)
Definition find_radial_distance_intersection
  (lat_fix lon_fix true_bearing lat_dme lon_dme distance_nm : Qc) : Point :=
  let distance_m := nm_to_meters distance_nm in
  let st := search lat_fix lon_fix true_bearing lat_dme lon_dme distance_nm in
  let result_point := best_approx_point st in
  if intersection_found st then
    let error_m := error_of lat_dme lon_dme distance_m result_point in
    if error_m >? DISTANCE_TOLERANCE_M then best_approx_point st
    else result_point
  else result_point.

End WithOracle.

End Legacy.

(** ** Oracles to run the definitions on *)

Module Chart.

(** A flat chart measured with the taxicab metric, 60 NM to the unit of
    latitude and of longitude; [Direct] travels along the meridian,
    northwards for a positive distance, whatever the azimuth, and stops at
    the edge of the chart (latitude 90 or -90). *)
Definition unit_m : Qc := $60 * METERS_PER_NM.

Definition clamp_lat (x : Qc) : Qc := Num.max (- $90) (Num.min x $90).

Definition taxicab : Geodesic :=
  {| Direct := fun lat1 lon1 _ s =>
       {| lat2 := clamp_lat (lat1 + s / unit_m); lon2 := lon1 |};
     Inverse := fun lat1 lon1 lat2 lon2 =>
       {| s12 := (Num.abs (lat2 - lat1) + Num.abs (lon2 - lon1)) * unit_m;
          azi1 := $0 |} |}.

(** The same chart with an inverse operation that reports the initial
    azimuth 0.1 for every pair of points. *)
Definition azimuth_0_1 : Geodesic :=
  {| Direct := Direct taxicab;
     Inverse := fun lat1 lon1 lat2 lon2 =>
       {| s12 := s12 (Inverse taxicab lat1 lon1 lat2 lon2); azi1 := $0.1 |} |}.

(** The same chart with a forward operation whose error grows with the
    length of the leg: a leg of [s] metres overshoots by [(s / 10^6)^2]
    metres. *)
Definition drift : Geodesic :=
  {| Direct := fun lat1 lon1 _ s =>
       {| lat2 := clamp_lat (lat1 + (s + (s / $1000000) * (s / $1000000)) / unit_m);
          lon2 := lon1 |};
     Inverse := Inverse taxicab |}.

(** The same chart with an inverse operation that is 2 m long on every
    pair of points. *)
Definition long_by_2 : Geodesic :=
  {| Direct := Direct taxicab;
     Inverse := fun lat1 lon1 lat2 lon2 =>
       {| s12 := s12 (Inverse taxicab lat1 lon1 lat2 lon2) + $2; azi1 := $0 |} |}.

(** The same chart with an inverse operation that reports an initial
    azimuth a hair west of north, [-2^-60] degrees, for every pair of
    points. *)
Definition west_of_north : Geodesic :=
  {| Direct := Direct taxicab;
     Inverse := fun lat1 lon1 lat2 lon2 =>
       {| s12 := s12 (Inverse taxicab lat1 lon1 lat2 lon2);
          azi1 := - ($1 / $1152921504606846976) |} |}.

(** The rounding of a sum between 256 and 512, where the floats are the
    multiples of [2^-44]: the nearest multiple, the upper one of two
    nearest. *)
Definition doubles : Num.Rounding.
Proof.
  refine {| Num.fl := fun x =>
              Num.of_Z (Num.floor (x * $17592186044416 + $0.5))
              / $17592186044416 |}.
  - intros x y H. unfold Qcdiv. apply Qcmult_le_compat_r.
    + unfold Num.of_Z, Num.floor, Qcle.
      change (this (Q2Qc ?q)) with (Qred q). rewrite !Qred_correct.
      rewrite <- Zle_Qle. apply Qfloor_resp_le.
      change (x * $17592186044416 + $0.5 <= y * $17592186044416 + $0.5).
      apply Qcplus_le_compat; [| apply Qcle_refl].
      apply Qcmult_le_compat_r; [exact H | vm_compute; discriminate].
    + vm_compute; discriminate.
  - apply Qc_is_canon. reflexivity.
  - apply Qc_is_canon. reflexivity.
Defined.

End Chart.

(** ** The projection procedure as the specification words it

    Section 4.1: convert, project once, verify with one inverse call, return
    the point if the error is at most 0.1 m, otherwise walk
    [max(1, floor(distanceNM / 500))] equal steps.  Points are built with the
    validating constructor of [vor_fix_calculation.py]. *)

Module Spec.

Import VorFixCalculation.

Section WithOracle.

Variable GEODESIC : Geodesic.

(** [numSteps] consecutive forward calls of [stepM] each, every destination
    becoming the next origin. *)
Fixpoint walk (numSteps : nat) (trueBearing stepM : Qc) (origin : Coordinates)
  : Result Coordinates :=
  match numSteps with
  | O => Ok origin
  | S n =>
      let r := Direct GEODESIC (lat origin) (lon origin) trueBearing stepM in
      p <- new_Coordinates (lat2 r) (lon2 r) ;;
      walk n trueBearing stepM p
  end.

Definition project (origin : Coordinates) (trueBearing distanceNM : Qc)
  : Result Coordinates :=
  let distanceM := distanceNM * $1852.0 in
  let r := Direct GEODESIC (lat origin) (lon origin) trueBearing distanceM in
  let actualDistanceM :=
    s12 (Inverse GEODESIC (lat origin) (lon origin) (lat2 r) (lon2 r)) in
  let distanceErrorM := Num.abs (actualDistanceM - distanceM) in
  if distanceErrorM <=? $0.1 then new_Coordinates (lat2 r) (lon2 r)
  else
    let numSteps := Z.max 1 (Num.floor (distanceNM / $500)) in
    walk (Z.to_nat numSteps) trueBearing (distanceM / Num.of_Z numSteps) origin.

End WithOracle.

End Spec.

(** ** Python strings

    The methods of [str] the repository calls, on strings of ASCII
    characters (code points below 128); what Python does on other
    characters is not modelled. *)

Module Str.

Definition code (c : ascii) : N := N_of_ascii c.

Definition ascii_only (s : string) : bool :=
  forallb (fun c => (code c <? 128)%N) (list_ascii_of_string s).

(** Whitespace: tab, line feed, vertical tab, form feed, carriage return,
    the four separators 28 to 31, and the space. *)
Definition space (c : ascii) : bool :=
  ((9 <=? code c) && (code c <=? 13))%N || ((28 <=? code c) && (code c <=? 32))%N.

Definition lower (c : ascii) : bool := ((97 <=? code c) && (code c <=? 122))%N.
Definition capital (c : ascii) : bool := ((65 <=? code c) && (code c <=? 90))%N.
Definition alpha (c : ascii) : bool := lower c || capital c.

Definition upper_char (c : ascii) : ascii :=
  if lower c then ascii_of_N (code c - 32) else c.

(** [s.upper()] *)
Fixpoint upper (s : string) : string :=
  match s with
  | EmptyString => EmptyString
  | String c s' => String (upper_char c) (upper s')
  end.

Fixpoint all (p : ascii -> bool) (s : string) : bool :=
  match s with
  | EmptyString => true
  | String c s' => p c && all p s'
  end.

(** [s.isalpha()]: at least one character, and all of them letters. *)
Definition isalpha (s : string) : bool :=
  match s with
  | EmptyString => false
  | _ => all alpha s
  end.

Definition len (s : string) : Z := Z.of_nat (String.length s).

Fixpoint lstrip (s : string) : string :=
  match s with
  | EmptyString => EmptyString
  | String c s' => if space c then lstrip s' else s
  end.

Fixpoint rstrip (s : string) : string :=
  match s with
  | EmptyString => EmptyString
  | String c s' =>
      match rstrip s' with
      | EmptyString => if space c then EmptyString else String c EmptyString
      | t => String c t
      end
  end.

(** [s.strip()] *)
Definition strip (s : string) : string := lstrip (rstrip s).

(** [s.split()]: the maximal runs of characters that are not whitespace. *)
Fixpoint split (s : string) : list string :=
  match s with
  | EmptyString => []
  | String c s' =>
      if space c then split s'
      else
        match s' with
        | EmptyString => [String c EmptyString]
        | String c' _ =>
            if space c' then String c EmptyString :: split s'
            else
              match split s' with
              | w :: ws => String c w :: ws
              | [] => [String c EmptyString]
              end
        end
  end.

(** [s.split(sep)] for a separator of one character. *)
Fixpoint split_on (sep : ascii) (s : string) : list string :=
  match s with
  | EmptyString => [EmptyString]
  | String c s' =>
      if Ascii.eqb c sep then EmptyString :: split_on sep s'
      else
        match split_on sep s' with
        | w :: ws => String c w :: ws
        | [] => [String c EmptyString]
        end
  end.

(** [sep.join(parts)] *)
Fixpoint join (sep : string) (parts : list string) : string :=
  match parts with
  | [] => EmptyString
  | p :: nil => p
  | p :: ps => (p ++ sep ++ join sep ps)%string
  end.

(** [s[:n]] *)
Fixpoint prefix (n : nat) (s : string) : string :=
  match n, s with
  | S n', String c s' => String c (prefix n' s')
  | _, _ => EmptyString
  end.

End Str.

(** ** Values and exceptions at the boundary with text *)

Module Py.

(** A float as [float(s)] can return it: the solver and the projection
    only ever see the finite ones. *)
Inductive pyfloat : Type :=
| Finite (x : Qc)
| PosInf
| NegInf
| NaN.

(** What [int(s)] does: a value, the [ValueError] "invalid literal for
    int()", or the [ValueError] of a literal with too many digits. *)
Inductive IntParse : Type :=
| IntValue (n : Z)
| InvalidLiteral
| TooManyDigits.

(** The comparisons of a float with a finite constant; every comparison
    with [nan] is false. *)
Definition le_const (c : Qc) (x : pyfloat) : bool :=
  match x with
  | Finite q => c <=? q
  | PosInf => true
  | NegInf | NaN => false
  end.

Definition lt_const (c : Qc) (x : pyfloat) : bool :=
  match x with
  | Finite q => c <? q
  | PosInf => true
  | NegInf | NaN => false
  end.

Definition const_le (x : pyfloat) (c : Qc) : bool :=
  match x with
  | Finite q => q <=? c
  | NegInf => true
  | PosInf | NaN => false
  end.

Definition const_lt (x : pyfloat) (c : Qc) : bool :=
  match x with
  | Finite q => q <? c
  | NegInf => true
  | PosInf | NaN => false
  end.

Inductive FileType : Type := NAV | FIX.

(** [file_type.value] *)
Definition value (file_type : FileType) : string :=
  match file_type with
  | NAV => "NAV"
  | FIX => "FIX"
  end.

(** The exceptions of the application code.  The message of a [ValueError]
    of the [Coordinates] constructor contains the [repr] of a float and is
    kept as the field and the float; the message of the exception a file
    operation fails with is not kept.  [ErrorCalculating] is the [Exception]
    that [calculate_from_dme] makes of one raised by the projection. *)
Inductive Exception : Type :=
| ValueError_ (message : string)
| OutOfRange (latitude : bool) (x : pyfloat)
| InvalidCoordinateFormat (latitude : bool) (x : pyfloat)
| CouldNotConvert (s : string)
| IntTooManyDigits
| IndexError (message : string)
| KeyError (key : string)
| FileNotFoundError (message : string)
| ErrorReading (file_type : FileType)
| ErrorCalculating (e : ValueError).

(** The exceptions an [except ValueError] clause catches. *)
Definition is_ValueError (e : Exception) : bool :=
  match e with
  | ValueError_ _ | OutOfRange _ _ | InvalidCoordinateFormat _ _
  | CouldNotConvert _ | IntTooManyDigits => true
  | _ => false
  end.

Inductive Except (A : Type) : Type :=
| Return (a : A)
| Throw (e : Exception).
Arguments Return {A} a.
Arguments Throw {A} e.

End Py.

(** ** vor_fix_calculation.py: input validation and navigation data *)

Module InputValidator.

Import Py Str.

(** [Coordinates(lat, lon)] on what [float(s)] returned: the chained
    comparisons of [__post_init__] are false on [nan] and on the
    infinities. *)
Definition Coordinates_ (lat lon : pyfloat) : Except VorFixCalculation.Coordinates :=
  if negb (le_const (- $90) lat && const_le lat $90) then
    Throw (OutOfRange true lat)
  else if negb (lt_const (- $180) lon && const_le lon $180) then
    Throw (OutOfRange false lon)
  else
    match lat, lon with
    | Finite a, Finite b =>
        Return {| VorFixCalculation.lat := a; VorFixCalculation.lon := b |}
    | _, _ => Throw (OutOfRange true lat)   (* no float is left for this case *)
    end.

Definition airport_code_length : string := "Airport code must be 4 letters".
Definition airport_code_letters : string := "Airport code must contain only letters".
Definition vor_identifier_letters : string :=
  "VOR identifier should be 1-3 letters and alphabetic".

(** [InputValidator.validate_airport_code] *)
Definition validate_airport_code (airport_code : string) : Except string :=
  let code := upper (strip airport_code) in
  if negb (len code =? 4)%Z then Throw (ValueError_ airport_code_length)
  else if negb (isalpha code) then Throw (ValueError_ airport_code_letters)
  else Return code.

(** [InputValidator.validate_vor_identifier] *)
Definition validate_vor_identifier (vor_id : string) : Except string :=
  match vor_id with
  | EmptyString => Return vor_id
  | _ =>
      let code := upper (strip vor_id) in
      if negb ((1 <=? len code)%Z && (len code <=? 3)%Z && isalpha code) then
        Throw (ValueError_ vor_identifier_letters)
      else Return code
  end.

Section WithParsers.

(** [float(s)], [None] for its [ValueError] "could not convert string to
    float", and [int(s)]. *)
Variable float : string -> option pyfloat.
Variable int : string -> IntParse.

(** [InputValidator.validate_coordinates] *)
Definition validate_coordinates (coords_str : string)
  : Except VorFixCalculation.Coordinates :=
  match strip coords_str with
  | EmptyString => Throw (ValueError_ "Coordinates cannot be empty")
  | _ =>
      match split (strip coords_str) with
      | a :: b :: nil =>
          match float a with
          | None => Throw (ValueError_ "Coordinates must be valid numbers")
          | Some lat =>
              match float b with
              | None => Throw (ValueError_ "Coordinates must be valid numbers")
              | Some lon =>
                  match Coordinates_ lat lon with
                  | Return c => Return c
                  | Throw (OutOfRange l x) => Throw (InvalidCoordinateFormat l x)
                  | Throw e => Throw e
                  end
              end
          end
      | _ =>
          Throw (ValueError_
            "Coordinates must contain exactly two numbers: latitude and longitude")
      end
  end.

(** [InputValidator.validate_bearing] *)
Definition validate_bearing (bearing_str : string) : Except pyfloat :=
  match float bearing_str with
  | None => Throw (ValueError_ "Bearing must be a number")
  | Some bearing =>
      if negb (le_const $0 bearing && const_lt bearing $360) then
        Throw (ValueError_ "Bearing should be within 0-359 degrees")
      else Return bearing
  end.

(** [InputValidator.validate_distance] *)
Definition validate_distance (distance_str : string) : Except pyfloat :=
  match float distance_str with
  | None => Throw (ValueError_ "Distance must be a number")
  | Some distance =>
      if const_le distance $0 then
        Throw (ValueError_ "Distance should be greater than 0 nautical miles")
      else Return distance
  end.

(** [InputValidator.validate_runway_code] *)
Definition validate_runway_code (runway_str : string) : Except Z :=
  match int runway_str with
  | InvalidLiteral => Throw (ValueError_ "Runway code must be a number")
  | TooManyDigits => Throw IntTooManyDigits
  | IntValue runway =>
      if negb ((0 <=? runway)%Z && (runway <=? 99)%Z) then
        Throw (ValueError_ "Runway code should be between 0 and 99")
      else Return runway
  end.

End WithParsers.

End InputValidator.

Module NavigationDataService.

Import Py Str.

(** The attributes of the service. *)
Record Service : Type := { nav_file_path : string; fix_file_path : string }.

(** [NavigationDataService()] *)
Definition new : Service := {| nav_file_path := ""; fix_file_path := "" |}.

(** [set_file_path] *)
Definition set_file_path (self : Service) (file_type : FileType) (path : string)
  : Service :=
  match file_type with
  | NAV => {| nav_file_path := path; fix_file_path := fix_file_path self |}
  | FIX => {| nav_file_path := nav_file_path self; fix_file_path := path |}
  end.

(** What opening a path and reading the file to its end gives: its lines,
    [FileNotFoundError], or another exception on the way. *)
Inductive Opened : Type :=
| Lines (lines : list string)
| NoSuchFile
| Failed.

Definition relevant_index (file_type : FileType) : nat :=
  match file_type with
  | NAV => 7
  | FIX => 2
  end.

(** Body of [for line in file]: the fields of a matching line are added to
    [matching_lines]. *)
Definition line_body (identifier : string) (file_type : FileType)
  (matching_lines : list (list string)) (line : string) : list (list string) :=
  let parts := split (strip line) in
  if (relevant_index file_type <? List.length parts)%nat
     && match nth_error parts (relevant_index file_type) with
        | Some part => String.eqb part (upper identifier)
        | None => false
        end
  then matching_lines ++ [parts]
  else matching_lines.

Section WithFiles.

Variable open : string -> Opened.

(** [search_identifier] *)
Definition search_identifier (self : Service) (identifier : string)
  (file_type : FileType) : Except (list (list string)) :=
  let file_path :=
    match file_type with
    | NAV => nav_file_path self
    | FIX => fix_file_path self
    end in
  match file_path with
  | EmptyString =>
      Throw (FileNotFoundError ("No " ++ value file_type ++ " file selected"))
  | _ =>
      match open file_path with
      | Lines lines => Return (fold_left (line_body identifier file_type) lines [])
      | NoSuchFile => Throw (FileNotFoundError ("File not found: " ++ file_path))
      | Failed => Throw (ErrorReading file_type)
      end
  end.

End WithFiles.

End NavigationDataService.

(** ** Numbers as text *)

Module Fmt.

Definition digit (n : N) : ascii := ascii_of_N (48 + n).

(** The decimal digits of [n], most significant first; [fuel] bounds their
    number. *)
Fixpoint digits (fuel : nat) (n : N) : string :=
  match fuel with
  | O => EmptyString
  | S fuel' =>
      if (n <? 10)%N then String (digit n) EmptyString
      else (digits fuel' (n / 10) ++ String (digit (n mod 10)) EmptyString)%string
  end.

Definition decimal (n : N) : string := digits (S (N.to_nat (N.log2 n))) n.

Fixpoint zeros (k : nat) : string :=
  match k with
  | O => EmptyString
  | S k' => String "0" (zeros k')
  end.

(** [str(n)] and [f"{n}"] for an [int]. *)
Definition str (n : Z) : string :=
  ((if (n <? 0)%Z then "-" else "") ++ decimal (Z.abs_N n))%string.

(** [f"{n:0{width}d}"]: the sign, then zeros up to the width, then the
    digits. *)
Definition zero_padded (width : nat) (n : Z) : string :=
  let sign := (if (n <? 0)%Z then "-" else "")%string in
  let ds := decimal (Z.abs_N n) in
  (sign ++ zeros (width - String.length sign - String.length ds) ++ ds)%string.

(** [round(x)] of a float: the nearest integer, the even one of two
    nearest. *)
Definition round (x : Qc) : Z :=
  let f := Num.floor x in
  let r := x - Num.of_Z f in
  if r <? $0.5 then f
  else if $0.5 <? r then (f + 1)%Z
  else if Z.even f then f else (f + 1)%Z.

(** [f"{x:.{precision}f}"] for a precision of at least 1: the value rounded
    to that many decimals, the even one of two nearest, with the sign of
    [x]. *)
Definition fixed (precision : nat) (x : Qc) : string :=
  let scale := (10 ^ Z.of_nat precision)%Z in
  let n := round (Num.abs x * Num.of_Z scale) in
  let frac := decimal (Z.to_N (n mod scale)) in
  let sign := if x <? $0 then "-"%string else ""%string in
  (sign ++ decimal (Z.to_N (n / scale)) ++ "."
   ++ zeros (precision - String.length frac) ++ frac)%string.

End Fmt.

(** ** core_vor_calc.py: coordinates and text

    [InputValidator.validate_coordinates] has the text of the one above; the
    [Coordinates] it constructs are those of this file. *)

Module CoreInputValidator.

Import Py Str.

(** [Coordinates.__str__] *)
Definition Coordinates_str (c : CoreVorCalc.Coordinates) : string :=
  (Fmt.fixed 9 (CoreVorCalc.lat c) ++ " " ++ Fmt.fixed 9 (CoreVorCalc.lon c))%string.

(** [Coordinates(lat, lon)] on what [float(s)] returned. *)
Definition Coordinates_ (lat lon : pyfloat) : Except CoreVorCalc.Coordinates :=
  if negb (le_const (- $90) lat && const_le lat $90) then
    Throw (OutOfRange true lat)
  else if negb (le_const (- $180) lon && const_le lon $180) then
    Throw (OutOfRange false lon)
  else
    match lat, lon with
    | Finite a, Finite b =>
        Return {| CoreVorCalc.lat := a; CoreVorCalc.lon := b |}
    | _, _ => Throw (OutOfRange true lat)   (* no float is left for this case *)
    end.

(** [InputValidator.validate_coordinates] *)
Definition validate_coordinates (float : string -> option pyfloat)
  (coords_str : string) : Except CoreVorCalc.Coordinates :=
  match strip coords_str with
  | EmptyString => Throw (ValueError_ "Coordinates cannot be empty")
  | _ =>
      match split (strip coords_str) with
      | a :: b :: nil =>
          match float a with
          | None => Throw (ValueError_ "Coordinates must be valid numbers")
          | Some lat =>
              match float b with
              | None => Throw (ValueError_ "Coordinates must be valid numbers")
              | Some lon =>
                  match Coordinates_ lat lon with
                  | Return c => Return c
                  | Throw (OutOfRange l x) => Throw (InvalidCoordinateFormat l x)
                  | Throw e => Throw e
                  end
              end
          end
      | _ =>
          Throw (ValueError_
            "Coordinates must contain exactly two numbers: latitude and longitude")
      end
  end.

End CoreInputValidator.

(** ** vor_fix_calculation.py: the two calculation frames *)

Module Frames.

Import Py Str.

(** [Coordinates.__str__] *)
Definition Coordinates_str (c : VorFixCalculation.Coordinates) : string :=
  (Fmt.fixed 9 (VorFixCalculation.lat c) ++ " "
   ++ Fmt.fixed 9 (VorFixCalculation.lon c))%string.

Definition OPERATION_CODES : list (string * string) :=
  [ ("Departure", "4464713"); ("Arrival", "4530249");
    ("Approach", "4595785") ]%string.

Definition FIX_TYPE_CODES : list (string * string) :=
  [ ("VORDME", "D"); ("VOR", "V"); ("NDBDME", "Q"); ("NDB", "N"); ("ILS", "I");
    ("RNP", "R") ]%string.

Definition FIX_USAGE_CODES : list (string * string) :=
  [ ("Final approach fix", "F"); ("Initial approach fix", "A");
    ("Intermediate approach fix", "I"); ("Final approach course fix", "C");
    ("Missed approach point fix", "M") ]%string.

Definition NAV_TYPE_DESCRIPTIONS : list (string * string) :=
  [ ("3", "VOR"); ("12", "DME (VOR)"); ("2", "NDB"); ("13", "DME");
    ("7", "OUTER MARKER"); ("8", "MIDDLE MARKER"); ("9", "INNER MARKER") ]%string.

(** [d.get(key)] of a dictionary literal, [None] when the key is missing. *)
Fixpoint get (d : list (string * string)) (key : string) : option string :=
  match d with
  | [] => None
  | (k, v) :: d' => if String.eqb k key then Some v else get d' key
  end.

(** [d[key]] *)
Definition item (d : list (string * string)) (key : string) : Except string :=
  match get d key with
  | Some v => Return v
  | None => Throw (KeyError key)
  end.

(** [line_parts[i]] *)
Definition part (line_parts : list string) (i : nat) : Except string :=
  match nth_error line_parts i with
  | Some p => Return p
  | None => Throw (IndexError "list index out of range")
  end.

(** One pass of [for line_parts in matching_lines] of
    [_handle_duplicate_entries]: the text and the value of the radio
    button; [relevant_index] is what the frame sets it to. *)
Definition radio_button (relevant_index : nat) (line_parts : list string)
  : Except (string * string) :=
  match part line_parts 0 with
  | Throw e => Throw e
  | Return first_part =>
      let type_str :=
        match get NAV_TYPE_DESCRIPTIONS first_part with
        | Some v => v
        | None => "Unknown"%string
        end in
      match part line_parts relevant_index with
      | Throw e => Throw e
      | Return identifier =>
          let display_text := (type_str ++ " - " ++ identifier)%string in
          let display_text :=
            if (9 <? List.length line_parts)%nat then
              match nth_error line_parts 9 with
              | Some location => (display_text ++ " - " ++ location)%string
              | None => display_text
              end
            else (display_text ++ " - [Location missing]")%string in
          Return (display_text, join "," line_parts)
      end
  end.

Fixpoint radio_buttons (relevant_index : nat) (matching_lines : list (list string))
  : Except (list (string * string)) :=
  match matching_lines with
  | [] => Return []
  | line_parts :: rest =>
      match radio_button relevant_index line_parts with
      | Throw e => Throw e
      | Return rb =>
          match radio_buttons relevant_index rest with
          | Throw e => Throw e
          | Return rbs => Return (rb :: rbs)
          end
      end
  end.

(** [confirm_choice]: the list the callback is called with, [None] when
    the warning is shown instead. *)
Definition confirm_choice (chosen_line : string) : option (list string) :=
  match chosen_line with
  | EmptyString => None
  | _ => Some (split_on "," chosen_line)
  end.

Section WithParsers.

Variable float : string -> option pyfloat.
Variable int : string -> IntParse.

(** [Coordinates(float(a), float(b))] *)
Definition parse_coordinates (a b : string) : Except VorFixCalculation.Coordinates :=
  match float a with
  | None => Throw (CouldNotConvert a)
  | Some lat =>
      match float b with
      | None => Throw (CouldNotConvert b)
      | Some lon => InputValidator.Coordinates_ lat lon
      end
  end.

(** The text a [_set_..._coords] method puts in its entry, or the exception
    it shows as "Data Error". *)
Definition set_coords (lat_index lon_index : nat) (insufficient : string)
  (line_parts : list string) : Except string :=
  if (List.length line_parts <=? Nat.max lat_index lon_index)%nat then
    Throw (IndexError insufficient)
  else
    match nth_error line_parts lat_index, nth_error line_parts lon_index with
    | Some a, Some b =>
        match parse_coordinates a b with
        | Return coordinates => Return (Coordinates_str coordinates)
        | Throw e => Throw e
        end
    | _, _ => Throw (IndexError "list index out of range")
    end.

End WithParsers.

End Frames.

Module WaypointCalculationFrame.

Import Py Str Frames.

(** [relevant_index] of [_handle_duplicate_entries]. *)
Definition relevant_index (file_type : FileType) : nat :=
  match file_type with
  | NAV => 7
  | FIX => 2
  end.

(** The radio buttons of [_handle_duplicate_entries]. *)
Definition _handle_duplicate_entries (file_type : FileType)
  (matching_lines : list (list string)) : Except (list (string * string)) :=
  radio_buttons (relevant_index file_type) matching_lines.

(** [_set_coordinates] *)
Definition _set_coordinates (float : string -> option pyfloat)
  (file_type : FileType) (line_parts : list string) : Except string :=
  let lat_index := match file_type with NAV => 1%nat | FIX => 0%nat end in
  let lon_index := match file_type with NAV => 2%nat | FIX => 1%nat end in
  set_coords float lat_index lon_index
    "Insufficient coordinate data in file entry" line_parts.

(** "Convert to true bearing if needed" of [calculate]; [magnetic] is
    [bearing_mode == BearingMode.MAGNETIC]. *)
Definition true_bearing (FLOAT : Num.Rounding) (magnetic : bool)
  (bearing declination : Qc) : Qc :=
  if magnetic then Num.pymod FLOAT (bearing + declination) $360
  else Num.pymod FLOAT bearing $360.

(** "Generate output" of [calculate], from the validated entries and the
    projected point. *)
Definition output (target_coords : VorFixCalculation.Coordinates)
  (bearing distance_nm : Qc) (airport_code vor_identifier operation_type : string)
  : Except string :=
  let radius_letter := VorFixCalculation.get_radius_letter distance_nm in
  match item OPERATION_CODES operation_type with
  | Throw e => Throw e
  | Return operation_code =>
      if distance_nm >? $26.5 then
        let rounded_distance_nm_int := Fmt.round distance_nm in
        let output :=
          (Coordinates_str target_coords ++ " "
           ++ vor_identifier ++ Fmt.str rounded_distance_nm_int ++ " "
           ++ airport_code ++ " " ++ prefix 2 airport_code)%string in
        match vor_identifier with
        | EmptyString => Return (output ++ " " ++ operation_code)%string
        | _ =>
            let bearing_int := Num.int bearing in
            Return (output ++ " " ++ operation_code ++ " "
                    ++ vor_identifier ++ Fmt.zero_padded 3 bearing_int
                    ++ Fmt.zero_padded 3 rounded_distance_nm_int)%string
        end
      else
        let output :=
          (Coordinates_str target_coords ++ " "
           ++ "D" ++ Fmt.zero_padded 3 (Num.int bearing) ++ radius_letter ++ " "
           ++ airport_code ++ " " ++ prefix 2 airport_code)%string in
        match vor_identifier with
        | EmptyString => Return (output ++ " " ++ operation_code)%string
        | _ =>
            let bearing_int := Num.int bearing in
            Return (output ++ " " ++ operation_code ++ " "
                    ++ vor_identifier ++ Fmt.zero_padded 3 bearing_int
                    ++ Fmt.zero_padded 3 (Fmt.round distance_nm))%string
        end
  end.

End WaypointCalculationFrame.

Module FixCalculationFrame.

Import Py Str Frames.

(** The radio buttons of [_handle_duplicate_entries]: this frame reads
    field 7 whatever the file. *)
Definition _handle_duplicate_entries (matching_lines : list (list string))
  : Except (list (string * string)) :=
  radio_buttons 7 matching_lines.

(** [_set_fix_coords] *)
Definition _set_fix_coords (float : string -> option pyfloat)
  (file_type : FileType) (line_parts : list string) : Except string :=
  let lat_index := match file_type with FIX => 0%nat | NAV => 1%nat end in
  let lon_index := match file_type with FIX => 1%nat | NAV => 2%nat end in
  set_coords float lat_index lon_index
    "Insufficient coordinate data in file entry" line_parts.

(** [_set_dme_coords] *)
Definition _set_dme_coords (float : string -> option pyfloat)
  (line_parts : list string) : Except string :=
  if (List.length line_parts <? 3)%nat then
    Throw (IndexError "Insufficient coordinate data in DME entry")
  else
    match nth_error line_parts 1, nth_error line_parts 2 with
    | Some a, Some b =>
        match parse_coordinates float a b with
        | Return coordinates => Return (Coordinates_str coordinates)
        | Throw e => Throw e
        end
    | _, _ => Throw (IndexError "list index out of range")
    end.

(** The [dme_lines] of [search_dme_coords]. *)
Definition dme_lines (matching_lines : list (list string)) : list (list string) :=
  filter (fun line =>
            (0 <? List.length line)%nat
            && match line with
               | first :: _ => String.eqb first "12" || String.eqb first "13"
               | [] => false
               end) matching_lines.

(** The [ValueError] of a [Coordinates] constructor, as the frames see
    it. *)
Definition of_ValueError (e : ValueError) : Exception :=
  match e with
  | LatitudeOutOfRange x => OutOfRange true (Finite x)
  | LongitudeOutOfRange x => OutOfRange false (Finite x)
  end.

(** [calculate_from_dme] from "Convert to true bearing" on, for the finite
    numbers the validators and [_get_effective_declination] returned;
    [magnetic] is [bearing_mode == BearingMode.MAGNETIC].  The result is
    the [intersection_point], whose text is put in the FIX entry, and the
    [accuracy_error_nm] of the message. *)
Definition calculate_from_dme (FLOAT : Num.Rounding) (GEODESIC : Geodesic)
  (fix_coords dme_coords : VorFixCalculation.Coordinates)
  (bearing distance_nm declination : Qc) (magnetic : bool)
  (distance_reference : string) : Except (VorFixCalculation.Coordinates * Qc) :=
  let true_bearing :=
    if magnetic then Num.pymod FLOAT (bearing + declination) $360
    else Num.pymod FLOAT bearing $360 in
  if String.eqb distance_reference "DME" then
    match VorFixCalculation._find_radial_distance_intersection GEODESIC
            fix_coords true_bearing dme_coords distance_nm with
    | Raise e => Throw (of_ValueError e)
    | Ok intersection_point =>
        let verification :=
          Inverse GEODESIC
            (VorFixCalculation.lat intersection_point)
            (VorFixCalculation.lon intersection_point)
            (VorFixCalculation.lat dme_coords)
            (VorFixCalculation.lon dme_coords) in
        let actual_distance_nm := s12 verification / $1852 in
        let accuracy_error_nm := Num.abs (actual_distance_nm - distance_nm) in
        Return (intersection_point, accuracy_error_nm)
    end
  else
    match VorFixCalculation.calculate_target_coords_geodesic GEODESIC
            fix_coords true_bearing distance_nm with
    | Ok intersection_point => Return (intersection_point, $0)
    | Raise e => Throw (ErrorCalculating e)
    end.

(** [AppMode.WAYPOINT] and [AppMode.FIX]. *)
Inductive AppMode : Type := WAYPOINT_MODE | FIX_MODE.

Record CalculationResult : Type := {
  coordinates : VorFixCalculation.Coordinates;
  output_string : string;
  timestamp : string;
  mode : AppMode
}.

(** What [calculate_fix] ends with: the call of the callback, or one of its
    two error dialogs. *)
Inductive Shown : Type :=
| Calculated (result : CalculationResult)
| InputError (e : Exception)
| CalculationError (e : Exception).

Definition handle (e : Exception) : Shown :=
  if is_ValueError e then InputError e else CalculationError e.

Section WithParsers.

Variable float : string -> option pyfloat.
Variable int : string -> IntParse.

(** [calculate_fix], on the contents of its three entries and three
    comboboxes; [now] is the formatted time of the call. *)
Definition calculate_fix
  (entry_fix_coords entry_runway_code entry_fix_airport_code : string)
  (combo_fix_type combo_fix_usage combo_fix_operation_type : string)
  (now : string) : Shown :=
  match InputValidator.validate_coordinates float entry_fix_coords with
  | Throw e => handle e
  | Return coordinates =>
  match InputValidator.validate_runway_code int entry_runway_code with
  | Throw e => handle e
  | Return runway_code =>
  match InputValidator.validate_airport_code entry_fix_airport_code with
  | Throw e => handle e
  | Return airport_code =>
  match item FIX_TYPE_CODES combo_fix_type with
  | Throw e => handle e
  | Return fix_code =>
  match item FIX_USAGE_CODES combo_fix_usage with
  | Throw e => handle e
  | Return usage_code =>
  match item OPERATION_CODES combo_fix_operation_type with
  | Throw e => handle e
  | Return operation_code =>
      let output :=
        (Coordinates_str coordinates ++ " "
         ++ usage_code ++ fix_code ++ Fmt.zero_padded 2 runway_code ++ " "
         ++ airport_code ++ " " ++ prefix 2 airport_code ++ " "
         ++ operation_code)%string in
      Calculated {| coordinates := coordinates; output_string := output;
                    timestamp := now; mode := FIX_MODE |}
  end end end end end end.

End WithParsers.

End FixCalculationFrame.

(** ** vor_fix_calculation.py: magnetic declination *)

Module MagneticDeclinationService.

(** The attributes [_initialize_geomag] sets; [calculate] is
    [self.geo_mag.calculate(glat, glon, alt, time)] followed by [.d], [None]
    when it raises. *)
Record Service : Type := {
  pygeomag_available : bool;
  geomag_initialized : bool;
  calculate : Qc -> Qc -> Qc -> Qc -> option Qc
}.

(** [today.year] and [today.timetuple().tm_yday] of
    [datetime.datetime.today()]. *)
Record Today : Type := { year : Z; tm_yday : Z }.

(** The [time] handed to the model. *)
Definition decimal_year (today : Today) : Qc :=
  Num.of_Z (year today) + Num.of_Z (tm_yday today - 1) / $365.

(** [get_declination] *)
Definition get_declination (self : Service) (today : Today)
  (coordinates : VorFixCalculation.Coordinates) : Qc :=
  if negb (pygeomag_available self && geomag_initialized self) then $0.0
  else
    match calculate self (VorFixCalculation.lat coordinates)
            (VorFixCalculation.lon coordinates) $0 (decimal_year today) with
    | Some d => d
    | None => $0.0
    end.

End MagneticDeclinationService.

(** ** The earlier revision: projection on plain numbers *)

Module LegacyProjection.

Section WithOracle.

Variable GEODESIC : Geodesic.
Variable FLOAT : Num.Rounding.

(** One pass of the multi-step loop. *)
Definition step_body (azimuth step_distance : Qc) (step : Qc * Qc)
  : Flow (Qc * Qc) :=
  let step_result := Direct GEODESIC (fst step) (snd step) azimuth step_distance in
  Next (lat2 step_result, lon2 step_result).

(** [calculate_target_coords_geodesic] of the revision with the stagnation
    step. *)
Definition calculate_target_coords_geodesic (lat1 lon1 azimuth distance_nm : Qc)
  : Qc * Qc :=
  let distance_m := nm_to_meters distance_nm in
  let result := Direct GEODESIC lat1 lon1 azimuth distance_m in
  let verification := Inverse GEODESIC lat1 lon1 (lat2 result) (lon2 result) in
  let actual_distance_m := s12 verification in
  let distance_error_m := Num.abs (actual_distance_m - distance_m) in
  if distance_error_m >? $0.1 then
    let num_steps := Z.max 1 (Num.int (distance_nm / $500)) in
    if (1 <? num_steps)%Z then
      let step_distance := distance_m / Num.of_Z num_steps in
      for_range_pure (Z.to_nat num_steps) (step_body azimuth step_distance)
                     (lat1, lon1)
    else (lat2 result, lon2 result)
  else (lat2 result, lon2 result).

(** [calculate_target_coords_vincenty] *)
Definition calculate_target_coords_vincenty (lat_vor lon_vor bearing distance_nm : Qc)
  (bearing_mode declination_mode : string) (declination auto_declination : Qc)
  : Qc * Qc :=
  let true_bearing :=
    if String.eqb bearing_mode "Magnetic" then
      let actual_declination :=
        if String.eqb declination_mode "Auto" then auto_declination
        else declination in
      Num.pymod FLOAT (bearing + actual_declination) $360
    else Num.pymod FLOAT bearing $360 in
  calculate_target_coords_geodesic lat_vor lon_vor true_bearing distance_nm.

End WithOracle.

End LegacyProjection.

(** ** Texts and files to run the definitions on *)

Module Literals.

Import Py.

(** A few literals as [float] and [int] read them. *)
Definition float (s : string) : option pyfloat :=
  if String.eqb s "39.5" then Some (Finite $39.5)
  else if String.eqb s "116.4" then Some (Finite $116.4)
  else if String.eqb s "-180" then Some (Finite (- $180))
  else if String.eqb s "nan" then Some NaN
  else if String.eqb s "inf" then Some PosInf
  else None.

Definition int (s : string) : IntParse :=
  if String.eqb s "7" then IntValue 7
  else if String.eqb s "36" then IntValue 36
  else if String.eqb s "100" then IntValue 100
  else InvalidLiteral.

End Literals.

Module Files.

Import Py NavigationDataService.

(** A few lines in the layout of the two files. *)
Definition nav_lines : list string :=
  [ "3 39.5 116.4 100 11430 130 0.0 PEK ZB BEIJING VOR";
    "12  39.6 116.5 100 11430 130 0.0 PEK ZB";
    "2 30.0 120.0 50 400 50 0.0 pek ZS" ]%string.

Definition fix_lines : list string :=
  [ " 39.1 116.1 ABCDE ENRT ZB"; " 10.0 20.0 ABCDE ENRT XX"; "1 2" ]%string.

Definition files (path : string) : Opened :=
  if String.eqb path "nav.dat" then Lines nav_lines
  else if String.eqb path "fix.dat" then Lines fix_lines
  else NoSuchFile.

Definition service : Service :=
  {| nav_file_path := "nav.dat"; fix_file_path := "fix.dat" |}.

End Files.

(** * Predicates of the statements *)

(** ** Tables of ranges *)

Module Tables.

(** Every range ends where a later one starts, or before. *)
Fixpoint ascending (rs : list (Qc * Qc * string)) : bool :=
  match rs with
  | [] => true
  | (_, high, _) :: rs' =>
      forallb (fun r => high <=? fst (fst r)) rs' && ascending rs'
  end.

End Tables.

(** ** What the projection of core_vor_calc.py keeps *)

Module CoreProjection.

Import CoreVorCalc.

Section WithOracle.

Variable GEODESIC : Geodesic.

(** The verified error of a point: its distance from the start against the
    requested distance. *)
Definition verified_error (start_coords : Coordinates) (distance_m : Qc)
  (p : Coordinates) : Qc :=
  Num.abs (s12 (Inverse GEODESIC (lat start_coords) (lon start_coords)
                  (lat p) (lon p)) - distance_m).

(** What the step-size loop of [core_vor_calc.py] keeps: the single-step
    point or the end of a walk in equal steps, whose verified error is the
    recorded one and no larger than the single step's. *)
Definition refined (start_coords : Coordinates) (azimuth distance_nm : Qc)
  (initial_coords : Coordinates) (st : Refine) : Prop :=
  let distance_m := nm_to_meters distance_nm in
  min_error st = verified_error start_coords distance_m (optimal_coords st)
  /\ min_error st <= verified_error start_coords distance_m initial_coords
  /\ (optimal_coords st = initial_coords
      \/ exists step_size_km,
           In step_size_km [$100; $250; $500; $1000]
           /\ step_size_km / $1.852 <= distance_nm
           /\ let num_steps :=
                Z.max 2 (Num.int (distance_nm * $1.852 / step_size_km)) in
              for_range (Z.to_nat num_steps)
                (step_body GEODESIC azimuth (distance_m / Num.of_Z num_steps))
                start_coords
              = Ok (optimal_coords st)).

(** The step sizes the loop walks with, in its order: those that are not
    longer than the distance. *)
Definition step_sizes (distance_nm : Qc) : list Qc :=
  filter (fun step_size_km => negb (distance_nm <? step_size_km / $1.852))
         [$100; $250; $500; $1000].

(** The walk with a step size: [max(2, int(distance_nm * 1.852 / size))]
    equal steps from the start, each from the point of the step before. *)
Definition walk (start_coords : Coordinates) (azimuth distance_nm : Qc)
  (step_size_km : Qc) : Result Coordinates :=
  let distance_m := nm_to_meters distance_nm in
  let num_steps := Z.max 2 (Num.int (distance_nm * $1.852 / step_size_km)) in
  for_range (Z.to_nat num_steps)
    (step_body GEODESIC azimuth (distance_m / Num.of_Z num_steps)) start_coords.

(** [p] is the first point of least error in the list [ps]. *)
Definition first_least (error : Coordinates -> Qc) (ps : list Coordinates)
  (p : Coordinates) : Prop :=
  exists before after,
    ps = before ++ p :: after
    /\ Forall (fun q => error p < error q) before
    /\ Forall (fun q => error p <= error q) after.

(** The walks that are made end at [points], one for each of the step
    sizes [tried].  Either every step size is tried and no walk is within
    the tolerance, or the last walk made is the first one within it.  The
    point kept is the first of least verified error among the single-step
    point and these. *)
Definition kept (start_coords : Coordinates) (azimuth distance_nm : Qc)
  (initial_coords p : Coordinates) : Prop :=
  let error := verified_error start_coords (nm_to_meters distance_nm) in
  exists tried rest points,
    step_sizes distance_nm = tried ++ rest
    /\ Forall2 (fun step_size_km q =>
                  walk start_coords azimuth distance_nm step_size_km = Ok q)
         tried points
    /\ ((rest = [] /\ Forall (fun q => DISTANCE_TOLERANCE_M < error q) points)
        \/ exists earlier last,
             points = earlier ++ [last]
             /\ Forall (fun q => DISTANCE_TOLERANCE_M < error q) earlier
             /\ error last <= DISTANCE_TOLERANCE_M)
    /\ first_least error (initial_coords :: points) p.

End WithOracle.

End CoreProjection.

(** ** The passes of the bisection loop of vor_fix_calculation.py *)

Module Bisection.

Import VorFixCalculation.

Section WithQuery.

Variable GEODESIC : Geodesic.
Variables (fix_coords : Coordinates) (true_bearing : Qc).
Variables (dme_coords : Coordinates) (distance_m : Qc).

(** The record of a pass is faithful: the point is the oracle's answer for
    the distance tried, and the error is that point's. *)
Definition recorded (p : Pass) : Prop :=
  (let r := Direct GEODESIC (lat fix_coords) (lon fix_coords) true_bearing
              (nm_to_meters (pass_dist p)) in
   new_Coordinates (lat2 r) (lon2 r) = Ok (pass_point p))
  /\ pass_error p = error_of GEODESIC dme_coords distance_m (pass_point p).

(** A pass after which the loop stops, and one after which it goes on. *)
Definition stops (p : Pass) : Prop :=
  pass_error p < DISTANCE_TOLERANCE_M \/ pass_max p - pass_min p < $0.000001.

Definition goes_on (p : Pass) : Prop :=
  DISTANCE_TOLERANCE_M <= pass_error p /\ $0.000001 <= pass_max p - pass_min p.

(** The best point is a recorded one, and no recorded error is below its
    error. *)
Definition best_tracked (st : Search) : Prop :=
  Forall recorded (passes st)
  /\ Forall (fun p => Num.x_le (best_approx_distance st) (pass_error p))
       (passes st)
  /\ (passes st <> [] ->
      exists p, In p (passes st)
                /\ best_approx_point st = pass_point p
                /\ best_approx_distance st = Num.Fin (pass_error p))
  /\ (passes st = [] -> best_approx_distance st = Num.Inf).

(** Before pass [k + 1]. *)
Definition running (k : nat) (st : Search) : Prop :=
  List.length (passes st) = k /\ Forall goes_on (passes st) /\ best_tracked st.

(** After a [break] in pass [m]. *)
Definition stopped (m : nat) (st : Search) : Prop :=
  List.length (passes st) = m
  /\ (exists last earlier,
         passes st = last :: earlier /\ stops last /\ Forall goes_on earlier)
  /\ best_tracked st.

(** Every forward call along the radial answers with coordinates the
    constructor accepts. *)
Definition answers_in_range : Prop :=
  forall s,
  exists c,
    new_Coordinates
      (lat2 (Direct GEODESIC (lat fix_coords) (lon fix_coords) true_bearing s))
      (lon2 (Direct GEODESIC (lat fix_coords) (lon fix_coords) true_bearing s))
    = Ok c.

End WithQuery.

End Bisection.

(** ** The passes of the loop of the earlier revision *)

Module LegacyLoop.

Import Legacy.

(** The evaluations the loop compares with the best point so far: those at
    a midpoint and at an interpolated distance. *)
Definition candidate (e : Eval) : bool :=
  match eval_kind e with
  | Endpoint => false
  | Midpoint | Secant => true
  end.

(** The passes in a row, from the most recent one back, whose error changed
    by less than a tenth of the tolerance and which did not take the
    stagnation branch. *)
Fixpoint streak (ps : list Pass) : nat :=
  match ps with
  | [] => 0
  | p :: ps' =>
      if pass_small p && negb (pass_stagnation p) then Datatypes.S (streak ps')
      else 0
  end.

Section WithQuery.

Variable GEODESIC : Geodesic.
Variables (lat_fix lon_fix true_bearing lat_dme lon_dme distance_m : Qc).

Definition err (e : Eval) : Qc := Num.abs (eval_to_dme_m e - distance_m).

(** The record of an evaluation is faithful. *)
Definition recorded (e : Eval) : Prop :=
  (let r := Direct GEODESIC lat_fix lon_fix true_bearing
              (nm_to_meters (eval_dist e)) in
   eval_point e = {| lat := lat2 r; lon := lon2 r |})
  /\ eval_to_dme_m e
     = s12 (Inverse GEODESIC (lat (eval_point e)) (lon (eval_point e))
              lat_dme lon_dme).

Definition evals (ps : list Pass) : list Eval := flat_map pass_evals ps.

(** The best point is a recorded candidate, and no recorded candidate has
    an error below its error. *)
Definition tracked (best_d : Num.xfloat) (best_p : Point) (es : list Eval)
  : Prop :=
  (forall e, In e es -> recorded e)
  /\ (forall e, In e es -> candidate e = true -> Num.x_le best_d (err e))
  /\ (es <> [] ->
      exists e, In e es /\ candidate e = true
                /\ best_p = eval_point e /\ best_d = Num.Fin (err e))
  /\ (es = [] -> best_d = Num.Inf).

Definition stops (p : Pass) : Prop :=
  (exists e, In e (pass_evals p) /\ candidate e = true
             /\ err e < DISTANCE_TOLERANCE_M)
  \/ (pass_stagnation p = false /\ pass_max p - pass_min p < $0.000001).

Definition goes_on (p : Pass) : Prop :=
  (forall e, In e (pass_evals p) -> candidate e = true ->
             DISTANCE_TOLERANCE_M <= err e)
  /\ (pass_stagnation p = false -> $0.000001 <= pass_max p - pass_min p).

(** Before pass [k + 1]. *)
Definition running (k : nat) (st : Search) : Prop :=
  List.length (passes st) = k
  /\ Forall goes_on (passes st)
  /\ tracked (best_approx_distance st) (best_approx_point st) (evals (passes st))
  /\ stagnation_counter st = Z.of_nat (streak (passes st))
  /\ Forall (fun p => pass_evals p <> []) (passes st).

(** After a [break] in pass [m]. *)
Definition stopped (m : nat) (st : Search) : Prop :=
  List.length (passes st) = m
  /\ (exists last earlier,
         passes st = last :: earlier /\ stops last /\ Forall goes_on earlier)
  /\ tracked (best_approx_distance st) (best_approx_point st) (evals (passes st))
  /\ Forall (fun p => pass_evals p <> []) (passes st).

(** The evaluation the loop makes at the distance [t]. *)
Definition eval_at (kind : EvalKind) (t : Qc) : Eval :=
  let r := Direct GEODESIC lat_fix lon_fix true_bearing (nm_to_meters t) in
  {| eval_kind := kind; eval_dist := t;
     eval_point := {| lat := lat2 r; lon := lon2 r |};
     eval_to_dme_m := s12 (Inverse GEODESIC (lat2 r) (lon2 r) lat_dme lon_dme) |}.

End WithQuery.

End LegacyLoop.

(** ** The stagnation step of the earlier revision *)

Module Stagnation.

Import Legacy LegacyLoop.

(** Whether the pass that led to [f] took the stagnation branch. *)
Definition took_stagnation (f : Flow Search) : bool :=
  match passes (match f with Break s | Next s => s end) with
  | p :: _ => pass_stagnation p
  | [] => false
  end.

Section WithQuery.

Variable GEODESIC : Geodesic.
Variables (lat_fix lon_fix true_bearing lat_dme lon_dme distance_nm : Qc).

Local Abbreviation distance_m := (nm_to_meters distance_nm).
Local Abbreviation body :=
  (search_body GEODESIC lat_fix lon_fix true_bearing lat_dme lon_dme distance_m).

(** The states the loop passes through: [reached k st] when [st] is the
    state after [k] passes, none of which left the loop. *)
Inductive reached : nat -> Search -> Prop :=
| reached_init :
    reached 0 (search_init GEODESIC lat_fix lon_fix lat_dme lon_dme distance_nm)
| reached_next (k : nat) (st st' : Search) :
    reached k st -> body st = Next st' -> reached (Datatypes.S k) st'.

(** The quantities of one pass. *)
Definition point_at (t : Qc) : Point :=
  let r := Direct GEODESIC lat_fix lon_fix true_bearing (nm_to_meters t) in
  {| lat := lat2 r; lon := lon2 r |}.

Definition to_dme (t : Qc) : Qc :=
  s12 (Inverse GEODESIC (lat (point_at t)) (lon (point_at t)) lat_dme lon_dme).

Definition signed_error (t : Qc) : Qc := to_dme t - distance_m.
Definition abs_error (t : Qc) : Qc := Num.abs (to_dme t - distance_m).

Definition mid_dist (st : Search) : Qc := (min_dist st + max_dist st) / $2.0.

Definition small_change (st : Search) : bool :=
  Num.abs_diff_ltb (prev_error st) (abs_error (mid_dist st))
    (DISTANCE_TOLERANCE_M / $10).

(** The point at [t] replaces the best point when its error is smaller. *)
Definition improve (t : Qc) (best : Num.xfloat * Point) : Num.xfloat * Point :=
  if Num.ltb_x (abs_error t) (fst best) then (Num.Fin (abs_error t), point_at t)
  else best.

(** Where the line through [(min, error(min))] and [(max, error(max))]
    crosses zero. *)
Definition secant_dist (st : Search) : Qc :=
  min_dist st
  + (max_dist st - min_dist st) * ($0 - signed_error (min_dist st))
    / (signed_error (max_dist st) - signed_error (min_dist st)).

Definition best_of (st : Search) : Num.xfloat * Point :=
  (best_approx_distance st, best_approx_point st).

(** The state after [n] more passes, when none of them leaves the loop. *)
Fixpoint advance (n : nat) (st : Search) : option Search :=
  match n with
  | O => Some st
  | Datatypes.S n' =>
      match body st with
      | Next st' => advance n' st'
      | Break _ => None
      end
  end.

End WithQuery.

End Stagnation.

(** ** Radius letters *)

Module Letters.

(** The code point of a letter designator's first character. *)
Definition rank (letter : string) : N :=
  match letter with
  | String c _ => N_of_ascii c
  | EmptyString => 0
  end.

(** One capital letter of the alphabet. *)
Definition capital (letter : string) : bool :=
  match letter with
  | String c EmptyString => ((65 <=? N_of_ascii c) && (N_of_ascii c <=? 90))%N
  | _ => false
  end.

(** The distances between the end of a range and the start of the next. *)
Fixpoint gaps (rs : list (Qc * Qc * string)) : list (Qc * Qc) :=
  match rs with
  | (_, high, _) :: (((low, _, _) :: _) as rs') => (high, low) :: gaps rs'
  | _ => []
  end.

(** Of two ranges with different letters, the one with the earlier letter
    ends where the other starts, or before. *)
Definition ordered (rs : list (Qc * Qc * string)) : bool :=
  forallb (fun r1 =>
    forallb (fun r2 =>
      (rank (snd r1) <=? rank (snd r2))%N || (snd (fst r2) <=? fst (fst r1))) rs) rs.

(** Every range of [rs] lies in the range of [rs'] with the same letter. *)
Definition within (rs rs' : list (Qc * Qc * string)) : bool :=
  forallb (fun r =>
    existsb (fun r' =>
      String.eqb (snd r) (snd r')
      && (fst (fst r') <=? fst (fst r)) && (snd (fst r) <? snd (fst r'))) rs') rs.

End Letters.

Module Gap.

(** The open interval between the [k]-th range of the earlier table and
    the next: from [k + 0.4] to [k + 0.5]. *)
Definition after (k : nat) : Qc * Qc :=
  (Num.of_Z (Z.of_nat k) + $0.4, Num.of_Z (Z.of_nat k) + $0.5).

(** The [k]-th capital letter, 'A' for 1. *)
Definition letter (k : nat) : string := String (ascii_of_nat (64 + k)) "".

(** What the two tables have around the [k]-th gap. *)
Definition check (k : nat) : bool :=
  let '(a, b) := after k in
  forallb (fun r => snd (fst r) <=? a) (firstn k Legacy.ranges)
  && forallb (fun r => b <=? fst (fst r)) (skipn k Legacy.ranges)
  && match nth_error VorFixCalculation.ranges (k - 1) with
     | Some (lo, hi, l) => (lo <=? a) && (b <=? hi) && String.eqb l (letter k)
     | None => false
     end.

End Gap.

Module Buckets.

(** The [k]-th bucket.  It starts at 0.1 for 'A' and at [k - 0.5] for the
    later letters; it ends before [k + 0.5], and in the earlier revision
    with [k + 0.4]. *)
Definition low (k : nat) : Qc :=
  match k with
  | 1%nat => $0.1
  | _ => Num.of_Z (Z.of_nat k) - $0.5
  end.

Definition high (k : nat) : Qc := Num.of_Z (Z.of_nat k) + $0.5.

Definition high_earlier (k : nat) : Qc := Num.of_Z (Z.of_nat k) + $0.4.

(** Row [k] of a table is the [k]-th bucket, with the [k]-th letter. *)
Definition row (rs : list (Qc * Qc * string)) (hi : nat -> Qc) (k : nat) : bool :=
  match nth_error rs (k - 1) with
  | Some (lo, h, l) => (lo =? low k) && (h =? hi k) && String.eqb l (Gap.letter k)
  | None => false
  end.

(** The rows before row [k] end before the [k]-th bucket starts. *)
Definition before (rs : list (Qc * Qc * string)) (k : nat) : bool :=
  forallb (fun r => snd (fst r) <? low k) (firstn (k - 1) rs).

End Buckets.

(** ** Ratings and statistics *)

Module Rating.

(** The ratings from best to worst. *)
Definition level (rating : string) : nat :=
  if String.eqb rating "EXCELLENT" then 0
  else if String.eqb rating "VERY_GOOD" then 1
  else if String.eqb rating "GOOD" then 2
  else if String.eqb rating "ACCEPTABLE" then 3
  else 4.

(** The largest distance error (m) and azimuth error (degrees) of a level. *)
Definition limits (n : nat) : option (Qc * Qc) :=
  match n with
  | 0%nat => Some ($1.0, $0.001)
  | 1%nat => Some ($5.0, $0.01)
  | 2%nat => Some ($10.0, $0.1)
  | 3%nat => Some ($50.0, $1.0)
  | _ => None
  end.

(** Both errors are within the limits [D] and [A]. *)
Definition meets (d a : Qc) (D A : Qc) : bool := (d <=? D) && (a <=? A).

End Rating.

Module Batch.
Import CoreVorCalc.

(** The check of one entry of the list [calculate_precision_metrics] is
    given. *)
Definition accuracy (GEODESIC : Geodesic) (FLOAT : Num.Rounding)
  (calculation : Coordinates * Coordinates * Qc * Qc) : Accuracy :=
  let '(start_coords, end_coords, expected_azimuth, expected_distance_nm) :=
    calculation in
  validate_calculation_accuracy GEODESIC FLOAT start_coords end_coords
    expected_azimuth expected_distance_nm.

(** [lo] and [hi] bound the list, both are in it, and [mean] lies between
    them. *)
Definition summarises (lo mean hi : Qc) (xs : list Qc) : Prop :=
  In lo xs /\ In hi xs /\ Forall (fun x => lo <= x /\ x <= hi) xs
  /\ lo <= mean /\ mean <= hi.

End Batch.

(** ** The bracket of the bisection *)

Module Bracket.
Import VorFixCalculation.

Fixpoint pow2 (k : nat) : Qc :=
  match k with
  | O => $1
  | S k' => $2 * pow2 k'
  end.

Section WithBracket.

(** The bracket the search starts from. *)
Variables lo0 hi0 : Qc.

(** The distance a pass tried lies in the bracket the pass leaves, which
    lies in the initial one. *)
Definition inside (p : Pass) : Prop :=
  lo0 <= pass_min p /\ pass_min p <= pass_dist p
  /\ pass_dist p <= pass_max p /\ pass_max p <= hi0.

(** Pass [i], counted from 1, leaves a bracket [2^i] times narrower than
    the initial one, unless it ends the search on the tolerance. *)
Fixpoint halving (ps : list Pass) : Prop :=
  match ps with
  | [] => True
  | p :: earlier =>
      (DISTANCE_TOLERANCE_M <= pass_error p ->
       (pass_max p - pass_min p) * pow2 (List.length ps) = hi0 - lo0)
      /\ halving earlier
  end.

(** Before pass [k + 1]. *)
Definition narrowed (k : nat) (st : Search) : Prop :=
  List.length (passes st) = k
  /\ lo0 <= min_dist st /\ min_dist st <= max_dist st /\ max_dist st <= hi0
  /\ (max_dist st - min_dist st) * pow2 k = hi0 - lo0
  /\ Forall inside (passes st) /\ halving (passes st).

(** After a [break] in pass [m]. *)
Definition left (m : nat) (st : Search) : Prop :=
  List.length (passes st) = m
  /\ Forall inside (passes st) /\ halving (passes st).

End WithBracket.

Section WithQuery.

Variable GEODESIC : Geodesic.
Variables (fix_coords dme_coords : Coordinates) (distance_nm : Qc).

(** The bracket of a query. *)
Definition initial : Qc * Qc :=
  search_range
    (meters_to_nm
       (s12 (Inverse GEODESIC (lat fix_coords) (lon fix_coords)
               (lat dme_coords) (lon dme_coords))))
    distance_nm.

End WithQuery.

End Bracket.

(** ** Words, digits and lines *)

Module Words.
Import Str.

(** A field of a line: at least one character, none of them whitespace. *)
Definition word (w : string) : bool :=
  match w with
  | EmptyString => false
  | _ => all (fun c => negb (space c)) w
  end.

(** No comma. *)
Definition comma_free (w : string) : bool :=
  all (fun c => negb (Ascii.eqb c ",")) w.

Definition wordy (s : string) : Prop := all (fun c => negb (space c)) s = true.

End Words.

Module Chars.
Import Str.

(** A decimal digit, and a character of a number in fixed notation. *)
Definition isdigit (c : ascii) : bool := ((48 <=? code c) && (code c <=? 57))%N.
Definition numeric (c : ascii) : bool :=
  isdigit c || Ascii.eqb c "." || Ascii.eqb c "-".

End Chars.

Module Matching.

Import Py Str NavigationDataService.

(** A line of the file matches: it has a field at the index of its file
    type, and that field is the identifier in capitals. *)
Definition matches (identifier : string) (file_type : FileType) (line : string)
  : bool :=
  match nth_error (split line) (relevant_index file_type) with
  | Some part => String.eqb part (upper identifier)
  | None => false
  end.

(** The lines of every file are ASCII text. *)
Definition ascii_files (open : string -> Opened) : Prop :=
  forall path lines,
    open path = Lines lines -> forallb ascii_only lines = true.

End Matching.

Module WaypointLine.
Import Str Fmt.

(** The name of the waypoint in the output of [calculate]. *)
Definition name (bearing distance_nm : Qc) (vor_identifier : string) : string :=
  if distance_nm >? $26.5 then (vor_identifier ++ str (round distance_nm))%string
  else ("D" ++ zero_padded 3 (Num.int bearing)
        ++ VorFixCalculation.get_radius_letter distance_nm)%string.

(** The last field, present with a VOR identifier. *)
Definition reference (bearing distance_nm : Qc) (vor_identifier : string)
  : list string :=
  match vor_identifier with
  | EmptyString => []
  | _ => [(vor_identifier ++ zero_padded 3 (Num.int bearing)
           ++ zero_padded 3 (round distance_nm))%string]
  end.

End WaypointLine.

(** ** Numbers in fixed notation *)

Module Decimal.
Import Str Chars Py.

(** The number a run of decimal digits denotes, after the digits read so
    far. *)
Fixpoint number (acc : N) (s : string) : option N :=
  match s with
  | EmptyString => Some acc
  | String c s' =>
      if isdigit c then number (10 * acc + (code c - 48)) s' else None
  end.

(** At least one digit, and digits only. *)
Definition natural (s : string) : option N :=
  match s with
  | EmptyString => None
  | _ => number 0 s
  end.

(** [10 ^ k] *)
Fixpoint pow10 (k : nat) : Qc :=
  match k with
  | O => $1
  | S k' => $10 * pow10 k'
  end.

(** Digits, a point, digits. *)
Definition unsigned (s : string) : option Qc :=
  match split_on "." s with
  | i :: f :: nil =>
      match natural i, natural f with
      | Some a, Some b =>
          Some (Num.of_Z (Z.of_N a)
                + Num.of_Z (Z.of_N b) / pow10 (String.length f))
      | _, _ => None
      end
  | _ => None
  end.

(** The number a text in fixed notation denotes, [None] for another
    text. *)
Definition value (s : string) : option Qc :=
  match s with
  | String c s' =>
      if Ascii.eqb c "-" then option_map Qcopp (unsigned s') else unsigned s
  | EmptyString => None
  end.

(** [float] reads a text in fixed notation as the number it denotes, for
    a number below [10 ^ 308] in size: those are in the range of a float. *)
Definition reads (float : string -> option pyfloat) : Prop :=
  forall s x,
    value s = Some x -> Num.abs x < pow10 308 -> float s = Some (Finite x).

(** A [float] that reads nothing else. *)
Definition float (s : string) : option pyfloat := option_map Finite (value s).

(** No character of [w] is the separator. *)
Definition free (sep : ascii) (w : string) : bool :=
  all (fun c => negb (Ascii.eqb c sep)) w.

(** The scale of nine decimals. *)
Definition giga : Z := (10 ^ Z.of_nat 9)%Z.

(** The number [Fmt.fixed] writes: [x] rounded to [precision] decimals. *)
Definition nearest (precision : nat) (x : Qc) : Qc :=
  let scale := (10 ^ Z.of_nat precision)%Z in
  let q := Num.of_Z (Fmt.round (Num.abs x * Num.of_Z scale)) / Num.of_Z scale in
  if x <? $0 then - q else q.

End Decimal.

(** * Facts *)

(** ** Arithmetic on canonical rationals *)

Module NumFacts.

Lemma this_plus (x y : Qc) : (this (x + y) == this x + this y)%Q.
Proof. exact (Qred_correct _). Qed.

Lemma this_opp (x : Qc) : (this (- x) == - this x)%Q.
Proof. exact (Qred_correct _). Qed.

Lemma this_minus (x y : Qc) : (this (x - y) == this x - this y)%Q.
Proof. unfold Qcminus. rewrite this_plus, this_opp. reflexivity. Qed.

Lemma this_mult (x y : Qc) : (this (x * y) == this x * this y)%Q.
Proof. exact (Qred_correct _). Qed.

Lemma this_inv (x : Qc) : (this (/ x) == / this x)%Q.
Proof. exact (Qred_correct _). Qed.

Lemma this_div (x y : Qc) : (this (x / y) == this x / this y)%Q.
Proof. unfold Qcdiv. rewrite this_mult, this_inv. reflexivity. Qed.

Lemma this_Q2Qc (q : Q) : (this (Q2Qc q) == q)%Q.
Proof. exact (Qred_correct _). Qed.

Lemma Qc_eq_this (x y : Qc) : x = y <-> (this x == this y)%Q.
Proof. split; [intros ->; reflexivity | apply Qc_is_canon]. Qed.

Lemma ltb_true (x y : Qc) : (x <? y) = true <-> x < y.
Proof.
  unfold Num.ltb. rewrite Qclt_alt.
  destruct (x ?= y); split; congruence.
Qed.

Lemma ltb_false (x y : Qc) : (x <? y) = false <-> y <= x.
Proof.
  split; intro H.
  - apply Qcnot_lt_le. intro L. apply ltb_true in L. congruence.
  - destruct (x <? y) eqn:E; [|reflexivity].
    apply ltb_true in E. exfalso. exact (Qclt_not_le _ _ E H).
Qed.

Lemma leb_true (x y : Qc) : (x <=? y) = true <-> x <= y.
Proof.
  unfold Num.leb. rewrite Qcle_alt.
  destruct (x ?= y); split; congruence.
Qed.

Lemma leb_false (x y : Qc) : (x <=? y) = false <-> y < x.
Proof.
  split; intro H.
  - apply Qcnot_le_lt. intro L. apply leb_true in L. congruence.
  - destruct (x <=? y) eqn:E; [|reflexivity].
    apply leb_true in E. exfalso. exact (Qclt_not_le _ _ H E).
Qed.

Lemma eqb_true (x y : Qc) : (x =? y) = true <-> x = y.
Proof.
  unfold Num.eqb. rewrite Qceq_alt.
  destruct (x ?= y); split; congruence.
Qed.

Lemma ltb_spec (x y : Qc) : BoolSpec (x < y) (y <= x) (x <? y).
Proof.
  destruct (x <? y) eqn:E; constructor;
    [apply ltb_true | apply ltb_false]; exact E.
Qed.

Lemma leb_spec (x y : Qc) : BoolSpec (x <= y) (y < x) (x <=? y).
Proof.
  destruct (x <=? y) eqn:E; constructor;
    [apply leb_true | apply leb_false]; exact E.
Qed.

End NumFacts.

Import NumFacts.

(** Move a goal on [Qc] to [Q], where [lra] decides linear arithmetic. *)
Ltac qc_push_in H :=
  repeat (rewrite ?this_plus, ?this_minus, ?this_opp, ?this_mult, ?this_div,
            ?this_inv, ?this_Q2Qc in H).

Ltac qc_push :=
  repeat (rewrite ?this_plus, ?this_minus, ?this_opp, ?this_mult, ?this_div,
            ?this_inv, ?this_Q2Qc).

Ltac qc_const_inv :=
  unfold Qdiv in *;
  repeat match goal with
  | |- context [Qinv (Qmake ?n ?d)] =>
      let v := eval cbv in (Qinv (Qmake n d)) in
      change (Qinv (Qmake n d)) with v
  | H : context [Qinv (Qmake ?n ?d)] |- _ =>
      let v := eval cbv in (Qinv (Qmake n d)) in
      change (Qinv (Qmake n d)) with v in H
  end.

Ltac qc2q :=
  repeat match goal with
  | H : @eq Qc _ _ |- _ => apply Qc_eq_this in H
  | H : ~ @eq Qc _ _ |- _ => rewrite Qc_eq_this in H
  end;
  try apply Qc_eq_this;
  unfold Qclt, Qcle in *;
  repeat match goal with
  | H : Qlt _ _ |- _ => progress qc_push_in H
  | H : Qle _ _ |- _ => progress qc_push_in H
  | H : Qeq _ _ |- _ => progress qc_push_in H
  | H : ~ Qeq _ _ |- _ => progress qc_push_in H
  end;
  qc_push; qc_const_inv.

Ltac qc_lra := qc2q; lra.

Module MinMax.

Lemma max_ge_l (a b : Qc) : a <= Num.max a b.
Proof. unfold Num.max. destruct (ltb_spec a b); qc_lra. Qed.

Lemma max_ge_r (a b : Qc) : b <= Num.max a b.
Proof. unfold Num.max. destruct (ltb_spec a b); qc_lra. Qed.

Lemma max_cases (a b : Qc) : Num.max a b = a \/ Num.max a b = b.
Proof. unfold Num.max. destruct (a <? b); auto. Qed.

Lemma min_le_l (a b : Qc) : Num.min a b <= a.
Proof. unfold Num.min. destruct (ltb_spec b a); qc_lra. Qed.

Lemma min_le_r (a b : Qc) : Num.min a b <= b.
Proof. unfold Num.min. destruct (ltb_spec b a); qc_lra. Qed.

Lemma min_cases (a b : Qc) : Num.min a b = a \/ Num.min a b = b.
Proof. unfold Num.min. destruct (b <? a); auto. Qed.

Lemma abs_nonneg (x : Qc) : $0 <= Num.abs x.
Proof. apply Qcabs_nonneg. Qed.

End MinMax.

(** ** Coordinates *)

Module CoordinatesFacts.

Lemma vor_fix_cases (lat lon : Qc) :
  ((- $90 <= lat <= $90 /\ - $180 < lon <= $180)
   /\ VorFixCalculation.new_Coordinates lat lon
      = Ok {| VorFixCalculation.lat := lat; VorFixCalculation.lon := lon |})
  \/ (~ (- $90 <= lat <= $90 /\ - $180 < lon <= $180)
      /\ exists e, VorFixCalculation.new_Coordinates lat lon = Raise e).
Proof.
  unfold VorFixCalculation.new_Coordinates.
  destruct (leb_spec (- $90) lat), (leb_spec lat $90),
    (ltb_spec (- $180) lon), (leb_spec lon $180); simpl;
    try (left; now auto);
    right; (split; [ intros [[? ?] [? ?]]; qc_lra | eexists; reflexivity ]).
Qed.

Lemma core_cases (lat lon : Qc) :
  ((- $90 <= lat <= $90 /\ - $180 <= lon <= $180)
   /\ CoreVorCalc.new_Coordinates lat lon
      = Ok {| CoreVorCalc.lat := lat; CoreVorCalc.lon := lon |})
  \/ (~ (- $90 <= lat <= $90 /\ - $180 <= lon <= $180)
      /\ exists e, CoreVorCalc.new_Coordinates lat lon = Raise e).
Proof.
  unfold CoreVorCalc.new_Coordinates.
  destruct (leb_spec (- $90) lat), (leb_spec lat $90),
    (leb_spec (- $180) lon), (leb_spec lon $180); simpl;
    try (left; now auto);
    right; (split; [ intros [[? ?] [? ?]]; qc_lra | eexists; reflexivity ]).
Qed.

(** A constructor call that succeeds returns the pair it was given. *)
Lemma vor_fix_ok_fields (lat lon : Qc) (c : VorFixCalculation.Coordinates) :
  VorFixCalculation.new_Coordinates lat lon = Ok c ->
  c = {| VorFixCalculation.lat := lat; VorFixCalculation.lon := lon |}.
Proof.
  intro H. destruct (vor_fix_cases lat lon) as [[_ E] | [_ [e E]]];
    rewrite E in H; congruence.
Qed.

End CoordinatesFacts.

(** C8: constructing [Coordinates(lat, lon)] succeeds exactly on in-range
    pairs and raises [ValueError] otherwise.  In [vor_fix_calculation.py] the
    range is latitude in [-90, 90] and longitude in (-180, 180]; in
    [core_vor_calc.py] the longitude range is the closed [-180, 180]: the
    two files differ on longitude -180, which the first rejects and the
    second accepts. *)
Theorem coordinates_construction (lat lon : Qc) :
  (VorFixCalculation.new_Coordinates lat lon
     = Ok {| VorFixCalculation.lat := lat; VorFixCalculation.lon := lon |}
   <-> (- $90 <= lat <= $90 /\ - $180 < lon <= $180))
  /\ ((exists e, VorFixCalculation.new_Coordinates lat lon = Raise e)
      <-> ~ (- $90 <= lat <= $90 /\ - $180 < lon <= $180))
  /\ (CoreVorCalc.new_Coordinates lat lon
        = Ok {| CoreVorCalc.lat := lat; CoreVorCalc.lon := lon |}
      <-> (- $90 <= lat <= $90 /\ - $180 <= lon <= $180))
  /\ ((exists e, CoreVorCalc.new_Coordinates lat lon = Raise e)
      <-> ~ (- $90 <= lat <= $90 /\ - $180 <= lon <= $180))
  /\ (exists e, VorFixCalculation.new_Coordinates $0 (- $180) = Raise e)
  /\ (exists c, CoreVorCalc.new_Coordinates $0 (- $180) = Ok c).
Proof.
  split; [|split; [|split; [|split; [|split]]]].
  - destruct (CoordinatesFacts.vor_fix_cases lat lon) as [[R E] | [R [e E]]];
      rewrite E; split; intro; try tauto; discriminate.
  - destruct (CoordinatesFacts.vor_fix_cases lat lon) as [[R E] | [R [e E]]];
      rewrite E; split; try tauto.
    + intros [e' E']. discriminate.
    + intros _. eexists; reflexivity.
  - destruct (CoordinatesFacts.core_cases lat lon) as [[R E] | [R [e E]]];
      rewrite E; split; intro; try tauto; discriminate.
  - destruct (CoordinatesFacts.core_cases lat lon) as [[R E] | [R [e E]]];
      rewrite E; split; try tauto.
    + intros [e' E']. discriminate.
    + intros _. eexists; reflexivity.
  - eexists. vm_compute. reflexivity.
  - eexists. vm_compute. reflexivity.
Qed.

(** ** Radius letters *)

Module RadiusLetterFacts.

Import Tables.

Section Scan.

Import VorFixCalculation.

Lemma scan_hit (d : Qc) (rs : list (Qc * Qc * string)) :
  ascending rs = true ->
  forall low high letter,
    In (low, high, letter) rs -> low <= d -> d < high ->
    scan_ranges d rs = Some letter.
Proof.
  induction rs as [| [[lo hi] l] rs IH]; intros A low high letter I L H.
  - contradiction.
  - simpl in A. apply andb_prop in A. destruct A as [A1 A2].
    simpl. destruct I as [E | I].
    + inversion E; subst.
      rewrite (proj2 (leb_true _ _) L), (proj2 (ltb_true _ _) H). reflexivity.
    + assert (F : (d <? hi) = false).
      { apply ltb_false. rewrite forallb_forall in A1.
        specialize (A1 _ I). simpl in A1. apply leb_true in A1. qc_lra. }
      rewrite F, andb_false_r. eauto.
Qed.

Lemma scan_above (d : Qc) (rs : list (Qc * Qc * string)) :
  (forall r, In r rs -> snd (fst r) <= d) -> scan_ranges d rs = None.
Proof.
  induction rs as [| [[lo hi] l] rs IH]; intro A; [reflexivity|].
  simpl. assert (F : (d <? hi) = false).
  { apply ltb_false. apply (A (lo, hi, l)). now left. }
  rewrite F, andb_false_r. apply IH. intros r I. apply A. now right.
Qed.

Lemma scan_below (d : Qc) (rs : list (Qc * Qc * string)) :
  (forall r, In r rs -> d < fst (fst r)) -> scan_ranges d rs = None.
Proof.
  induction rs as [| [[lo hi] l] rs IH]; intro A; [reflexivity|].
  simpl. assert (F : (lo <=? d) = false).
  { apply leb_false. apply (A (lo, hi, l)). now left. }
  rewrite F. apply IH. intros r I. apply A. now right.
Qed.

End Scan.

Lemma legacy_scan_below (d : Qc) (rs : list (Qc * Qc * string)) :
  (forall r, In r rs -> d < fst (fst r)) -> Legacy.scan_ranges d rs = None.
Proof.
  induction rs as [| [[lo hi] l] rs IH]; intro A; [reflexivity|].
  simpl. assert (F : (lo <=? d) = false).
  { apply leb_false. apply (A (lo, hi, l)). now left. }
  rewrite F. apply IH. intros r I. apply A. now right.
Qed.

Lemma bounded_by (P : Qc * Qc * string -> bool) (rs : list (Qc * Qc * string)) :
  forallb P rs = true -> forall r, In r rs -> P r = true.
Proof. intro H. apply forallb_forall. exact H. Qed.

Lemma vor_fix_ascending : ascending VorFixCalculation.ranges = true.
Proof. vm_compute. reflexivity. Qed.

Lemma vor_fix_highs :
  forallb (fun r => snd (fst r) <=? $26.5) VorFixCalculation.ranges = true.
Proof. vm_compute. reflexivity. Qed.

Lemma vor_fix_lows :
  forallb (fun r => $0.1 <=? fst (fst r)) VorFixCalculation.ranges = true.
Proof. vm_compute. reflexivity. Qed.

Lemma legacy_lows :
  forallb (fun r => $0.1 <=? fst (fst r)) Legacy.ranges = true.
Proof. vm_compute. reflexivity. Qed.

(** The earlier table leaves the distances between 1.4 and 1.5 (and between
    every other pair of neighbouring ranges) to the fallback. *)
Example legacy_gap : Legacy.get_radius_letter $1.45 = "Z"%string.
Proof. vm_compute. reflexivity. Qed.

End RadiusLetterFacts.

(** ** The search bracket *)

Module SearchRangeFacts.

(** The four rules of "Determine search range", and the bracket of the
    earlier revision, which has no check of [min_dist >= max_dist]. *)
Lemma rules (D d : Qc) :
  (d < $0.05 -> VorFixCalculation.search_range D d = ($0.0, $0.2))
  /\ ($0.05 <= d -> d < $0.5 ->
      VorFixCalculation.search_range D d = ($0.0, Num.max $1.0 (d * $2)))
  /\ ($0.5 <= d -> Num.max $0.0 (D - d - $1) < D + d + $1 ->
      VorFixCalculation.search_range D d
      = (Num.max $0.0 (D - d - $1), D + d + $1))
  /\ ($0.5 <= d -> D + d + $1 <= Num.max $0.0 (D - d - $1) ->
      VorFixCalculation.search_range D d = ($0.0, Num.max $1.0 (d * $2)))
  /\ ($0 <= D -> Legacy.search_range D d = VorFixCalculation.search_range D d).
Proof.
  unfold VorFixCalculation.search_range, Legacy.search_range.
  split; [|split; [|split; [|split]]].
  - intro H. rewrite (proj2 (ltb_true _ _) H).
    replace ($0.0 >=? $0.2) with false by (vm_compute; reflexivity).
    reflexivity.
  - intros H1 H2.
    rewrite (proj2 (ltb_false _ _) H1), (proj2 (ltb_true _ _) H2).
    assert (F : ($0.0 >=? Num.max $1.0 (d * $2)) = false).
    { apply leb_false. pose proof (MinMax.max_ge_l $1.0 (d * $2)). qc_lra. }
    rewrite F. reflexivity.
  - intros H1 H2.
    assert (H0 : $0.05 <= d) by qc_lra.
    rewrite (proj2 (ltb_false _ _) H0), (proj2 (ltb_false _ _) H1).
    rewrite (proj2 (leb_false _ _) H2). reflexivity.
  - intros H1 H2.
    assert (H0 : $0.05 <= d) by qc_lra.
    rewrite (proj2 (ltb_false _ _) H0), (proj2 (ltb_false _ _) H1).
    rewrite (proj2 (leb_true _ _) H2). reflexivity.
  - intro HD.
    destruct (ltb_spec d $0.05) as [H | H].
    + replace ($0.0 >=? $0.2) with false by (vm_compute; reflexivity).
      reflexivity.
    + destruct (ltb_spec d $0.5) as [H' | H'].
      * assert (F : ($0.0 >=? Num.max $1.0 (d * $2)) = false).
        { apply leb_false. pose proof (MinMax.max_ge_l $1.0 (d * $2)). qc_lra. }
        rewrite F. reflexivity.
      * assert (F : (Num.max $0.0 (D - d - $1) >=? D + d + $1) = false).
        { apply leb_false.
          destruct (MinMax.max_cases $0.0 (D - d - $1)) as [E | E];
            rewrite E; qc_lra. }
        rewrite F. reflexivity.
Qed.

End SearchRangeFacts.

(** ** Precision metrics *)

(** C9: [calculate_precision_metrics([])] returns the dictionary whose six
    statistics are 0.0 and whose count is 0, whatever the oracle; the
    function is total, so it raises nothing. *)
Theorem precision_metrics_empty (GEODESIC : Geodesic) (FLOAT : Num.Rounding) :
  let m := CoreVorCalc.calculate_precision_metrics GEODESIC FLOAT [] in
  CoreVorCalc.mean_distance_error_m m = 0
  /\ CoreVorCalc.max_distance_error_m m = 0
  /\ CoreVorCalc.min_distance_error_m m = 0
  /\ CoreVorCalc.mean_azimuth_error_deg m = 0
  /\ CoreVorCalc.max_azimuth_error_deg m = 0
  /\ CoreVorCalc.min_azimuth_error_deg m = 0
  /\ CoreVorCalc.total_calculations m = 0%nat.
Proof.
  simpl. repeat split; apply Qc_is_canon; reflexivity.
Qed.

(** ** Forward projection *)

Module ProjectFacts.

Import VorFixCalculation.

(** [int] and [floor] agree from 0 upwards, and neither is positive below. *)
Lemma int_floor_nonneg (x : Qc) : $0 <= x -> Num.int x = Num.floor x.
Proof.
  unfold Num.int, Num.floor, Qfloor. destruct x as [[n d] c]. simpl.
  intro H. unfold Qcle, Qle in H. simpl in H.
  apply Z.quot_div_nonneg; lia.
Qed.

Lemma int_neg (x : Qc) : x < $0 -> (Num.int x <= 0)%Z.
Proof.
  unfold Num.int. destruct x as [[n d] c]. simpl.
  intro H. unfold Qclt, Qlt in H. simpl in H.
  apply Z.quot_le_upper_bound; lia.
Qed.

Lemma floor_neg (x : Qc) : x < $0 -> (Num.floor x <= 0)%Z.
Proof.
  unfold Num.floor, Qfloor. destruct x as [[n d] c]. simpl.
  intro H. unfold Qclt, Qlt in H. simpl in H.
  assert (n / Z.pos d < 0)%Z; [|lia].
  apply Z.div_lt_upper_bound; lia.
Qed.

Lemma max_1_int_floor (x : Qc) :
  Z.max 1 (Num.int x) = Z.max 1 (Num.floor x).
Proof.
  destruct (ltb_spec x $0) as [H | H].
  - pose proof (int_neg x H). pose proof (floor_neg x H). lia.
  - rewrite (int_floor_nonneg x H). reflexivity.
Qed.

(** Below 1000 NM the quotient by 500 truncates to at most 1. *)
Lemma int_below_2 (d : Qc) : d < $1000 -> (Num.int (d / $500) <= 1)%Z.
Proof.
  intro H.
  assert (L : d / $500 < $2) by qc_lra.
  unfold Num.int. destruct (d / $500) as [[n k] c]. simpl.
  unfold Qclt, Qlt in L. simpl in L.
  destruct (Z_lt_le_dec n 0).
  - assert (n ÷ Z.pos k <= 0)%Z by (apply Z.quot_le_upper_bound; lia). lia.
  - assert (n ÷ Z.pos k < 2)%Z by (apply Z.quot_lt_upper_bound; lia). lia.
Qed.

Section WithOracle.

Variable GEODESIC : Geodesic.

(** The step loop is the walk of the specification. *)
Lemma steps_walk (n : nat) (azimuth step_distance : Qc) (c : Coordinates) :
  for_range n (step_body GEODESIC azimuth step_distance) c
  = Spec.walk GEODESIC n azimuth step_distance c.
Proof.
  revert c. induction n as [| n IH]; intro c; [reflexivity|].
  simpl. unfold step_body.
  destruct (new_Coordinates _ _) as [p | e]; simpl; [apply IH | reflexivity].
Qed.

(** A walk of a single step is the single forward call. *)
Lemma walk_one (azimuth distance_m : Qc) (c : Coordinates) :
  Spec.walk GEODESIC 1 azimuth (distance_m / Num.of_Z 1) c
  = new_Coordinates
      (lat2 (Direct GEODESIC (lat c) (lon c) azimuth distance_m))
      (lon2 (Direct GEODESIC (lat c) (lon c) azimuth distance_m)).
Proof.
  assert (E : distance_m / Num.of_Z 1 = distance_m).
  { unfold Num.of_Z. apply Qc_is_canon. rewrite this_div.
    change (this (Q2Qc (inject_Z 1))) with 1%Q. field. }
  rewrite E. simpl.
  destruct (new_Coordinates _ _); reflexivity.
Qed.

End WithOracle.

End ProjectFacts.

(** ** Azimuth error *)

Module AzimuthFacts.

(** [int] truncates toward zero. *)
Lemma int_spec (x : Qc) :
  ($0 <= x -> Num.of_Z (Num.int x) <= x /\ x < Num.of_Z (Num.int x) + $1)
  /\ (x <= $0 -> x <= Num.of_Z (Num.int x) /\ Num.of_Z (Num.int x) < x + $1).
Proof.
  unfold Num.int, Num.of_Z. destruct x as [[n d] c].
  cbn [this Qnum Qden].
  pose proof (Z.quot_rem' n (Z.pos d)) as E.
  pose proof (Z.rem_bound_pos_pos n (Z.pos d)) as P.
  pose proof (Z.rem_bound_pos_neg n (Z.pos d)) as N.
  set (q := (n ÷ Z.pos d)%Z) in *. set (r := Z.rem n (Z.pos d)) in *.
  clearbody q r.
  split; intro H; unfold Qcle, Qle in H; cbn in H;
    split; unfold Qcle, Qclt; qc_push; cbn [this]; unfold Qle, Qlt; cbn; lia.
Qed.

(** [fmod(x, 360)] has the sign of [x] and is less than 360 in size. *)
Lemma fmod_360 (x : Qc) :
  ($0 <= x -> $0 <= Num.fmod x $360 /\ Num.fmod x $360 < $360)
  /\ (x <= $0 -> - $360 < Num.fmod x $360 /\ Num.fmod x $360 <= $0).
Proof.
  unfold Num.fmod. destruct (int_spec (x / $360)) as [P N].
  set (k := Num.of_Z (Num.int (x / $360))) in *.
  split; intro H.
  - destruct P as [P1 P2]; [qc_lra|]. split; qc_lra.
  - destruct N as [N1 N2]; [qc_lra|]. split; qc_lra.
Qed.

(** [x % 360] lies from 0 to 360, and below 360 when [x] is not negative:
    then nothing is added, and nothing rounded. *)
Lemma pymod_360_range (FLOAT : Num.Rounding) (x : Qc) :
  $0 <= Num.pymod FLOAT x $360 /\ Num.pymod FLOAT x $360 <= $360
  /\ ($0 <= x -> Num.pymod FLOAT x $360 = Num.fmod x $360
                 /\ Num.pymod FLOAT x $360 < $360).
Proof.
  unfold Num.pymod. cbv zeta.
  destruct (fmod_360 x) as [P N].
  destruct (ltb_spec (Num.fmod x $360) $0) as [L | L].
  - assert (X : x <= $0).
    { apply Qcnot_lt_le. intro X. destruct (P (Qclt_le_weak _ _ X)). qc_lra. }
    destruct (N X) as [N1 N2].
    pose proof (Num.fl_monotone FLOAT $0 (Num.fmod x $360 + $360)
                  ltac:(qc_lra)) as A.
    pose proof (Num.fl_monotone FLOAT (Num.fmod x $360 + $360) $360
                  ltac:(qc_lra)) as B.
    rewrite (Num.fl_0 FLOAT) in A. rewrite (Num.fl_360 FLOAT) in B.
    split; [exact A|]. split; [exact B|].
    intro X'. destruct (P X'). qc_lra.
  - destruct (ltb_spec x $0) as [X | X].
    + destruct (N (Qclt_le_weak _ _ X)). split; [exact L|]. split; [qc_lra|].
      intro X'. qc_lra.
    + destruct (P X). split; [exact L|]. split; [qc_lra|]. auto.
Qed.

(** The shorter way round between two directions from 0 to 360. *)
Lemma shortest_le_180 (a e : Qc) :
  $0 <= a -> a <= $360 -> $0 <= e -> e <= $360 ->
  let diff := Num.abs (a - e) in
  $0 <= Num.min diff ($360 - diff) /\ Num.min diff ($360 - diff) <= $180.
Proof.
  intros A1 A2 E1 E2 diff.
  assert (D0 : $0 <= diff) by apply MinMax.abs_nonneg.
  assert (D1 : diff <= $360).
  { unfold diff, Num.abs.
    apply Qcabs_case; intros; qc_lra. }
  unfold Num.min. destruct (ltb_spec ($360 - diff) diff); split; qc_lra.
Qed.

End AzimuthFacts.




(** C10: in [vor_fix_calculation.py], a projection over less than 1000 NM
    returns the single forward call's point, whatever the verified error:
    [max(1, int(distance_nm / 500))] is 1 and the multi-step branch asks for
    more than 1. *)
Theorem project_single_step_below_1000 (GEODESIC : Geodesic)
  (start_coords : VorFixCalculation.Coordinates) (azimuth distance_nm : Qc) :
  distance_nm < $1000 ->
  Z.max 1 (Num.int (distance_nm / $500)) = 1%Z
  /\ VorFixCalculation.calculate_target_coords_geodesic GEODESIC start_coords
       azimuth distance_nm
     = let result :=
         Direct GEODESIC (VorFixCalculation.lat start_coords)
           (VorFixCalculation.lon start_coords) azimuth
           (nm_to_meters distance_nm) in
       VorFixCalculation.new_Coordinates (lat2 result) (lon2 result).
Proof.
  intro H. pose proof (ProjectFacts.int_below_2 distance_nm H) as B.
  assert (M : Z.max 1 (Num.int (distance_nm / $500)) = 1%Z) by lia.
  split; [exact M|].
  unfold VorFixCalculation.calculate_target_coords_geodesic.
  cbv zeta. rewrite M. simpl (1 <? 1)%Z.
  destruct (_ >? $0.1); reflexivity.
Qed.

(** On the chart whose forward call drifts, a projection over 600 NM is
    verified more than 0.1 m off and still returns the single forward call's
    point. *)
Lemma project_single_step_below_1000_witness :
  (Num.abs
     (s12 (Inverse Chart.drift $0 $0
             (lat2 (Direct Chart.drift $0 $0 $0 (nm_to_meters $600)))
             (lon2 (Direct Chart.drift $0 $0 $0 (nm_to_meters $600))))
      - nm_to_meters $600) >? $0.1) = true
  /\ VorFixCalculation.calculate_target_coords_geodesic Chart.drift
       {| VorFixCalculation.lat := $0; VorFixCalculation.lon := $0 |} $0 $600
     = VorFixCalculation.new_Coordinates
         (lat2 (Direct Chart.drift $0 $0 $0 (nm_to_meters $600)))
         (lon2 (Direct Chart.drift $0 $0 $0 (nm_to_meters $600))).
Proof.
  split.
  - vm_compute. reflexivity.
  - apply (project_single_step_below_1000 Chart.drift).
    vm_compute. reflexivity.
Defined.

Module RefinementFacts.

Import CoreProjection.

Section WithOracle.

Variable GEODESIC : Geodesic.

(** [vor_fix_calculation.py] computes what the procedure of the
    specification computes, on every input. *)
Lemma vor_fix_refines (start_coords : VorFixCalculation.Coordinates)
  (azimuth distance_nm : Qc) :
  VorFixCalculation.calculate_target_coords_geodesic GEODESIC start_coords
    azimuth distance_nm
  = Spec.project GEODESIC start_coords azimuth distance_nm.
Proof.
  unfold VorFixCalculation.calculate_target_coords_geodesic, Spec.project.
  cbv zeta. unfold nm_to_meters, METERS_PER_NM.
  set (dm := distance_nm * $1852.0).
  set (err := Num.abs _).
  destruct (leb_spec err $0.1) as [L | L].
  - rewrite (proj2 (ltb_false _ _) L). reflexivity.
  - rewrite (proj2 (ltb_true _ _) L).
    rewrite ProjectFacts.max_1_int_floor.
    set (n := Z.max 1 (Num.floor (distance_nm / $500))).
    destruct (Z.ltb_spec 1 n) as [N | N].
    + apply ProjectFacts.steps_walk.
    + assert (E : n = 1%Z) by (unfold n in *; lia).
      rewrite E. change (Z.to_nat 1) with 1%nat.
      symmetry. apply ProjectFacts.walk_one.
Qed.

Import CoreVorCalc.

Local Abbreviation verified_error := (verified_error GEODESIC).
Local Abbreviation refined := (refined GEODESIC).

Lemma for_each_invariant {A S : Type} (P : S -> Prop)
  (body : A -> S -> Result (Flow S)) (xs : list A) :
  (forall x s s', In x xs -> P s ->
                  body x s = Ok (Break s') \/ body x s = Ok (Next s') -> P s') ->
  forall s r, P s -> for_each xs body s = Ok r -> P r.
Proof.
  induction xs as [| x xs IH]; intros Step s r Ps E; simpl in E.
  - congruence.
  - destruct (body x s) as [[s' | s'] | e] eqn:B; try discriminate.
    + inversion E; subst. apply (Step x s r); auto. now left.
    + apply IH with (s := s'); auto.
      * intros y t t' I. apply Step. now right.
      * apply (Step x s s'); auto. now left.
Qed.

Lemma refine_body_refined (start_coords : Coordinates)
  (azimuth distance_nm : Qc) (initial_coords : Coordinates)
  (step_size_km : Qc) (st st' : Refine) :
  In step_size_km [$100; $250; $500; $1000] ->
  refined start_coords azimuth distance_nm initial_coords st ->
  refine_body GEODESIC start_coords azimuth distance_nm
    (nm_to_meters distance_nm) step_size_km st = Ok (Break st')
  \/ refine_body GEODESIC start_coords azimuth distance_nm
       (nm_to_meters distance_nm) step_size_km st = Ok (Next st') ->
  refined start_coords azimuth distance_nm initial_coords st'.
Proof.
  intros I R H. unfold refine_body in H.
  destruct (ltb_spec distance_nm (step_size_km / $1.852)) as [L | L].
  { destruct H as [H | H]; inversion H; subst; exact R. }
  destruct (for_range _ _ start_coords) as [step_coords | e] eqn:W;
    simpl in H; [| destruct H; discriminate].
  destruct (ltb_spec
              (Num.abs (s12 (Inverse GEODESIC (lat start_coords)
                               (lon start_coords) (lat step_coords)
                               (lon step_coords)) - nm_to_meters distance_nm))
              (min_error st)) as [B | B].
  - assert (R' : refined start_coords azimuth distance_nm initial_coords
                   {| optimal_coords := step_coords;
                      min_error :=
                        Num.abs (s12 (Inverse GEODESIC (lat start_coords)
                                        (lon start_coords) (lat step_coords)
                                        (lon step_coords))
                                 - nm_to_meters distance_nm) |}).
    { destruct R as [R1 [R2 R3]]. unfold refined. simpl.
      split; [reflexivity|]. split.
      - unfold verified_error in *. qc_lra.
      - right. exists step_size_km. repeat split; assumption. }
    destruct (_ <=? DISTANCE_TOLERANCE_M);
      destruct H as [H | H]; inversion H; subst; exact R'.
  - destruct H as [H | H]; inversion H; subst; exact R.
Qed.

(** A point that is not better leaves the first of least error. *)
Lemma first_least_keep (error : Coordinates -> Qc) (ps : list Coordinates)
  (p q : Coordinates) :
  first_least error ps p -> error p <= error q ->
  first_least error (ps ++ (q :: nil)) p.
Proof.
  intros [before [after [E [B A]]]] L.
  exists before, (after ++ (q :: nil)). split; [| split; [exact B |]].
  - rewrite E, <- app_assoc. reflexivity.
  - apply Forall_app. split; [exact A | constructor; [exact L | constructor]].
Qed.

(** A point that is better becomes the first of least error. *)
Lemma first_least_new (error : Coordinates -> Qc) (ps : list Coordinates)
  (p q : Coordinates) :
  first_least error ps p -> error q < error p ->
  first_least error (ps ++ (q :: nil)) q.
Proof.
  intros [before [after [E [B A]]]] L.
  exists ps, []. split; [reflexivity | split; [| constructor]].
  rewrite E. apply Forall_app. split; [| constructor].
  - eapply Forall_impl; [| exact B]. intros a H. cbv beta in *. qc_lra.
  - exact L.
  - eapply Forall_impl; [| exact A]. intros a H. cbv beta in *. qc_lra.
Qed.

(** The step-size loop from any of its states: [seen] are the points
    compared so far, none of them within the tolerance. *)
Lemma loop_kept (start_coords : Coordinates) (azimuth distance_nm : Qc)
  (xs : list Qc) :
  let error := verified_error start_coords (nm_to_meters distance_nm) in
  forall (seen : list Coordinates) (st r : Refine),
    min_error st = error (optimal_coords st) ->
    DISTANCE_TOLERANCE_M < min_error st ->
    first_least error seen (optimal_coords st) ->
    for_each xs
      (refine_body GEODESIC start_coords azimuth distance_nm
         (nm_to_meters distance_nm)) st = Ok r ->
    exists tried rest points,
      filter (fun step_size_km => negb (distance_nm <? step_size_km / $1.852)) xs
      = tried ++ rest
      /\ Forall2 (fun step_size_km q =>
                    walk GEODESIC start_coords azimuth distance_nm step_size_km
                    = Ok q) tried points
      /\ ((rest = [] /\ Forall (fun q => DISTANCE_TOLERANCE_M < error q) points)
          \/ exists earlier last,
               points = earlier ++ (last :: nil)
               /\ Forall (fun q => DISTANCE_TOLERANCE_M < error q) earlier
               /\ error last <= DISTANCE_TOLERANCE_M)
      /\ first_least error (seen ++ points) (optimal_coords r).
Proof.
  intro error. induction xs as [| x xs IH]; intros seen st r M T F E.
  - simpl in E. inversion E; subst r.
    exists [], [], []. split; [reflexivity|]. split; [constructor|].
    split; [left; split; [reflexivity | constructor]|].
    rewrite app_nil_r. exact F.
  - cbn [for_each] in E. unfold refine_body in E at 1. cbn [filter].
    destruct (ltb_spec distance_nm (x / $1.852)) as [L | L]; cbn [negb].
    { exact (IH seen st r M T F E). }
    fold (walk GEODESIC start_coords azimuth distance_nm x) in E.
    destruct (walk GEODESIC start_coords azimuth distance_nm x)
      as [q | e] eqn:W; cbn [bind] in E; [| discriminate].
    change (Num.abs (s12 (Inverse GEODESIC (lat start_coords)
                            (lon start_coords) (lat q) (lon q))
                     - nm_to_meters distance_nm))
      with (error q) in E.
    destruct (ltb_spec (error q) (min_error st)) as [B | B].
    + destruct (leb_spec (error q) DISTANCE_TOLERANCE_M) as [C | C].
      * inversion E; subst r. cbn [optimal_coords].
        exists (x :: nil), (filter (fun step_size_km =>
                               negb (distance_nm <? step_size_km / $1.852)) xs),
          (q :: nil).
        split; [reflexivity|].
        split; [constructor; [exact W | constructor]|].
        split.
        -- right. exists [], q. split; [reflexivity|].
           split; [constructor | exact C].
        -- apply (first_least_new error seen (optimal_coords st) q F).
           rewrite <- M. exact B.
      * destruct (IH (seen ++ (q :: nil))
                    {| optimal_coords := q; min_error := error q |} r)
          as [tried [rest [points [S [Wk [St Fl]]]]]];
          [reflexivity | exact C | | exact E |].
        { apply (first_least_new error seen (optimal_coords st) q F).
          rewrite <- M. exact B. }
        exists (x :: tried), rest, (q :: points).
        split; [cbn [app]; rewrite S; reflexivity|].
        split; [constructor; [exact W | exact Wk]|].
        split.
        -- destruct St as [[R0 Fa] | [earlier [last [P [Fa Lt]]]]].
           ++ left. split; [exact R0 | constructor; [exact C | exact Fa]].
           ++ right. exists (q :: earlier), last.
              split; [rewrite P; reflexivity|].
              split; [constructor; [exact C | exact Fa] | exact Lt].
        -- rewrite <- app_assoc in Fl. exact Fl.
    + destruct (IH (seen ++ (q :: nil)) st r M T) as
          [tried [rest [points [S [Wk [St Fl]]]]]]; [| exact E |].
      { apply first_least_keep; [exact F | rewrite <- M; exact B]. }
      assert (C : DISTANCE_TOLERANCE_M < error q) by qc_lra.
      exists (x :: tried), rest, (q :: points).
      split; [cbn [app]; rewrite S; reflexivity|].
      split; [constructor; [exact W | exact Wk]|].
      split.
      * destruct St as [[R0 Fa] | [earlier [last [P [Fa Lt]]]]].
        -- left. split; [exact R0 | constructor; [exact C | exact Fa]].
        -- right. exists (q :: earlier), last.
           split; [rewrite P; reflexivity|].
           split; [constructor; [exact C | exact Fa] | exact Lt].
      * rewrite <- app_assoc in Fl. exact Fl.
Qed.

End WithOracle.

End RefinementFacts.

Module CoreProjectFacts.

Import CoreVorCalc.

Lemma core_ok_fields (lat lon : Qc) (c : Coordinates) :
  new_Coordinates lat lon = Ok c ->
  c = {| CoreVorCalc.lat := lat; CoreVorCalc.lon := lon |}.
Proof.
  intro H. destruct (CoordinatesFacts.core_cases lat lon) as [[_ E] | [_ [e E]]];
    rewrite E in H; congruence.
Qed.

Lemma bind_ok {A : Type} (r : Result A) : (x <- r ;; Ok x) = r.
Proof. destruct r; reflexivity. Qed.

Section WithOracle.

Variable GEODESIC : Geodesic.

(** At most one metre off, the single step is returned as it is. *)
Lemma core_immediate (start_coords : Coordinates) (azimuth distance_nm : Qc) :
  let distance_m := nm_to_meters distance_nm in
  let result :=
    Direct GEODESIC (lat start_coords) (lon start_coords) azimuth distance_m in
  CoreProjection.verified_error GEODESIC start_coords distance_m
    {| lat := lat2 result; lon := lon2 result |} <= DISTANCE_TOLERANCE_M ->
  calculate_target_coords_geodesic GEODESIC start_coords azimuth distance_nm
  = new_Coordinates (lat2 result) (lon2 result).
Proof.
  intros distance_m result H.
  unfold calculate_target_coords_geodesic. cbv zeta.
  fold distance_m. fold result.
  unfold CoreProjection.verified_error in H. simpl in H.
  rewrite (proj2 (leb_true _ _) H). apply bind_ok.
Qed.

(** More than one metre off, the result is what the step-size loop keeps. *)
Lemma core_refined (start_coords : Coordinates) (azimuth distance_nm : Qc)
  (p : Coordinates) :
  let distance_m := nm_to_meters distance_nm in
  let result :=
    Direct GEODESIC (lat start_coords) (lon start_coords) azimuth distance_m in
  let initial_coords := {| lat := lat2 result; lon := lon2 result |} in
  DISTANCE_TOLERANCE_M
  < CoreProjection.verified_error GEODESIC start_coords distance_m initial_coords ->
  calculate_target_coords_geodesic GEODESIC start_coords azimuth distance_nm
  = Ok p ->
  CoreProjection.refined GEODESIC start_coords azimuth distance_nm initial_coords
    {| optimal_coords := p;
       min_error :=
         CoreProjection.verified_error GEODESIC start_coords distance_m p |}.
Proof.
  intros distance_m result initial_coords H E.
  unfold calculate_target_coords_geodesic in E. cbv zeta in E.
  fold distance_m in E. fold result in E.
  destruct (new_Coordinates (lat2 result) (lon2 result)) as [c | e] eqn:N;
    cbn [bind] in E; [| discriminate].
  apply core_ok_fields in N. fold initial_coords in N. subst c.
  unfold CoreProjection.verified_error in H. simpl in H.
  rewrite (proj2 (leb_false _ _) H) in E.
  destruct (for_each _ _ _) as [st | e] eqn:F; cbn [bind] in E; [| discriminate].
  inversion E; subst p. clear E.
  assert (R : CoreProjection.refined GEODESIC start_coords azimuth distance_nm
                initial_coords st).
  { eapply (RefinementFacts.for_each_invariant
              (CoreProjection.refined GEODESIC start_coords azimuth
                 distance_nm initial_coords)); [| | exact F].
    - intros x s s' I Ps B.
      eapply RefinementFacts.refine_body_refined; eauto.
    - unfold CoreProjection.refined. simpl. split; [reflexivity|].
      split; [apply Qcle_refl | now left]. }
  destruct st as [oc me]. destruct R as [R1 [R2 R3]]. simpl in *.
  unfold CoreProjection.refined. simpl. subst me.
  split; [reflexivity|]. split; assumption.
Qed.

(** More than one metre off, the result is the point the loop keeps. *)
Lemma core_kept (start_coords : Coordinates) (azimuth distance_nm : Qc)
  (p : Coordinates) :
  let distance_m := nm_to_meters distance_nm in
  let result :=
    Direct GEODESIC (lat start_coords) (lon start_coords) azimuth distance_m in
  let initial_coords := {| lat := lat2 result; lon := lon2 result |} in
  DISTANCE_TOLERANCE_M
  < CoreProjection.verified_error GEODESIC start_coords distance_m initial_coords ->
  calculate_target_coords_geodesic GEODESIC start_coords azimuth distance_nm
  = Ok p ->
  CoreProjection.kept GEODESIC start_coords azimuth distance_nm initial_coords p.
Proof.
  intros distance_m result initial_coords H E.
  unfold calculate_target_coords_geodesic in E. cbv zeta in E.
  fold distance_m in E. fold result in E.
  destruct (new_Coordinates (lat2 result) (lon2 result)) as [c | e] eqn:N;
    cbn [bind] in E; [| discriminate].
  apply core_ok_fields in N. fold initial_coords in N. subst c.
  pose proof H as H'.
  unfold CoreProjection.verified_error in H'. simpl in H'.
  rewrite (proj2 (leb_false _ _) H') in E.
  destruct (for_each _ _ _) as [st | e] eqn:F; cbn [bind] in E; [| discriminate].
  inversion E; subst p. clear E.
  destruct (RefinementFacts.loop_kept GEODESIC start_coords azimuth distance_nm
              [$100; $250; $500; $1000] (initial_coords :: nil)
              {| optimal_coords := initial_coords;
                 min_error :=
                   CoreProjection.verified_error GEODESIC start_coords
                     distance_m initial_coords |} st eq_refl H)
    as [tried [rest [points [S [W [St Fl]]]]]]; [| exact F |].
  { exists [], []. split; [reflexivity | split; constructor]. }
  exists tried, rest, points.
  split; [exact S|]. split; [exact W|]. split; [exact St | exact Fl].
Qed.

End WithOracle.

End CoreProjectFacts.




(** ** The bisection loop of vor_fix_calculation.py *)

Module LoopFacts.

(** What a [for] loop establishes: [P k s] holds of the state [s] before
    pass [k + 1], [Q m r] of the state [r] a [break] of pass [m] leaves. *)
Lemma for_range_outcome {S : Type} (body : S -> Result (Flow S))
  (P Q : nat -> S -> Prop) :
  (forall k s s', P k s -> body s = Ok (Next s') -> P (Datatypes.S k) s') ->
  (forall k s s', P k s -> body s = Ok (Break s') -> Q (Datatypes.S k) s') ->
  forall n k s r,
    P k s -> for_range n body s = Ok r ->
    (exists m, (k < m <= k + n)%nat /\ Q m r) \/ P (k + n)%nat r.
Proof.
  intros HN HB. induction n as [| n IH]; intros k s r Ps E; simpl in E.
  - inversion E; subst. right. now rewrite Nat.add_0_r.
  - destruct (body s) as [[s' | s'] | e] eqn:B; try discriminate.
    + inversion E; subst. left. exists (Datatypes.S k). split; [lia|].
      eapply HB; eauto.
    + destruct (IH (Datatypes.S k) s' r (HN _ _ _ Ps B) E) as [[m [L Qm]] | Pn].
      * left. exists m. split; [lia | exact Qm].
      * right. now replace (k + Datatypes.S n)%nat with (Datatypes.S k + n)%nat by lia.
Qed.

Lemma for_range_total {S : Type} (body : S -> Result (Flow S)) :
  (forall s, exists f, body s = Ok f) ->
  forall n s, exists r, for_range n body s = Ok r.
Proof.
  intro T. induction n as [| n IH]; intro s; simpl.
  - eexists; reflexivity.
  - destruct (T s) as [[s' | s'] B]; rewrite B; [eexists; reflexivity | apply IH].
Qed.

Lemma for_range_pure_outcome {S : Type} (body : S -> Flow S)
  (P Q : nat -> S -> Prop) :
  (forall k s s', P k s -> body s = Next s' -> P (Datatypes.S k) s') ->
  (forall k s s', P k s -> body s = Break s' -> Q (Datatypes.S k) s') ->
  forall n k s,
    P k s ->
    (exists m, (k < m <= k + n)%nat /\ Q m (for_range_pure n body s))
    \/ P (k + n)%nat (for_range_pure n body s).
Proof.
  intros HN HB. induction n as [| n IH]; intros k s Ps; simpl.
  - right. now rewrite Nat.add_0_r.
  - destruct (body s) as [s' | s'] eqn:B.
    + left. exists (Datatypes.S k). split; [lia|]. eapply HB; eauto.
    + destruct (IH (Datatypes.S k) s' (HN _ _ _ Ps B)) as [[m [L Qm]] | Pn].
      * left. exists m. split; [lia | exact Qm].
      * right. now replace (k + Datatypes.S n)%nat with (Datatypes.S k + n)%nat by lia.
Qed.

End LoopFacts.

Module BisectionFacts.

Import VorFixCalculation Bisection.

Section WithQuery.

Variable GEODESIC : Geodesic.
Variables (fix_coords : Coordinates) (true_bearing : Qc).
Variables (dme_coords : Coordinates) (distance_m : Qc).

Local Abbreviation recorded :=
  (recorded GEODESIC fix_coords true_bearing dme_coords distance_m).
Local Abbreviation best_tracked :=
  (best_tracked GEODESIC fix_coords true_bearing dme_coords distance_m).
Local Abbreviation running :=
  (running GEODESIC fix_coords true_bearing dme_coords distance_m).
Local Abbreviation stopped :=
  (stopped GEODESIC fix_coords true_bearing dme_coords distance_m).

Lemma x_le_improve (b : Num.xfloat) (e e' : Qc) :
  Num.ltb_x e b = true -> Num.x_le b e' -> e <= e'.
Proof.
  destruct b as [q |]; simpl; [| contradiction].
  intros L H. apply ltb_true in L. qc_lra.
Qed.

Lemma x_le_keep (b : Num.xfloat) (e : Qc) :
  Num.ltb_x e b = false -> Num.x_le b e.
Proof.
  destruct b as [q |]; simpl; [| discriminate].
  intro L. apply ltb_false in L. exact L.
Qed.

(** One pass keeps the best point tracked, whatever bracket it records. *)
Lemma track_pass (st : Search) (test_dist : Qc) (test_point : Coordinates)
  (lo hi lo' hi' : Qc) :
  let error_m := error_of GEODESIC dme_coords distance_m test_point in
  let p := {| pass_dist := test_dist; pass_point := test_point;
              pass_error := error_m; pass_min := lo; pass_max := hi |} in
  recorded p ->
  best_tracked st ->
  best_tracked
    {| min_dist := lo'; max_dist := hi';
       best_approx_distance :=
         fst (if Num.ltb_x error_m (best_approx_distance st)
              then (Num.Fin error_m, test_point)
              else (best_approx_distance st, best_approx_point st));
       best_approx_point :=
         snd (if Num.ltb_x error_m (best_approx_distance st)
              then (Num.Fin error_m, test_point)
              else (best_approx_distance st, best_approx_point st));
       passes := p :: passes st |}.
Proof.
  intros error_m p Rp [R [B [W Z]]]. unfold best_tracked. simpl.
  split; [constructor; assumption|].
  destruct (Num.ltb_x error_m (best_approx_distance st)) eqn:L; simpl.
  - split; [| split; [| discriminate]].
    + constructor; [simpl; apply Qcle_refl|].
      eapply Forall_impl; [| exact B]. intros q Hq. simpl.
      eapply x_le_improve; eauto.
    + intros _. exists p. simpl. auto.
  - split; [| split; [| discriminate]].
    + constructor; [simpl; apply x_le_keep; exact L | exact B].
    + intros _. destruct (passes st) as [| q qs] eqn:E.
      * rewrite (Z eq_refl) in L. discriminate.
      * destruct W as [q' [I [P1 P2]]]; [discriminate|].
        exists q'. split; [right; exact I | auto].
Qed.

(** One pass of the loop: it raises, or goes on with the invariant kept, or
    breaks on one of the two tests. *)
Lemma body_step (k : nat) (st : Search) :
  running k st ->
  match bisect_body GEODESIC fix_coords true_bearing dme_coords distance_m st with
  | Raise _ => True
  | Ok (Next st') => running (Datatypes.S k) st'
  | Ok (Break st') => stopped (Datatypes.S k) st'
  end.
Proof.
  intros [Len [Go Tr]]. unfold bisect_body.
  set (test_dist := (min_dist st + max_dist st) / $2.0).
  destruct (new_Coordinates _ _) as [test_point | e] eqn:N; cbn [bind];
    [| exact I].
  set (test_to_dme_m := s12 _).
  set (error_m := Num.abs (test_to_dme_m - distance_m)).
  assert (Rec : forall lo hi,
             recorded {| pass_dist := test_dist; pass_point := test_point;
                         pass_error := error_m; pass_min := lo;
                         pass_max := hi |}).
  { intros lo hi. split; [exact N | reflexivity]. }
  assert (Tr' : forall lo hi lo' hi', _) by
    (intros lo hi lo' hi';
     exact (track_pass st test_dist test_point lo hi lo' hi' (Rec lo hi) Tr)).
  cbv zeta in Tr'. fold test_to_dme_m in Tr'.
  change (error_of GEODESIC dme_coords distance_m test_point)
    with error_m in Tr'.
  destruct (Num.ltb_x error_m (best_approx_distance st)) eqn:L;
    simpl in Tr';
    (destruct (ltb_spec error_m DISTANCE_TOLERANCE_M) as [T | T];
     [ (* break on the error *)
       split; [simpl; lia|]; split; [| apply Tr'];
       eexists; eexists; split; [reflexivity|]; split; [left; exact T | exact Go]
     | destruct (test_to_dme_m >? distance_m);
       (match goal with
        | |- context [Num.ltb ?w $0.000001] =>
            destruct (ltb_spec w $0.000001) as [W | W]
        end;
        [ split; [simpl; lia|]; split; [| apply Tr'];
          eexists; eexists; split; [reflexivity|];
          split; [right; exact W | exact Go]
        | split; [simpl; lia|]; split; [| apply Tr'];
          constructor; [split; [exact T | exact W] | exact Go] ]) ]).
Qed.

End WithQuery.

End BisectionFacts.

Module BisectionRun.

Import VorFixCalculation Bisection BisectionFacts.

Section WithQuery.

Variable GEODESIC : Geodesic.
Variables (fix_coords : Coordinates) (true_bearing : Qc).
Variables (dme_coords : Coordinates) (distance_nm : Qc).

Local Abbreviation answers_in_range :=
  (answers_in_range GEODESIC fix_coords true_bearing).

Lemma init_running :
  running GEODESIC fix_coords true_bearing dme_coords
    (nm_to_meters distance_nm) 0
    (search_init GEODESIC fix_coords dme_coords distance_nm).
Proof.
  unfold search_init. destruct (search_range _ _) as [lo hi].
  repeat split; simpl; try constructor; try congruence.
Qed.

Lemma search_outcome (r : Search) :
  search GEODESIC fix_coords true_bearing dme_coords distance_nm = Ok r ->
  (exists m, (0 < m <= MAX_ITERATIONS)%nat
             /\ stopped GEODESIC fix_coords true_bearing dme_coords
                  (nm_to_meters distance_nm) m r)
  \/ running GEODESIC fix_coords true_bearing dme_coords
       (nm_to_meters distance_nm) MAX_ITERATIONS r.
Proof.
  unfold search. intro E.
  eapply (LoopFacts.for_range_outcome _
            (running GEODESIC fix_coords true_bearing dme_coords
               (nm_to_meters distance_nm))
            (stopped GEODESIC fix_coords true_bearing dme_coords
               (nm_to_meters distance_nm))) with (k := 0%nat) in E.
  - exact E.
  - intros k s s' R B.
    pose proof (body_step GEODESIC fix_coords true_bearing dme_coords
                  (nm_to_meters distance_nm) k s R) as H.
    rewrite B in H. exact H.
  - intros k s s' R B.
    pose proof (body_step GEODESIC fix_coords true_bearing dme_coords
                  (nm_to_meters distance_nm) k s R) as H.
    rewrite B in H. exact H.
  - apply init_running.
Qed.

Lemma search_returns :
  answers_in_range ->
  exists r,
    search GEODESIC fix_coords true_bearing dme_coords distance_nm = Ok r.
Proof.
  intro A. unfold search. apply LoopFacts.for_range_total.
  intro s. unfold bisect_body.
  destruct (A (nm_to_meters ((min_dist s + max_dist s) / $2.0))) as [c C].
  rewrite C. cbn [bind].
  destruct (Num.ltb_x _ _); destruct (_ <? DISTANCE_TOLERANCE_M);
    try (eexists; reflexivity);
    destruct (_ >? _); destruct (_ <? $0.000001); eexists; reflexivity.
Qed.

(** The returned point's error is the least recorded one. *)
Lemma best_is_least (st : Search) :
  best_tracked GEODESIC fix_coords true_bearing dme_coords
    (nm_to_meters distance_nm) st ->
  passes st <> [] ->
  forall p, In p (passes st) ->
    error_of GEODESIC dme_coords (nm_to_meters distance_nm)
      (best_approx_point st)
    <= error_of GEODESIC dme_coords (nm_to_meters distance_nm) (pass_point p).
Proof.
  intros [R [B [W _]]] NE p I.
  destruct (W NE) as [q [Iq [Pq Dq]]].
  rewrite Forall_forall in R, B.
  pose proof (B p I) as Bp. rewrite Dq in Bp. simpl in Bp.
  destruct (R p I) as [_ Ep]. destruct (R q Iq) as [_ Eq].
  rewrite Pq, <- Eq, <- Ep. exact Bp.
Qed.

End WithQuery.

End BisectionRun.

(** ** The loop of the earlier revision *)

Module LegacyFacts.

Import Legacy LegacyLoop.

Section WithQuery.

Variable GEODESIC : Geodesic.
Variables (lat_fix lon_fix true_bearing lat_dme lon_dme distance_m : Qc).

Local Abbreviation err := (err distance_m).
Local Abbreviation recorded :=
  (recorded GEODESIC lat_fix lon_fix true_bearing lat_dme lon_dme).
Local Abbreviation tracked :=
  (tracked GEODESIC lat_fix lon_fix true_bearing lat_dme lon_dme distance_m).

(** Comparing a candidate with the best point keeps the best point tracked. *)
Lemma track_candidate (best_d : Num.xfloat) (best_p : Point) (es es' : list Eval)
  (e : Eval) :
  tracked best_d best_p es ->
  recorded e -> candidate e = true ->
  (forall x, In x es' <-> x = e \/ In x es) ->
  tracked
    (fst (if Num.ltb_x (err e) best_d then (Num.Fin (err e), eval_point e)
          else (best_d, best_p)))
    (snd (if Num.ltb_x (err e) best_d then (Num.Fin (err e), eval_point e)
          else (best_d, best_p)))
    es'.
Proof.
  intros [R [B [W Z]]] Re Ce M.
  assert (NE : es' <> []).
  { intro E. rewrite E in M. apply (proj2 (M e)). now left. }
  destruct (Num.ltb_x (err e) best_d) eqn:L; simpl.
  - split; [| split; [| split]].
    + intros x I. apply M in I. destruct I as [-> | I]; auto.
    + intros x I Cx. apply M in I. destruct I as [-> | I].
      * simpl. apply Qcle_refl.
      * simpl. eapply BisectionFacts.x_le_improve; eauto.
    + intros _. exists e. split; [apply M; now left | auto].
    + intro E. contradiction.
  - split; [| split; [| split]].
    + intros x I. apply M in I. destruct I as [-> | I]; auto.
    + intros x I Cx. apply M in I. destruct I as [-> | I]; auto.
      apply BisectionFacts.x_le_keep. exact L.
    + intros _. destruct es as [| y ys].
      * rewrite (Z eq_refl) in L. discriminate.
      * destruct W as [q [Iq Hq]]; [discriminate|].
        exists q. split; [apply M; now right | exact Hq].
    + intro E. contradiction.
Qed.

(** An evaluation that is not compared leaves the best point tracked. *)
Lemma track_others (best_d : Num.xfloat) (best_p : Point) (es es' : list Eval)
  (others : list Eval) :
  tracked best_d best_p es ->
  es <> [] ->
  (forall x, In x others -> recorded x /\ candidate x = false) ->
  (forall x, In x es' <-> In x others \/ In x es) ->
  tracked best_d best_p es'.
Proof.
  intros [R [B [W Z]]] NE O M.
  split; [| split; [| split]].
  - intros x I. apply M in I. destruct I as [I | I]; auto. apply O. exact I.
  - intros x I Cx. apply M in I. destruct I as [I | I]; auto.
    destruct (O x I) as [_ F]. congruence.
  - intros _. destruct (W NE) as [q [Iq Hq]].
    exists q. split; [apply M; now right | exact Hq].
  - intro E. exfalso. destruct es as [| y ys]; [congruence|].
    rewrite E in M. apply (proj2 (M y)). right. now left.
Qed.

End WithQuery.

End LegacyFacts.

Module LegacyRun.

Import Legacy LegacyLoop LegacyFacts.

Section WithQuery.

Variable GEODESIC : Geodesic.
Variables (lat_fix lon_fix true_bearing lat_dme lon_dme distance_m : Qc).

Local Abbreviation recorded :=
  (recorded GEODESIC lat_fix lon_fix true_bearing lat_dme lon_dme).
Local Abbreviation tracked :=
  (tracked GEODESIC lat_fix lon_fix true_bearing lat_dme lon_dme distance_m).
Local Abbreviation running :=
  (running GEODESIC lat_fix lon_fix true_bearing lat_dme lon_dme distance_m).
Local Abbreviation stopped :=
  (stopped GEODESIC lat_fix lon_fix true_bearing lat_dme lon_dme distance_m).
Local Abbreviation goes_on := (goes_on distance_m).
Local Abbreviation stops := (stops distance_m).
Local Abbreviation err := (err distance_m).
Local Abbreviation eval_at :=
  (eval_at GEODESIC lat_fix lon_fix true_bearing lat_dme lon_dme).

Lemma eval_at_recorded (kind : EvalKind) (t : Qc) : recorded (eval_at kind t).
Proof. split; reflexivity. Qed.

Ltac members :=
  intro; unfold evals; simpl; rewrite ?in_app_iff; simpl;
  intuition (subst; auto).

(** One pass of the loop goes on with the invariant kept, or breaks on one
    of its tests. *)
Lemma legacy_body_step (k : nat) (st : Search) :
  running k st ->
  match search_body GEODESIC lat_fix lon_fix true_bearing lat_dme lon_dme
          distance_m st with
  | Next st' => running (Datatypes.S k) st'
  | Break st' => stopped (Datatypes.S k) st'
  end.
Proof.
  intros [Len [Go [Tr [Cn Ne]]]]. unfold search_body.
  set (test_dist := (min_dist st + max_dist st) / $2.0).
  set (test_point := Direct GEODESIC lat_fix lon_fix true_bearing
                       (nm_to_meters test_dist)).
  set (test_to_dme_m := s12 (Inverse GEODESIC (lat2 test_point)
                               (lon2 test_point) lat_dme lon_dme)).
  set (error_m := Num.abs (test_to_dme_m - distance_m)).
  set (mid := {| eval_kind := Midpoint; eval_dist := test_dist;
                 eval_point := {| lat := lat2 test_point; lon := lon2 test_point |};
                 eval_to_dme_m := test_to_dme_m |}).
  assert (Rmid : recorded mid) by exact (eval_at_recorded Midpoint test_dist).
  set (X := if Num.ltb_x error_m (best_approx_distance st)
            then (Num.Fin error_m,
                  {| lat := lat2 test_point; lon := lon2 test_point |})
            else (best_approx_distance st, best_approx_point st)).
  assert (Tr1 : tracked (fst X) (snd X) (mid :: evals (passes st))).
  { apply (track_candidate GEODESIC lat_fix lon_fix true_bearing lat_dme
             lon_dme distance_m _ _ (evals (passes st)) _ mid Tr Rmid eq_refl).
    members. }
  clearbody X. destruct X as [bd bp]. simpl in Tr1. cbv iota beta.
  destruct (ltb_spec error_m DISTANCE_TOLERANCE_M) as [T | T].
  { split; [simpl; lia|]. split; [| split; [exact Tr1 | constructor; [discriminate | exact Ne]]].
    eexists; eexists. split; [reflexivity|]. split; [| exact Go].
    left. exists mid. split; [now left|]. split; [reflexivity | exact T]. }
  set (small := Num.abs_diff_ltb (prev_error st) error_m
                  (DISTANCE_TOLERANCE_M / $10)).
  set (counter := if small then (stagnation_counter st + 1)%Z else 0%Z).
  destruct (Z.gtb counter 5) eqn:C.
  - (* the stagnation branch *)
    pose (e1 := eval_at Endpoint (min_dist st)).
    pose (e2 := eval_at Endpoint (max_dist st)).
    assert (Tr2 : tracked bd bp
                    (mid :: [e1; e2] ++ evals (passes st))).
    { apply (track_others GEODESIC lat_fix lon_fix true_bearing lat_dme
               lon_dme distance_m _ _ (mid :: evals (passes st)) _ [e1; e2]
               Tr1); [discriminate | | members].
      intros x [<- | [<- | []]]; (split; [apply eval_at_recorded | reflexivity]). }
    match goal with
    | |- context [negb (Num.eqb ?a ?b)] => destruct (Num.eqb a b) eqn:Q
    end; cbv iota beta; simpl negb; cbv iota.
    + destruct (adjust_bounds _ _ _ _ _) as [lo hi].
      split; [simpl; lia|]. split.
      { constructor; [| exact Go]. split.
        - intros e I Ce. simpl in I.
          destruct I as [<- | [<- | [<- | []]]]; try discriminate Ce; exact T.
        - intro F; discriminate F. }
      split; [exact Tr2|]. split; [| constructor; [discriminate | exact Ne]].
      simpl. rewrite andb_false_r. reflexivity.
    + set (t := _ + _ * _ / _).
      set (sp := Direct GEODESIC lat_fix lon_fix true_bearing (nm_to_meters t)).
      set (sec_err := Num.abs (s12 (Inverse GEODESIC (lat2 sp) (lon2 sp)
                                      lat_dme lon_dme) - distance_m)).
      pose (sec := eval_at Secant t).
      set (Y := if Num.ltb_x sec_err bd
                then (Num.Fin sec_err, {| lat := lat2 sp; lon := lon2 sp |})
                else (bd, bp)).
      assert (Tr3 : tracked
                (fst Y) (snd Y)
                ((mid :: [e1; e2] ++ [sec]) ++ evals (passes st))).
      { apply (track_candidate GEODESIC lat_fix lon_fix true_bearing lat_dme
                 lon_dme distance_m _ _ (mid :: [e1; e2] ++ evals (passes st))
                 _ sec Tr2 (eval_at_recorded Secant t) eq_refl).
        members. }
      clearbody Y. destruct Y as [bd' bp']. simpl in Tr3. cbv iota beta.
      (destruct (ltb_spec sec_err DISTANCE_TOLERANCE_M) as [T2 | T2];
         [ split; [simpl; lia|]; split; [| split; [exact Tr3 | constructor; [discriminate | exact Ne]]];
           eexists; eexists; split; [reflexivity|]; split; [| exact Go];
           left; exists sec; split; [simpl; tauto|];
           split; [reflexivity | exact T2]
         | destruct (adjust_bounds _ _ _ _ _) as [lo hi];
           split; [simpl; lia|]; split;
           [ constructor; [| exact Go]; split;
             [ intros e I Ce; simpl in I;
               destruct I as [<- | [<- | [<- | [<- | []]]]];
               try discriminate Ce; assumption
             | intro F; discriminate F ]
           | split; [exact Tr3|]; split; [| constructor; [discriminate | exact Ne]];
             simpl; rewrite andb_false_r; reflexivity ] ]).
  - (* a bisection pass *)
    assert (Cnt : counter = Z.of_nat (if small && negb false
                                      then Datatypes.S (streak (passes st))
                                      else 0%nat)).
    { unfold counter. destruct small; simpl; [rewrite Cn; lia | reflexivity]. }
    destruct (test_to_dme_m >? distance_m);
      (match goal with
       | |- context [Num.ltb ?w $0.000001] =>
           destruct (ltb_spec w $0.000001) as [W | W]
       end;
       [ split; [simpl; lia|]; split; [| split; [exact Tr1 | constructor; [discriminate | exact Ne]]];
         eexists; eexists; split; [reflexivity|]; split; [| exact Go];
         right; split; [reflexivity | exact W]
       | split; [simpl; lia|]; split;
         [ constructor; [| exact Go]; split;
           [ intros e I Ce; simpl in I; destruct I as [<- | []]; exact T
           | intros _; exact W ]
         | split; [exact Tr1|]; split; [exact Cnt | constructor; [discriminate | exact Ne]] ] ]).
Qed.

End WithQuery.

End LegacyRun.

Module SolverFacts.

Section Legacy.

Import Legacy LegacyLoop LegacyFacts.

Variable GEODESIC : Geodesic.
Variables (lat_fix lon_fix true_bearing lat_dme lon_dme distance_nm : Qc).

Lemma legacy_init_running :
  running GEODESIC lat_fix lon_fix true_bearing lat_dme lon_dme
    (nm_to_meters distance_nm) 0
    (search_init GEODESIC lat_fix lon_fix lat_dme lon_dme distance_nm).
Proof.
  unfold search_init. destruct (search_range _ _) as [lo hi].
  split; [reflexivity|]. split; [constructor|].
  split; [| split; [reflexivity | constructor]].
  split; [| split; [| split]]; simpl; try contradiction; congruence.
Qed.

Lemma legacy_search_outcome :
  let r := search GEODESIC lat_fix lon_fix true_bearing lat_dme lon_dme
             distance_nm in
  (exists m, (0 < m <= MAX_ITERATIONS)%nat
             /\ stopped GEODESIC lat_fix lon_fix true_bearing lat_dme lon_dme
                  (nm_to_meters distance_nm) m r)
  \/ running GEODESIC lat_fix lon_fix true_bearing lat_dme lon_dme
       (nm_to_meters distance_nm) MAX_ITERATIONS r.
Proof.
  unfold search.
  apply (LoopFacts.for_range_pure_outcome _
           (running GEODESIC lat_fix lon_fix true_bearing lat_dme lon_dme
              (nm_to_meters distance_nm))
           (stopped GEODESIC lat_fix lon_fix true_bearing lat_dme lon_dme
              (nm_to_meters distance_nm))) with (k := 0%nat).
  - intros k s s' R B.
    pose proof (LegacyRun.legacy_body_step GEODESIC lat_fix lon_fix
                  true_bearing lat_dme lon_dme (nm_to_meters distance_nm)
                  k s R) as H.
    rewrite B in H. exact H.
  - intros k s s' R B.
    pose proof (LegacyRun.legacy_body_step GEODESIC lat_fix lon_fix
                  true_bearing lat_dme lon_dme (nm_to_meters distance_nm)
                  k s R) as H.
    rewrite B in H. exact H.
  - apply legacy_init_running.
Qed.

(** The function returns the best point of the search, whichever way the
    statements after the loop go. *)
Lemma legacy_returns_best :
  find_radial_distance_intersection GEODESIC lat_fix lon_fix true_bearing
    lat_dme lon_dme distance_nm
  = best_approx_point
      (search GEODESIC lat_fix lon_fix true_bearing lat_dme lon_dme distance_nm).
Proof.
  unfold find_radial_distance_intersection. cbv zeta.
  destruct (intersection_found _); [destruct (_ >? _) |]; reflexivity.
Qed.

Lemma legacy_best_is_least (best_d : Num.xfloat) (best_p : Point)
  (es : list Eval) :
  tracked GEODESIC lat_fix lon_fix true_bearing lat_dme lon_dme
    (nm_to_meters distance_nm) best_d best_p es ->
  es <> [] ->
  forall e, In e es -> candidate e = true ->
    error_of GEODESIC lat_dme lon_dme (nm_to_meters distance_nm) best_p
    <= err (nm_to_meters distance_nm) e.
Proof.
  intros [R [B [W _]]] NE e I C.
  destruct (W NE) as [q [Iq [Cq [Pq Dq]]]].
  pose proof (B e I C) as Be. rewrite Dq in Be. simpl in Be.
  destruct (R q Iq) as [_ Eq].
  unfold error_of. rewrite Pq, <- Eq. exact Be.
Qed.

End Legacy.

(** On the taxicab chart every forward call from the origin answers with
    coordinates that [vor_fix_calculation.py] accepts. *)
Lemma taxicab_in_range (true_bearing : Qc) :
  Bisection.answers_in_range Chart.taxicab
    {| VorFixCalculation.lat := $0; VorFixCalculation.lon := $0 |} true_bearing.
Proof.
  intro s. simpl.
  destruct (CoordinatesFacts.vor_fix_cases
              (Chart.clamp_lat ($0 + s / Chart.unit_m)) $0)
    as [[_ E] | [N _]].
  - eexists. exact E.
  - exfalso. apply N. unfold Chart.clamp_lat.
    pose proof (MinMax.max_ge_l (- $90) (Num.min ($0 + s / Chart.unit_m) $90)).
    pose proof (MinMax.min_le_r ($0 + s / Chart.unit_m) $90).
    destruct (MinMax.max_cases (- $90) (Num.min ($0 + s / Chart.unit_m) $90))
      as [M | M]; rewrite M in *; repeat split; try assumption; qc_lra.
Qed.

End SolverFacts.

(** ** The point the solver returns *)

(** C1, as the two revisions have it.  [_find_radial_distance_intersection]
    of [vor_fix_calculation.py] returns, when no constructor raises (and
    none does when the oracle's answers are in range), a point the loop
    evaluated whose error [|distance to the DME - target|] is less than or
    equal to the error of every point the loop evaluated.  The earlier
    [find_radial_distance_intersection] returns an evaluated midpoint or
    interpolated point whose error is less than or equal to the error of
    every midpoint and interpolated point it evaluated; the two bracket
    ends it evaluates in a stagnation step are not compared. *)
Theorem best_point_returned (GEODESIC : Geodesic) :
  (forall fix_coords true_bearing dme_coords distance_nm,
      (Bisection.answers_in_range GEODESIC fix_coords true_bearing ->
       exists p,
         VorFixCalculation._find_radial_distance_intersection GEODESIC
           fix_coords true_bearing dme_coords distance_nm = Ok p)
      /\ forall p,
          VorFixCalculation._find_radial_distance_intersection GEODESIC
            fix_coords true_bearing dme_coords distance_nm = Ok p ->
          exists st,
            VorFixCalculation.search GEODESIC fix_coords true_bearing
              dme_coords distance_nm = Ok st
            /\ p = VorFixCalculation.best_approx_point st
            /\ VorFixCalculation.passes st <> []
            /\ forall q, In q (VorFixCalculation.passes st) ->
                 Bisection.recorded GEODESIC fix_coords true_bearing
                   dme_coords (nm_to_meters distance_nm) q
                 /\ VorFixCalculation.error_of GEODESIC dme_coords
                      (nm_to_meters distance_nm) p
                    <= VorFixCalculation.error_of GEODESIC dme_coords
                         (nm_to_meters distance_nm)
                         (VorFixCalculation.pass_point q))
  /\ (forall lat_fix lon_fix true_bearing lat_dme lon_dme distance_nm,
         let st := Legacy.search GEODESIC lat_fix lon_fix true_bearing
                     lat_dme lon_dme distance_nm in
         let p := Legacy.find_radial_distance_intersection GEODESIC lat_fix
                    lon_fix true_bearing lat_dme lon_dme distance_nm in
         p = Legacy.best_approx_point st
         /\ Legacy.passes st <> []
         /\ forall e, In e (LegacyLoop.evals (Legacy.passes st)) ->
              LegacyLoop.recorded GEODESIC lat_fix lon_fix true_bearing
                lat_dme lon_dme e
              /\ (LegacyLoop.candidate e = true ->
                  Legacy.error_of GEODESIC lat_dme lon_dme
                    (nm_to_meters distance_nm) p
                  <= LegacyLoop.err (nm_to_meters distance_nm) e)).
Proof.
  split.
  - intros fix_coords true_bearing dme_coords distance_nm.
    unfold VorFixCalculation._find_radial_distance_intersection. split.
    + intro A.
      destruct (BisectionRun.search_returns GEODESIC fix_coords true_bearing
                  dme_coords distance_nm A) as [r E].
      rewrite E. eexists. reflexivity.
    + intros p E.
      destruct (VorFixCalculation.search _ _ _ _ _) as [st | e] eqn:S;
        cbn [bind] in E; [| discriminate].
      inversion E; subst p. clear E.
      exists st. split; [reflexivity|]. split; [reflexivity|].
      assert (T : Bisection.best_tracked GEODESIC fix_coords true_bearing
                    dme_coords (nm_to_meters distance_nm) st
                  /\ VorFixCalculation.passes st <> []).
      { destruct (BisectionRun.search_outcome GEODESIC fix_coords true_bearing
                    dme_coords distance_nm st S)
          as [[m [Lm [Len [[last [earlier [P _]]] T]]]] | [Len [_ T]]].
        - split; [exact T | rewrite P; discriminate].
        - split; [exact T|]. intro N. rewrite N in Len. discriminate. }
      destruct T as [T NE]. split; [exact NE|].
      intros q I. split.
      * destruct T as [R _]. rewrite Forall_forall in R. auto.
      * apply (BisectionRun.best_is_least GEODESIC fix_coords true_bearing
                 dme_coords distance_nm st T NE q I).
  - intros lat_fix lon_fix true_bearing lat_dme lon_dme distance_nm st p.
    assert (T : LegacyLoop.tracked GEODESIC lat_fix lon_fix true_bearing
                  lat_dme lon_dme (nm_to_meters distance_nm)
                  (Legacy.best_approx_distance st) (Legacy.best_approx_point st)
                  (LegacyLoop.evals (Legacy.passes st))
                /\ Forall (fun p => Legacy.pass_evals p <> []) (Legacy.passes st)
                /\ Legacy.passes st <> []).
    { destruct (SolverFacts.legacy_search_outcome GEODESIC lat_fix lon_fix
                  true_bearing lat_dme lon_dme distance_nm)
        as [[m [Lm [Len [[last [earlier [P _]]] [T Ne]]]]] | [Len [_ [T [_ Ne]]]]];
        fold st in Len, T, Ne.
      - fold st in P. split; [exact T|]. split; [exact Ne|].
        rewrite P. discriminate.
      - split; [exact T|]. split; [exact Ne|].
        intro N. rewrite N in Len. discriminate. }
    destruct T as [T [Ne NP]].
    assert (NE : LegacyLoop.evals (Legacy.passes st) <> []).
    { destruct (Legacy.passes st) as [| q qs]; [congruence|].
      inversion Ne; subst. unfold LegacyLoop.evals. simpl.
      destruct (Legacy.pass_evals q); [congruence | discriminate]. }
    split; [apply SolverFacts.legacy_returns_best|]. split; [exact NP|].
    intros e I. split.
    + destruct T as [R _]. auto.
    + intro C. unfold p. rewrite SolverFacts.legacy_returns_best.
      apply (SolverFacts.legacy_best_is_least GEODESIC lat_fix lon_fix
               true_bearing lat_dme lon_dme distance_nm _ _ _ T NE e I C).
Qed.

(** Both revisions on the taxicab chart, from the origin towards a DME a
    tenth of a mile east of it, for a target distance of 0.01 NM: the
    current solver returns a point, and its error is the least of the
    errors it evaluated; so is the earlier solver's among its midpoints and
    interpolated points. *)
Lemma best_point_returned_witness :
  (exists p st,
      VorFixCalculation._find_radial_distance_intersection Chart.taxicab
        {| VorFixCalculation.lat := $0; VorFixCalculation.lon := $0 |} $0
        {| VorFixCalculation.lat := $0; VorFixCalculation.lon := $0.1 / $60 |}
        $0.01 = Ok p
      /\ VorFixCalculation.search Chart.taxicab
           {| VorFixCalculation.lat := $0; VorFixCalculation.lon := $0 |} $0
           {| VorFixCalculation.lat := $0; VorFixCalculation.lon := $0.1 / $60 |}
           $0.01 = Ok st
      /\ forall q, In q (VorFixCalculation.passes st) ->
           VorFixCalculation.error_of Chart.taxicab
             {| VorFixCalculation.lat := $0; VorFixCalculation.lon := $0.1 / $60 |}
             (nm_to_meters $0.01) p
           <= VorFixCalculation.error_of Chart.taxicab
                {| VorFixCalculation.lat := $0; VorFixCalculation.lon := $0.1 / $60 |}
                (nm_to_meters $0.01) (VorFixCalculation.pass_point q))
  /\ (forall e,
         In e (LegacyLoop.evals
                 (Legacy.passes
                    (Legacy.search Chart.taxicab $0 $0 $0 $0 ($0.1 / $60) $0.01))) ->
         LegacyLoop.candidate e = true ->
         Legacy.error_of Chart.taxicab $0 ($0.1 / $60) (nm_to_meters $0.01)
           (Legacy.find_radial_distance_intersection Chart.taxicab $0 $0 $0 $0
              ($0.1 / $60) $0.01)
         <= LegacyLoop.err (nm_to_meters $0.01) e).
Proof.
  split.
  - destruct (proj1 (best_point_returned Chart.taxicab)
                {| VorFixCalculation.lat := $0; VorFixCalculation.lon := $0 |} $0
                {| VorFixCalculation.lat := $0; VorFixCalculation.lon := $0.1 / $60 |}
                $0.01) as [Returns Best].
    destruct (Returns (SolverFacts.taxicab_in_range $0)) as [p Hp].
    destruct (Best p Hp) as [st [Hst [_ [_ Least]]]].
    exists p, st. split; [exact Hp|]. split; [exact Hst|].
    intros q I. exact (proj2 (Least q I)).
  - intros e I C.
    exact (proj2 (proj2 (proj2 (proj2 (best_point_returned Chart.taxicab)
                                  $0 $0 $0 $0 ($0.1 / $60) $0.01)) e I) C).
Defined.

(** C1 as stated fails on the earlier revision.  On the taxicab chart, from
    the origin towards a DME a tenth of a mile east of it, for a target
    distance of 0.01 NM, the search takes 18 passes.  Its stagnation step
    evaluates the bracket end at distance 0, which is 4167/25 = 166.68 m
    off the target; the point returned, at distance 1/655360 NM, is
    136546571/819200 m off, which is more. *)
Lemma best_point_not_least_of_all :
  let st := Legacy.search Chart.taxicab $0 $0 $0 $0 ($0.1 / $60) $0.01 in
  let p := Legacy.find_radial_distance_intersection Chart.taxicab $0 $0 $0 $0
             ($0.1 / $60) $0.01 in
  let e := LegacyLoop.eval_at Chart.taxicab $0 $0 $0 $0 ($0.1 / $60)
             Legacy.Endpoint $0 in
  List.length (Legacy.passes st) = 18%nat
  /\ existsb (fun x => (Legacy.eval_dist x =? $0)
                       && (Legacy.eval_to_dme_m x =? Legacy.eval_to_dme_m e)
                       && negb (LegacyLoop.candidate x))
       (LegacyLoop.evals (Legacy.passes st)) = true
  /\ this (LegacyLoop.err (nm_to_meters $0.01) e) = (4167 # 25)%Q
  /\ this (Legacy.error_of Chart.taxicab $0 ($0.1 / $60) (nm_to_meters $0.01) p)
     = (136546571 # 819200)%Q
  /\ LegacyLoop.err (nm_to_meters $0.01) e
     < Legacy.error_of Chart.taxicab $0 ($0.1 / $60) (nm_to_meters $0.01) p.
Proof.
  repeat split; vm_compute; reflexivity.
Qed.

(** ** Termination of the search *)

(** C3, as the two revisions have it.  The loop of
    [_find_radial_distance_intersection] makes at least one and at most 200
    passes; every pass but the last evaluated an error of at least 1.0 m
    and left a bracket at least 1e-6 NM wide, and a search of fewer than 200
    passes ended on a pass whose error was below 1.0 m or whose bracket was
    narrower than 1e-6 NM.  The earlier revision also makes between 1 and 200
    passes and stops at the first pass with a midpoint or interpolated point
    less than 1.0 m off, or with a bracket narrower than 1e-6 NM at the end
    of a pass that did not take the stagnation branch: that branch ends in
    [continue] and skips the test of the width. *)
Theorem search_terminates (GEODESIC : Geodesic) :
  (forall fix_coords true_bearing dme_coords distance_nm,
      (Bisection.answers_in_range GEODESIC fix_coords true_bearing ->
       exists st,
         VorFixCalculation.search GEODESIC fix_coords true_bearing dme_coords
           distance_nm = Ok st)
      /\ forall st,
          VorFixCalculation.search GEODESIC fix_coords true_bearing dme_coords
            distance_nm = Ok st ->
          (1 <= List.length (VorFixCalculation.passes st) <= MAX_ITERATIONS)%nat
          /\ Forall (Bisection.recorded GEODESIC fix_coords true_bearing
                       dme_coords (nm_to_meters distance_nm))
               (VorFixCalculation.passes st)
          /\ exists last earlier,
              VorFixCalculation.passes st = last :: earlier
              /\ Forall Bisection.goes_on earlier
              /\ ((List.length (VorFixCalculation.passes st) < MAX_ITERATIONS)%nat
                  -> Bisection.stops last))
  /\ (forall lat_fix lon_fix true_bearing lat_dme lon_dme distance_nm,
         let st := Legacy.search GEODESIC lat_fix lon_fix true_bearing
                     lat_dme lon_dme distance_nm in
         (1 <= List.length (Legacy.passes st) <= MAX_ITERATIONS)%nat
         /\ (forall e, In e (LegacyLoop.evals (Legacy.passes st)) ->
               LegacyLoop.recorded GEODESIC lat_fix lon_fix true_bearing
                 lat_dme lon_dme e)
         /\ exists last earlier,
             Legacy.passes st = last :: earlier
             /\ Forall (LegacyLoop.goes_on (nm_to_meters distance_nm)) earlier
             /\ ((List.length (Legacy.passes st) < MAX_ITERATIONS)%nat
                 -> LegacyLoop.stops (nm_to_meters distance_nm) last)).
Proof.
  split.
  - intros fix_coords true_bearing dme_coords distance_nm. split.
    + apply BisectionRun.search_returns.
    + intros st S.
      destruct (BisectionRun.search_outcome GEODESIC fix_coords true_bearing
                  dme_coords distance_nm st S)
        as [[m [Lm [Len [[last [earlier [P [St Go]]]] [R _]]]]]
           | [Len [Go [R _]]]].
      * split; [lia|]. split; [exact R|].
        exists last, earlier. auto.
      * split; [rewrite Len; unfold MAX_ITERATIONS; lia|]. split; [exact R|].
        destruct (VorFixCalculation.passes st) as [| last earlier];
          [discriminate|].
        exists last, earlier. split; [reflexivity|].
        split; [inversion Go; assumption | lia].
  - intros lat_fix lon_fix true_bearing lat_dme lon_dme distance_nm st.
    destruct (SolverFacts.legacy_search_outcome GEODESIC lat_fix lon_fix
                true_bearing lat_dme lon_dme distance_nm)
      as [[m [Lm [Len [[last [earlier [P [St Go]]]] [[R _] _]]]]]
         | [Len [Go [[R _] _]]]];
      fold st in Len, R.
    + fold st in P. split; [lia|]. split; [exact R|].
      exists last, earlier. auto.
    + split; [rewrite Len; unfold MAX_ITERATIONS; lia|]. split; [exact R|].
      fold st in Go.
      destruct (Legacy.passes st) as [| last earlier]; [discriminate|].
      exists last, earlier. split; [reflexivity|].
      split; [inversion Go; assumption |].
      intro H. rewrite Len in H. lia.
Qed.

(** Both revisions on the taxicab chart, from the origin towards a DME a
    tenth of a mile east of it, for a target distance of 0.01 NM: each search
    ends within 200 passes. *)
Lemma search_terminates_witness :
  (exists st,
      VorFixCalculation.search Chart.taxicab
        {| VorFixCalculation.lat := $0; VorFixCalculation.lon := $0 |} $0
        {| VorFixCalculation.lat := $0; VorFixCalculation.lon := $0.1 / $60 |}
        $0.01 = Ok st
      /\ (1 <= List.length (VorFixCalculation.passes st) <= MAX_ITERATIONS)%nat)
  /\ (1 <= List.length
             (Legacy.passes
                (Legacy.search Chart.taxicab $0 $0 $0 $0 ($0.1 / $60) $0.01))
      <= MAX_ITERATIONS)%nat.
Proof.
  split.
  - destruct (proj1 (search_terminates Chart.taxicab)
                {| VorFixCalculation.lat := $0; VorFixCalculation.lon := $0 |} $0
                {| VorFixCalculation.lat := $0; VorFixCalculation.lon := $0.1 / $60 |}
                $0.01) as [Returns Bound].
    destruct (Returns (SolverFacts.taxicab_in_range $0)) as [st Hst].
    exists st. split; [exact Hst | exact (proj1 (Bound st Hst))].
  - exact (proj1 (proj2 (search_terminates Chart.taxicab)
                    $0 $0 $0 $0 ($0.1 / $60) $0.01)).
Defined.

(** C3 as stated fails on the earlier revision.  On the taxicab chart, from
    the origin, with the DME 0.4 NM south and 1.2 NM east of it and a target
    distance of 1 NM, pass 22 takes the stagnation branch and leaves the
    bracket [3/5242880, 1/655360], which is 1/1048576 NM wide, less than
    1e-6 NM; the loop does not stop there and makes pass 23. *)
Lemma search_goes_on_with_narrow_bracket :
  let st := Legacy.search Chart.taxicab $0 $0 $0 (- $0.4 / $60) ($1.2 / $60) $1 in
  List.length (Legacy.passes st) = 23%nat
  /\ option_map
       (fun p => (Legacy.pass_stagnation p, this (Legacy.pass_min p),
                  this (Legacy.pass_max p),
                  Legacy.pass_max p - Legacy.pass_min p <? $0.000001))
       (nth_error (rev (Legacy.passes st)) 21)
     = Some (true, (3 # 5242880)%Q, (1 # 655360)%Q, true).
Proof.
  split; vm_compute; reflexivity.
Qed.

(** ** The stagnation step of the earlier revision *)

Module StagnationFacts.

Import Legacy LegacyLoop LegacyFacts Stagnation.

Section WithQuery.

Variable GEODESIC : Geodesic.
Variables (lat_fix lon_fix true_bearing lat_dme lon_dme distance_nm : Qc).

Local Abbreviation distance_m := (nm_to_meters distance_nm).
Local Abbreviation body :=
  (search_body GEODESIC lat_fix lon_fix true_bearing lat_dme lon_dme distance_m).
Local Abbreviation reached :=
  (reached GEODESIC lat_fix lon_fix true_bearing lat_dme lon_dme distance_nm).
Local Abbreviation abs_error :=
  (abs_error GEODESIC lat_fix lon_fix true_bearing lat_dme lon_dme distance_nm).
Local Abbreviation signed_error :=
  (signed_error GEODESIC lat_fix lon_fix true_bearing lat_dme lon_dme distance_nm).
Local Abbreviation to_dme :=
  (to_dme GEODESIC lat_fix lon_fix true_bearing lat_dme lon_dme).
Local Abbreviation small_change :=
  (small_change GEODESIC lat_fix lon_fix true_bearing lat_dme lon_dme distance_nm).
Local Abbreviation improve :=
  (improve GEODESIC lat_fix lon_fix true_bearing lat_dme lon_dme distance_nm).
Local Abbreviation secant_dist :=
  (secant_dist GEODESIC lat_fix lon_fix true_bearing lat_dme lon_dme distance_nm).
Local Abbreviation advance :=
  (advance GEODESIC lat_fix lon_fix true_bearing lat_dme lon_dme distance_nm).

Lemma reached_running (k : nat) (st : Search) :
  reached k st ->
  running GEODESIC lat_fix lon_fix true_bearing lat_dme lon_dme distance_m k st.
Proof.
  induction 1 as [| k st st' R IH B].
  - apply SolverFacts.legacy_init_running.
  - pose proof (LegacyRun.legacy_body_step GEODESIC lat_fix lon_fix
                  true_bearing lat_dme lon_dme distance_m k st IH) as H.
    rewrite B in H. exact H.
Qed.

(** The counter is the number of passes in a row whose error changed by
    less than 0.1 m. *)
Lemma counter_is_streak (k : nat) (st : Search) :
  reached k st ->
  List.length (passes st) = k
  /\ stagnation_counter st = Z.of_nat (streak (passes st)).
Proof.
  intro R. destruct (reached_running k st R) as [L [_ [_ [C _]]]]. auto.
Qed.

Ltac expose :=
  unfold search_body, small_change, improve, secant_dist, signed_error,
    abs_error, to_dme, point_at, mid_dist, best_of in *;
  cbn [fst snd lat lon] in *.

(** The stagnation branch is taken on the sixth pass in a row with a small
    change, and on no earlier one. *)
Lemma fires_iff (st : Search) :
  DISTANCE_TOLERANCE_M <= abs_error (mid_dist st) ->
  took_stagnation (body st) = true
  <-> small_change st = true /\ (5 <= stagnation_counter st)%Z.
Proof.
  intro T. expose.
  set (error_m := Num.abs _) in *.
  rewrite (proj2 (ltb_false _ _) T).
  destruct (if Num.ltb_x error_m (best_approx_distance st) then _ else _)
    as [bd bp].
  set (small := Num.abs_diff_ltb _ _ _).
  destruct (Z.gtb_spec (if small then (stagnation_counter st + 1)%Z else 0%Z) 5)
    as [C | C].
  - assert (S5 : small = true /\ (5 <= stagnation_counter st)%Z)
      by (destruct small; [split; [reflexivity | lia] | lia]).
    split; [intros _; exact S5 | intros _].
    destruct (negb _).
    + destruct (if Num.ltb_x _ bd then _ else _) as [bd' bp'].
      destruct (_ <? DISTANCE_TOLERANCE_M);
        [| destruct (adjust_bounds _ _ _ _ _)]; reflexivity.
    + destruct (adjust_bounds _ _ _ _ _); reflexivity.
  - assert (N : ~ (small = true /\ (5 <= stagnation_counter st)%Z))
      by (intros [S5 C5]; rewrite S5 in C; lia).
    split; [| intro H; contradiction].
    destruct (distance_m <? _); destruct (_ <? $0.000001);
      simpl; intro H; discriminate H.
Qed.

Lemma eqb_false (x y : Qc) : x <> y -> (x =? y) = false.
Proof.
  intro N. destruct (x =? y) eqn:E; [| reflexivity].
  apply eqb_true in E. contradiction.
Qed.

Lemma inside_adjust (lo hi t m d : Qc) :
  lo < t -> t < hi ->
  adjust_bounds lo hi t m d = if m >? d then (lo, t) else (t, hi).
Proof.
  intros A B. unfold adjust_bounds.
  rewrite (proj2 (ltb_true _ _) A), (proj2 (ltb_true _ _) B). reflexivity.
Qed.

(** The stagnation branch when the two end errors are equal: nothing is
    interpolated, and the bracket is adjusted at the midpoint. *)
Lemma correction_without_secant (st : Search) :
  DISTANCE_TOLERANCE_M <= abs_error (mid_dist st) ->
  small_change st = true -> (5 <= stagnation_counter st)%Z ->
  signed_error (min_dist st) = signed_error (max_dist st) ->
  exists st',
    body st = Next st'
    /\ best_of st' = improve (mid_dist st) (best_of st)
    /\ stagnation_counter st' = 0%Z
    /\ prev_error st' = prev_error st
    /\ (min_dist st < mid_dist st -> mid_dist st < max_dist st ->
        (min_dist st', max_dist st')
        = if to_dme (mid_dist st) >? distance_m
          then (min_dist st, mid_dist st) else (mid_dist st, max_dist st)).
Proof.
  intros T S C E. expose.
  set (error_m := Num.abs _) in *.
  rewrite (proj2 (ltb_false _ _) T). rewrite S.
  destruct (Z.gtb_spec (stagnation_counter st + 1) 5) as [_ | G]; [| lia].
  rewrite (proj2 (eqb_true _ _) E). cbn [negb].
  destruct (if Num.ltb_x error_m (best_approx_distance st) then _ else _)
    as [bd bp].
  destruct (adjust_bounds _ _ _ _ _) as [lo hi] eqn:A.
  eexists. split; [reflexivity|]. cbn.
  split; [reflexivity|]. split; [reflexivity|]. split; [reflexivity|].
  intros I1 I2. rewrite (inside_adjust _ _ _ _ _ I1 I2) in A.
  symmetry. exact A.
Qed.

(** The stagnation branch when the two end errors differ: the point on the
    secant is evaluated and compared with the best point; a small enough
    error ends the search, and otherwise the counter is reset and the
    bracket adjusted. *)
Lemma correction_with_secant (st : Search) :
  DISTANCE_TOLERANCE_M <= abs_error (mid_dist st) ->
  small_change st = true -> (5 <= stagnation_counter st)%Z ->
  signed_error (min_dist st) <> signed_error (max_dist st) ->
  let t := secant_dist st in
  let best := improve t (improve (mid_dist st) (best_of st)) in
  (abs_error t < DISTANCE_TOLERANCE_M ->
   exists st',
     body st = Break st' /\ best_of st' = best /\ intersection_found st' = true)
  /\ (DISTANCE_TOLERANCE_M <= abs_error t ->
      exists st',
        body st = Next st'
        /\ best_of st' = best
        /\ stagnation_counter st' = 0%Z
        /\ prev_error st' = prev_error st
        /\ (min_dist st < t -> t < max_dist st ->
            (min_dist st', max_dist st')
            = if to_dme (mid_dist st) >? distance_m
              then (min_dist st, t) else (t, max_dist st))).
Proof.
  intros T S C E t best. subst t best. expose.
  set (error_m := Num.abs _) in *.
  rewrite (proj2 (ltb_false _ _) T). rewrite S.
  destruct (Z.gtb_spec (stagnation_counter st + 1) 5) as [_ | G]; [| lia].
  rewrite (eqb_false _ _ E). cbn [negb].
  destruct (if Num.ltb_x error_m (best_approx_distance st) then _ else _)
    as [bd bp]. cbn [fst snd].
  set (sec_err :=
         Num.abs (s12 (Inverse GEODESIC
                         (lat2 (Direct GEODESIC lat_fix lon_fix true_bearing
                                  (nm_to_meters (min_dist st + _))))
                         _ _ _) - _)).
  destruct (if Num.ltb_x sec_err bd then _ else _) as [bd' bp'].
  split; intro T2.
  - rewrite (proj2 (ltb_true _ _) T2).
    eexists. split; [reflexivity|]. cbn. split; reflexivity.
  - rewrite (proj2 (ltb_false _ _) T2).
    destruct (adjust_bounds _ _ _ _ _) as [lo hi] eqn:A.
    eexists. split; [reflexivity|]. cbn.
    split; [reflexivity|]. split; [reflexivity|]. split; [reflexivity|].
    intros I1 I2. rewrite (inside_adjust _ _ _ _ _ I1 I2) in A.
    symmetry. exact A.
Qed.

Lemma advance_reached (n k : nat) (st st' : Search) :
  reached k st -> advance n st = Some st' -> reached (k + n) st'.
Proof.
  revert k st. induction n as [| n IH]; intros k st R A; simpl in A.
  - inversion A; subst. now rewrite Nat.add_0_r.
  - destruct (body st) as [s | s] eqn:B; [discriminate|].
    replace (k + Datatypes.S n)%nat with (Datatypes.S k + n)%nat by lia.
    apply (IH (Datatypes.S k) s); [| exact A].
    eapply reached_next; eauto.
Qed.

End WithQuery.

End StagnationFacts.

Section StagnationStep.

Import Legacy LegacyLoop LegacyFacts Stagnation StagnationFacts.

Variable GEODESIC : Geodesic.
Variables (lat_fix lon_fix true_bearing lat_dme lon_dme distance_nm : Qc).

Local Abbreviation distance_m := (nm_to_meters distance_nm).
Local Abbreviation body :=
  (search_body GEODESIC lat_fix lon_fix true_bearing lat_dme lon_dme distance_m).
Local Abbreviation reached :=
  (reached GEODESIC lat_fix lon_fix true_bearing lat_dme lon_dme distance_nm).
Local Abbreviation abs_error :=
  (abs_error GEODESIC lat_fix lon_fix true_bearing lat_dme lon_dme distance_nm).
Local Abbreviation signed_error :=
  (signed_error GEODESIC lat_fix lon_fix true_bearing lat_dme lon_dme distance_nm).
Local Abbreviation to_dme :=
  (to_dme GEODESIC lat_fix lon_fix true_bearing lat_dme lon_dme).
Local Abbreviation small_change :=
  (small_change GEODESIC lat_fix lon_fix true_bearing lat_dme lon_dme distance_nm).
Local Abbreviation improve :=
  (improve GEODESIC lat_fix lon_fix true_bearing lat_dme lon_dme distance_nm).
Local Abbreviation secant_dist :=
  (secant_dist GEODESIC lat_fix lon_fix true_bearing lat_dme lon_dme distance_nm).


End StagnationStep.



(** ** The bracket the search starts from *)

Module FirstPassFacts.

Section WithOracle.

Variable GEODESIC : Geodesic.

(** A pass of the bisection tries the midpoint of the bracket it finds, and
    records it in front of the earlier passes. *)
Lemma bisect_body_logs (fix_coords : VorFixCalculation.Coordinates)
  (true_bearing : Qc) (dme_coords : VorFixCalculation.Coordinates)
  (distance_m : Qc) (st : VorFixCalculation.Search)
  (f : Flow VorFixCalculation.Search) :
  VorFixCalculation.bisect_body GEODESIC fix_coords true_bearing dme_coords
    distance_m st = Ok f ->
  let st' := match f with Break s => s | Next s => s end in
  exists p,
    VorFixCalculation.passes st' = p :: VorFixCalculation.passes st
    /\ VorFixCalculation.pass_dist p
       = (VorFixCalculation.min_dist st + VorFixCalculation.max_dist st) / $2.0
    /\ (let r := Direct GEODESIC (VorFixCalculation.lat fix_coords)
                   (VorFixCalculation.lon fix_coords) true_bearing
                   (nm_to_meters (VorFixCalculation.pass_dist p)) in
        VorFixCalculation.new_Coordinates (lat2 r) (lon2 r)
        = Ok (VorFixCalculation.pass_point p)).
Proof.
  unfold VorFixCalculation.bisect_body.
  destruct (VorFixCalculation.new_Coordinates _ _) as [test_point | e] eqn:N;
    cbn [bind]; [| discriminate].
  destruct (Num.ltb_x _ _); destruct (_ <? DISTANCE_TOLERANCE_M);
    try (intro E; inversion E; subst; eexists; simpl;
         split; [reflexivity | split; [reflexivity | exact N]]);
    destruct (_ >? _); destruct (_ <? $0.000001);
    intro E; inversion E; subst; eexists; simpl;
    (split; [reflexivity | split; [reflexivity | exact N]]).
Qed.

(** The passes of a finished search, oldest last, end with a pass at the
    midpoint of the bracket the loop was entered with. *)
Lemma search_first_pass (fix_coords : VorFixCalculation.Coordinates)
  (true_bearing : Qc) (dme_coords : VorFixCalculation.Coordinates)
  (distance_nm : Qc) (st : VorFixCalculation.Search) :
  let init := VorFixCalculation.search_init GEODESIC fix_coords dme_coords
                distance_nm in
  VorFixCalculation.search GEODESIC fix_coords true_bearing dme_coords
    distance_nm = Ok st ->
  exists later first,
    VorFixCalculation.passes st = later ++ first :: nil
    /\ VorFixCalculation.pass_dist first
       = (VorFixCalculation.min_dist init + VorFixCalculation.max_dist init)
         / $2.0
    /\ (let r := Direct GEODESIC (VorFixCalculation.lat fix_coords)
                   (VorFixCalculation.lon fix_coords) true_bearing
                   (nm_to_meters (VorFixCalculation.pass_dist first)) in
        VorFixCalculation.new_Coordinates (lat2 r) (lon2 r)
        = Ok (VorFixCalculation.pass_point first)).
Proof.
  intros init E. unfold VorFixCalculation.search in E. fold init in E.
  set (started := fun s : VorFixCalculation.Search =>
         exists later first,
           VorFixCalculation.passes s = later ++ first :: nil
           /\ VorFixCalculation.pass_dist first
              = (VorFixCalculation.min_dist init
                 + VorFixCalculation.max_dist init) / $2.0
           /\ (let r := Direct GEODESIC (VorFixCalculation.lat fix_coords)
                          (VorFixCalculation.lon fix_coords) true_bearing
                          (nm_to_meters (VorFixCalculation.pass_dist first)) in
               VorFixCalculation.new_Coordinates (lat2 r) (lon2 r)
               = Ok (VorFixCalculation.pass_point first))).
  assert (Step : forall k s f,
            (k = 0%nat /\ s = init) \/ started s ->
            VorFixCalculation.bisect_body GEODESIC fix_coords true_bearing
              dme_coords (nm_to_meters distance_nm) s = Ok f ->
            started (match f with Break s' => s' | Next s' => s' end)).
  { intros k s f P B.
    destruct (bisect_body_logs _ _ _ _ _ _ B) as [p [Ps [Pd Pp]]].
    destruct P as [[_ ->] | [later [first [L [D R]]]]].
    - exists nil, p. split; [| split; [exact Pd | exact Pp]].
      rewrite Ps. unfold init, VorFixCalculation.search_init.
      destruct (VorFixCalculation.search_range _ _). reflexivity.
    - exists (p :: later), first. split; [| split; [exact D | exact R]].
      rewrite Ps, L. reflexivity. }
  eapply (LoopFacts.for_range_outcome _
            (fun k s => (k = 0%nat /\ s = init) \/ started s)
            (fun _ s => started s)) with (k := 0%nat) in E.
  - destruct E as [[m [_ Q]] | [[Z _] | Q]]; [exact Q | | exact Q].
    vm_compute in Z. discriminate.
  - intros k s s' P B. right. exact (Step k s (Next s') P B).
  - intros k s s' P B. exact (Step k s (Break s') P B).
  - left. split; reflexivity.
Qed.

(** The same of the earlier revision: every pass starts with the midpoint
    of the bracket it finds. *)
Lemma search_body_logs (lat_fix lon_fix true_bearing lat_dme lon_dme
  distance_m : Qc) (st : Legacy.Search) :
  let st' := match Legacy.search_body GEODESIC lat_fix lon_fix true_bearing
                     lat_dme lon_dme distance_m st with
             | Break s => s
             | Next s => s
             end in
  exists p mid rest,
    Legacy.passes st' = p :: Legacy.passes st
    /\ Legacy.pass_evals p = mid :: rest
    /\ Legacy.eval_kind mid = Legacy.Midpoint
    /\ Legacy.eval_dist mid = (Legacy.min_dist st + Legacy.max_dist st) / $2.0
    /\ (let r := Direct GEODESIC lat_fix lon_fix true_bearing
                   (nm_to_meters (Legacy.eval_dist mid)) in
        Legacy.eval_point mid = {| Legacy.lat := lat2 r; Legacy.lon := lon2 r |}).
Proof.
  unfold Legacy.search_body.
  repeat match goal with
         | |- context [if ?c then _ else _] => destruct c
         | |- context [let '(_, _) := ?c in _] => destruct c
         end;
    eexists; eexists; eexists; simpl;
    (split; [reflexivity |
     split; [reflexivity | split; [reflexivity | split; reflexivity]]]).
Qed.

Lemma legacy_search_first_pass (lat_fix lon_fix true_bearing lat_dme lon_dme
  distance_nm : Qc) :
  let init := Legacy.search_init GEODESIC lat_fix lon_fix lat_dme lon_dme
                distance_nm in
  exists later first mid rest,
    Legacy.passes (Legacy.search GEODESIC lat_fix lon_fix true_bearing
                     lat_dme lon_dme distance_nm)
    = later ++ first :: nil
    /\ Legacy.pass_evals first = mid :: rest
    /\ Legacy.eval_kind mid = Legacy.Midpoint
    /\ Legacy.eval_dist mid = (Legacy.min_dist init + Legacy.max_dist init) / $2.0
    /\ (let r := Direct GEODESIC lat_fix lon_fix true_bearing
                   (nm_to_meters (Legacy.eval_dist mid)) in
        Legacy.eval_point mid = {| Legacy.lat := lat2 r; Legacy.lon := lon2 r |}).
Proof.
  intro init. unfold Legacy.search. fold init.
  set (started := fun s : Legacy.Search =>
         exists later first mid rest,
           Legacy.passes s = later ++ first :: nil
           /\ Legacy.pass_evals first = mid :: rest
           /\ Legacy.eval_kind mid = Legacy.Midpoint
           /\ Legacy.eval_dist mid
              = (Legacy.min_dist init + Legacy.max_dist init) / $2.0
           /\ (let r := Direct GEODESIC lat_fix lon_fix true_bearing
                          (nm_to_meters (Legacy.eval_dist mid)) in
               Legacy.eval_point mid
               = {| Legacy.lat := lat2 r; Legacy.lon := lon2 r |})).
  assert (Step : forall k s,
            (k = 0%nat /\ s = init) \/ started s ->
            started (match Legacy.search_body GEODESIC lat_fix lon_fix
                             true_bearing lat_dme lon_dme
                             (nm_to_meters distance_nm) s with
                     | Break s' => s'
                     | Next s' => s'
                     end)).
  { intros k s P.
    destruct (search_body_logs lat_fix lon_fix true_bearing lat_dme lon_dme
                (nm_to_meters distance_nm) s)
      as [p [mid [rest [Ps [Pe [Pk [Pd Pp]]]]]]].
    destruct P as [[_ ->] | [later [first [mid' [rest' [L R]]]]]].
    - exists nil, p, mid, rest.
      split; [| split; [exact Pe | split; [exact Pk | split; [exact Pd | exact Pp]]]].
      rewrite Ps. unfold init, Legacy.search_init.
      destruct (Legacy.search_range _ _). reflexivity.
    - exists (p :: later), first, mid', rest'. split; [| exact R].
      rewrite Ps, L. reflexivity. }
  destruct (LoopFacts.for_range_pure_outcome
              (Legacy.search_body GEODESIC lat_fix lon_fix true_bearing
                 lat_dme lon_dme (nm_to_meters distance_nm))
              (fun k s => (k = 0%nat /\ s = init) \/ started s)
              (fun _ s => started s)) with (n := MAX_ITERATIONS) (k := 0%nat)
              (s := init)
    as [[m [_ Q]] | [[Z _] | Q]].
  - intros k s s' P B. right. pose proof (Step k s P) as H.
    rewrite B in H. exact H.
  - intros k s s' P B. pose proof (Step k s P) as H.
    rewrite B in H. exact H.
  - left. split; reflexivity.
  - exact Q.
  - vm_compute in Z. discriminate.
  - exact Q.
Qed.

End WithOracle.

End FirstPassFacts.

(** C2: the bracket [_find_radial_distance_intersection] starts from, for
    every query.  [D] is the oracle's distance from the fix to the DME, in
    NM.  The loop is entered with the bracket [0, 0.2] for
    [distance_nm < 0.05]; with [0, max(1.0, 2 * distance_nm)] for
    [0.05 <= distance_nm < 0.5]; otherwise with
    [max(0, D - distance_nm - 1), D + distance_nm + 1], unless these bounds
    have [min >= max], and then with [0, max(1.0, 2 * distance_nm)].  No
    pass has run on entry, and the first pass of a search that returns
    tries the midpoint of this bracket, on the radial from the fix.  The
    earlier revision has no fallback; it enters its loop with the same
    bracket whenever the oracle's distance is not negative, and its first
    pass tries the midpoint of its bracket. *)
Theorem search_range_policy (GEODESIC : Geodesic)
  (fix_coords dme_coords : VorFixCalculation.Coordinates)
  (true_bearing distance_nm : Qc) :
  let D :=
    s12 (Inverse GEODESIC
           (VorFixCalculation.lat fix_coords) (VorFixCalculation.lon fix_coords)
           (VorFixCalculation.lat dme_coords) (VorFixCalculation.lon dme_coords))
    / $1852.0 in
  let init :=
    VorFixCalculation.search_init GEODESIC fix_coords dme_coords distance_nm in
  let bracket :=
    (VorFixCalculation.min_dist init, VorFixCalculation.max_dist init) in
  let earlier :=
    Legacy.search_init GEODESIC
      (VorFixCalculation.lat fix_coords) (VorFixCalculation.lon fix_coords)
      (VorFixCalculation.lat dme_coords) (VorFixCalculation.lon dme_coords)
      distance_nm in
  (distance_nm < $0.05 -> bracket = ($0.0, $0.2))
  /\ ($0.05 <= distance_nm -> distance_nm < $0.5 ->
      bracket = ($0.0, Num.max $1.0 (distance_nm * $2)))
  /\ ($0.5 <= distance_nm ->
      Num.max $0.0 (D - distance_nm - $1) < D + distance_nm + $1 ->
      bracket = (Num.max $0.0 (D - distance_nm - $1), D + distance_nm + $1))
  /\ ($0.5 <= distance_nm ->
      D + distance_nm + $1 <= Num.max $0.0 (D - distance_nm - $1) ->
      bracket = ($0.0, Num.max $1.0 (distance_nm * $2)))
  /\ VorFixCalculation.passes init = nil
  /\ (forall st,
        VorFixCalculation.search GEODESIC fix_coords true_bearing dme_coords
          distance_nm = Ok st ->
        exists later first,
          VorFixCalculation.passes st = later ++ first :: nil
          /\ VorFixCalculation.pass_dist first
             = (fst bracket + snd bracket) / $2.0
          /\ (let r := Direct GEODESIC (VorFixCalculation.lat fix_coords)
                         (VorFixCalculation.lon fix_coords) true_bearing
                         (nm_to_meters (VorFixCalculation.pass_dist first)) in
              VorFixCalculation.new_Coordinates (lat2 r) (lon2 r)
              = Ok (VorFixCalculation.pass_point first)))
  /\ ($0 <= D -> (Legacy.min_dist earlier, Legacy.max_dist earlier) = bracket)
  /\ Legacy.passes earlier = nil
  /\ (exists later first mid rest,
        Legacy.passes
          (Legacy.search GEODESIC
             (VorFixCalculation.lat fix_coords) (VorFixCalculation.lon fix_coords)
             true_bearing
             (VorFixCalculation.lat dme_coords) (VorFixCalculation.lon dme_coords)
             distance_nm)
        = later ++ first :: nil
        /\ Legacy.pass_evals first = mid :: rest
        /\ Legacy.eval_kind mid = Legacy.Midpoint
        /\ Legacy.eval_dist mid
           = (Legacy.min_dist earlier + Legacy.max_dist earlier) / $2.0).
Proof.
  intros D init bracket earlier.
  assert (B : bracket = VorFixCalculation.search_range D distance_nm).
  { unfold bracket, init, VorFixCalculation.search_init.
    change (meters_to_nm ?x) with (x / $1852.0). fold D.
    destruct (VorFixCalculation.search_range D distance_nm). reflexivity. }
  assert (L : (Legacy.min_dist earlier, Legacy.max_dist earlier)
              = Legacy.search_range D distance_nm).
  { unfold earlier, Legacy.search_init.
    change (meters_to_nm ?x) with (x / $1852.0). fold D.
    destruct (Legacy.search_range D distance_nm). reflexivity. }
  destruct (SearchRangeFacts.rules D distance_nm) as [R1 [R2 [R3 [R4 R5]]]].
  split; [| split; [| split; [| split; [| split; [| split; [| split;
    [| split]]]]]]].
  - intro H. rewrite B. exact (R1 H).
  - intros H1 H2. rewrite B. exact (R2 H1 H2).
  - intros H1 H2. rewrite B. exact (R3 H1 H2).
  - intros H1 H2. rewrite B. exact (R4 H1 H2).
  - unfold init, VorFixCalculation.search_init.
    destruct (VorFixCalculation.search_range _ _). reflexivity.
  - intros st E.
    exact (FirstPassFacts.search_first_pass GEODESIC fix_coords true_bearing
             dme_coords distance_nm st E).
  - intro H. rewrite L, B. exact (R5 H).
  - unfold earlier, Legacy.search_init.
    destruct (Legacy.search_range _ _). reflexivity.
  - destruct (FirstPassFacts.legacy_search_first_pass GEODESIC
                (VorFixCalculation.lat fix_coords)
                (VorFixCalculation.lon fix_coords) true_bearing
                (VorFixCalculation.lat dme_coords)
                (VorFixCalculation.lon dme_coords) distance_nm)
      as [later [first [mid [rest [P1 [P2 [P3 [P4 _]]]]]]]].
    exists later, first, mid, rest. auto.
Qed.

(** The instance of [search_range_policy] on the flat chart, for a fix at
    the origin, a DME 10 NM east of it and a target distance of 5 NM: the
    loops of both revisions are entered with the bracket [4, 16]. *)
Lemma search_range_policy_witness :
  let fix_coords := {| VorFixCalculation.lat := $0; VorFixCalculation.lon := $0 |} in
  let dme_coords :=
    {| VorFixCalculation.lat := $0; VorFixCalculation.lon := $10 / $60 |} in
  let init :=
    VorFixCalculation.search_init Chart.taxicab fix_coords dme_coords $5 in
  let earlier := Legacy.search_init Chart.taxicab $0 $0 $0 ($10 / $60) $5 in
  (VorFixCalculation.min_dist init, VorFixCalculation.max_dist init) = ($4, $16)
  /\ (Legacy.min_dist earlier, Legacy.max_dist earlier) = ($4, $16).
Proof.
  intros fix_coords dme_coords init earlier.
  pose proof (search_range_policy Chart.taxicab fix_coords dme_coords $0 $5)
    as H.
  cbv zeta in H. destruct H as [_ [_ [H3 [_ [_ [_ [H7 _]]]]]]].
  assert (E : (VorFixCalculation.min_dist init, VorFixCalculation.max_dist init)
              = ($4, $16)).
  { unfold init. rewrite H3.
    - f_equal; apply Qc_is_canon; vm_compute; reflexivity.
    - vm_compute; discriminate.
    - vm_compute; reflexivity. }
  split; [exact E|].
  rewrite <- E. apply H7. vm_compute; discriminate.
Defined.

(** ** Radius letters: order and gaps *)

Module LettersFacts.
Import Letters.

Lemma scan_sound (d : Qc) (rs : list (Qc * Qc * string)) (letter : string) :
  VorFixCalculation.scan_ranges d rs = Some letter ->
  exists low high, In (low, high, letter) rs /\ low <= d /\ d < high.
Proof.
  induction rs as [| [[lo hi] l] rs IH]; simpl; [discriminate|].
  destruct (leb_spec lo d) as [L | L]; simpl.
  - destruct (ltb_spec d hi) as [H | H].
    + intro E. inversion E; subst. exists lo, hi. auto.
    + intro E. destruct (IH E) as [a [b [I R]]]. exists a, b. auto.
  - intro E. destruct (IH E) as [a [b [I R]]]. exists a, b. auto.
Qed.

Lemma legacy_scan_sound (d : Qc) (rs : list (Qc * Qc * string)) (letter : string) :
  Legacy.scan_ranges d rs = Some letter ->
  exists low high, In (low, high, letter) rs /\ low <= d /\ d <= high.
Proof.
  induction rs as [| [[lo hi] l] rs IH]; simpl; [discriminate|].
  destruct (leb_spec lo d) as [L | L]; simpl.
  - destruct (leb_spec d hi) as [H | H].
    + intro E. inversion E; subst. exists lo, hi. auto.
    + intro E. destruct (IH E) as [a [b [I R]]]. exists a, b. auto.
  - intro E. destruct (IH E) as [a [b [I R]]]. exists a, b. auto.
Qed.

(** A distance no range of the earlier table holds lies before the first
    range, after the last, or in a gap. *)
Lemma legacy_scan_none (d : Qc) (rs : list (Qc * Qc * string)) :
  Legacy.scan_ranges d rs = None ->
  match rs with
  | [] => True
  | (low, _, _) :: _ =>
      d < low
      \/ (exists g, In g (gaps rs) /\ fst g < d /\ d < snd g)
      \/ (forall r, In r rs -> snd (fst r) < d)
  end.
Proof.
  induction rs as [| [[lo hi] l] rs IH]; simpl; [trivial|].
  destruct (leb_spec lo d) as [L | L]; simpl; [| intros _; left; exact L].
  destruct (leb_spec d hi) as [H | H]; [discriminate|].
  intro E. specialize (IH E). right.
  destruct rs as [| [[lo' hi'] l'] rs].
  - right. intros r [<- | []]. exact H.
  - destruct IH as [B | [[g [I G]] | A]].
    + left. exists (hi, lo'). split; [left; reflexivity | simpl; auto].
    + left. exists g. split; [right; exact I | exact G].
    + right. intros r [<- | I]; [exact H | apply A; exact I].
Qed.

Lemma vor_fix_capitals :
  forallb (fun r => capital (snd r)) VorFixCalculation.ranges = true.
Proof. vm_compute. reflexivity. Qed.

Lemma legacy_capitals :
  forallb (fun r => capital (snd r)) Legacy.ranges = true.
Proof. vm_compute. reflexivity. Qed.

(** The letter of [vor_fix_calculation.py] is one capital letter. *)
Lemma letter_capital (d : Qc) :
  capital (VorFixCalculation.get_radius_letter d) = true.
Proof.
  unfold VorFixCalculation.get_radius_letter.
  destruct (VorFixCalculation.scan_ranges d _) as [l |] eqn:E.
  - destruct (scan_sound _ _ _ E) as [lo [hi [I _]]].
    exact (RadiusLetterFacts.bounded_by _ _ vor_fix_capitals _ I).
  - destruct (d <? $0.1); reflexivity.
Qed.

Lemma legacy_letter_capital (d : Qc) :
  capital (Legacy.get_radius_letter d) = true.
Proof.
  unfold Legacy.get_radius_letter.
  destruct (Legacy.scan_ranges d _) as [l |] eqn:E.
  - destruct (legacy_scan_sound _ _ _ E) as [lo [hi [I _]]].
    exact (RadiusLetterFacts.bounded_by _ _ legacy_capitals _ I).
  - reflexivity.
Qed.

End LettersFacts.

Module LettersOrder.
Import Letters.

Lemma scan_none (d : Qc) (rs : list (Qc * Qc * string)) :
  VorFixCalculation.scan_ranges d rs = None ->
  match rs with
  | [] => True
  | (low, _, _) :: _ =>
      d < low
      \/ (exists g, In g (gaps rs) /\ fst g <= d /\ d < snd g)
      \/ (forall r, In r rs -> snd (fst r) <= d)
  end.
Proof.
  induction rs as [| [[lo hi] l] rs IH]; simpl; [trivial|].
  destruct (leb_spec lo d) as [L | L]; simpl; [| intros _; left; exact L].
  destruct (ltb_spec d hi) as [H | H]; [discriminate|].
  intro E. specialize (IH E). right.
  destruct rs as [| [[lo' hi'] l'] rs].
  - right. intros r [<- | []]. exact H.
  - destruct IH as [B | [[g [I G]] | A]].
    + left. exists (hi, lo'). split; [left; reflexivity | simpl; auto].
    + left. exists g. split; [right; exact I | exact G].
    + right. intros r [<- | I]; [exact H | apply A; exact I].
Qed.

Lemma vor_fix_ordered : ordered VorFixCalculation.ranges = true.
Proof. vm_compute. reflexivity. Qed.

Lemma vor_fix_no_gap :
  forallb (fun g => snd g <=? fst g) (gaps VorFixCalculation.ranges) = true.
Proof. vm_compute. reflexivity. Qed.

Lemma vor_fix_ranks :
  forallb (fun r => (65 <=? rank (snd r))%N && (rank (snd r) <=? 90)%N)
    VorFixCalculation.ranges = true.
Proof. vm_compute. reflexivity. Qed.

(** Outside the table the letter is 'A' below 0.1 and 'Z' from 26.5 on. *)
Lemma vor_fix_outside (d : Qc) :
  VorFixCalculation.scan_ranges d VorFixCalculation.ranges = None ->
  d < $0.1 \/ $26.5 <= d.
Proof.
  intro E. apply scan_none in E.
  change VorFixCalculation.ranges
    with (($0.1, $1.5, "A"%string) :: tl VorFixCalculation.ranges) in E.
  cbv beta iota in E.
  destruct E as [B | [[g [I [G1 G2]]] | A]].
  - left. exact B.
  - exfalso.
    pose proof (proj1 (forallb_forall _ _) vor_fix_no_gap g I) as N.
    simpl in N. apply leb_true in N. qc_lra.
  - right. apply (A ($25.5, $26.5, "Z"%string)).
    vm_compute. repeat (try (left; reflexivity); right).
Qed.

Lemma rank_of_hit (d : Qc) (l : string) :
  VorFixCalculation.scan_ranges d VorFixCalculation.ranges = Some l ->
  (65 <= rank l <= 90)%N.
Proof.
  intro E. destruct (LettersFacts.scan_sound _ _ _ E) as [lo [hi [I _]]].
  pose proof (proj1 (forallb_forall _ _) vor_fix_ranks _ I) as R.
  simpl in R. apply andb_prop in R. destruct R as [R1 R2].
  apply N.leb_le in R1, R2. lia.
Qed.

End LettersOrder.

(** X1: the letter [get_radius_letter] returns is one capital letter, in
    both revisions, and the letter of [vor_fix_calculation.py] never goes
    back in the alphabet as the distance grows. *)
Theorem radius_letter_order (d1 d2 : Qc) :
  Letters.capital (VorFixCalculation.get_radius_letter d1) = true
  /\ Letters.capital (Legacy.get_radius_letter d1) = true
  /\ (d1 <= d2 ->
      (Letters.rank (VorFixCalculation.get_radius_letter d1)
       <= Letters.rank (VorFixCalculation.get_radius_letter d2))%N).
Proof.
  split; [apply LettersFacts.letter_capital|].
  split; [apply LettersFacts.legacy_letter_capital|].
  intro Le. unfold VorFixCalculation.get_radius_letter.
  destruct (VorFixCalculation.scan_ranges d1 _) as [l1 |] eqn:E1;
    destruct (VorFixCalculation.scan_ranges d2 _) as [l2 |] eqn:E2.
  - destruct (LettersFacts.scan_sound _ _ _ E1) as [lo1 [hi1 [I1 [L1 H1]]]].
    destruct (LettersFacts.scan_sound _ _ _ E2) as [lo2 [hi2 [I2 [L2 H2]]]].
    pose proof LettersOrder.vor_fix_ordered as O. unfold Letters.ordered in O.
    rewrite forallb_forall in O. specialize (O _ I1).
    rewrite forallb_forall in O. specialize (O _ I2). simpl in O.
    apply orb_prop in O. destruct O as [O | O].
    + apply N.leb_le in O. exact O.
    + apply leb_true in O. exfalso. qc_lra.
  - pose proof (LettersOrder.rank_of_hit _ _ E1) as R1.
    destruct (LettersOrder.vor_fix_outside _ E2) as [B | A].
    + exfalso. destruct (LettersFacts.scan_sound _ _ _ E1) as [lo1 [hi1 [I1 [L1 H1]]]].
      pose proof (RadiusLetterFacts.bounded_by _ _ RadiusLetterFacts.vor_fix_lows _ I1) as W.
      simpl in W. apply leb_true in W. qc_lra.
    + assert (F : (d2 <? $0.1) = false) by (apply ltb_false; qc_lra).
      rewrite F. simpl. lia.
  - pose proof (LettersOrder.rank_of_hit _ _ E2) as R2.
    destruct (LettersOrder.vor_fix_outside _ E1) as [B | A].
    + rewrite (proj2 (ltb_true _ _) B). simpl. lia.
    + exfalso. destruct (LettersFacts.scan_sound _ _ _ E2) as [lo2 [hi2 [I2 [L2 H2]]]].
      pose proof (RadiusLetterFacts.bounded_by _ _ RadiusLetterFacts.vor_fix_highs _ I2) as W.
      simpl in W. apply leb_true in W. qc_lra.
  - destruct (LettersOrder.vor_fix_outside _ E1) as [B1 | A1];
      destruct (LettersOrder.vor_fix_outside _ E2) as [B2 | A2].
    + rewrite (proj2 (ltb_true _ _) B1), (proj2 (ltb_true _ _) B2). simpl. lia.
    + rewrite (proj2 (ltb_true _ _) B1).
      assert (F : (d2 <? $0.1) = false) by (apply ltb_false; qc_lra).
      rewrite F. simpl. lia.
    + exfalso. qc_lra.
    + assert (F1 : (d1 <? $0.1) = false) by (apply ltb_false; qc_lra).
      assert (F2 : (d2 <? $0.1) = false) by (apply ltb_false; qc_lra).
      rewrite F1, F2. simpl. lia.
Qed.

Module GapFacts.
Import Letters.

Lemma legacy_within : Letters.within Legacy.ranges VorFixCalculation.ranges = true.
Proof. vm_compute. reflexivity. Qed.

Lemma legacy_hit (d : Qc) (l : string) :
  Legacy.scan_ranges d Legacy.ranges = Some l ->
  VorFixCalculation.get_radius_letter d = l.
Proof.
  intro E. destruct (LettersFacts.legacy_scan_sound _ _ _ E) as [lo [hi [I [L H]]]].
  pose proof (proj1 (forallb_forall _ _) legacy_within _ I) as W.
  apply existsb_exists in W. destruct W as [[[lo' hi'] l'] [I' W]].
  simpl in W. apply andb_prop in W. destruct W as [W W3].
  apply andb_prop in W. destruct W as [W1 W2].
  apply String.eqb_eq in W1. subst l'.
  apply leb_true in W2. apply ltb_true in W3.
  unfold VorFixCalculation.get_radius_letter.
  rewrite (RadiusLetterFacts.scan_hit d _ RadiusLetterFacts.vor_fix_ascending
             lo' hi' l I'); [reflexivity | qc_lra | qc_lra].
Qed.

End GapFacts.

Module GapRun.
Import Letters.

Lemma checks : forallb Gap.check (seq 1 25) = true.
Proof. vm_compute. reflexivity. Qed.

Lemma enumerated :
  forallb (fun g =>
    existsb (fun k => (fst g =? fst (Gap.after k)) && (snd g =? snd (Gap.after k)))
      (seq 1 25)) (gaps Legacy.ranges) = true.
Proof. vm_compute. reflexivity. Qed.

Lemma legacy_scan_miss (d : Qc) (rs : list (Qc * Qc * string)) :
  (forall r, In r rs -> snd (fst r) < d \/ d < fst (fst r)) ->
  Legacy.scan_ranges d rs = None.
Proof.
  induction rs as [| [[lo hi] l] rs IH]; intro A; [reflexivity|].
  simpl. destruct (A (lo, hi, l)) as [H | H]; [now left | |]; simpl in H.
  - rewrite (proj2 (leb_false _ _) H), andb_false_r.
    apply IH. intros r I. apply A. now right.
  - rewrite (proj2 (leb_false _ _) H).
    apply IH. intros r I. apply A. now right.
Qed.

Lemma in_gap (d : Qc) (k : nat) :
  (1 <= k <= 25)%nat -> fst (Gap.after k) < d -> d < snd (Gap.after k) ->
  Legacy.scan_ranges d Legacy.ranges = None
  /\ VorFixCalculation.scan_ranges d VorFixCalculation.ranges = Some (Gap.letter k).
Proof.
  intros K A B.
  assert (I : In k (seq 1 25)) by (apply in_seq; lia).
  pose proof (proj1 (forallb_forall _ _) checks k I) as C.
  unfold Gap.check in C. destruct (Gap.after k) as [a b] eqn:G. simpl in A, B.
  apply andb_prop in C. destruct C as [C C3].
  apply andb_prop in C. destruct C as [C1 C2].
  split.
  - apply legacy_scan_miss. intros r R.
    rewrite <- (firstn_skipn k Legacy.ranges) in R.
    apply in_app_or in R. destruct R as [R | R].
    + left. pose proof (proj1 (forallb_forall _ _) C1 r R) as H.
      simpl in H. apply leb_true in H. qc_lra.
    + right. pose proof (proj1 (forallb_forall _ _) C2 r R) as H.
      simpl in H. apply leb_true in H. qc_lra.
  - destruct (nth_error _ _) as [[[lo hi] l] |] eqn:N; [| discriminate].
    apply andb_prop in C3. destruct C3 as [C3 C5].
    apply andb_prop in C3. destruct C3 as [C3 C4].
    apply leb_true in C3, C4. apply String.eqb_eq in C5. subst l.
    apply (RadiusLetterFacts.scan_hit d _ RadiusLetterFacts.vor_fix_ascending lo hi).
    + eapply nth_error_In. exact N.
    + qc_lra.
    + qc_lra.
Qed.

End GapRun.

(** X2: the gaps of the earlier table.  A distance strictly between
    [k + 0.4] and [k + 0.5], for [k] from 1 to 25, is in no range of the
    earlier revision and gets its fallback 'Z'; the current revision gives
    it the [k]-th letter. *)
Theorem radius_letter_gap (d : Qc) (k : nat) :
  (1 <= k <= 25)%nat ->
  Num.of_Z (Z.of_nat k) + $0.4 < d -> d < Num.of_Z (Z.of_nat k) + $0.5 ->
  Legacy.get_radius_letter d = "Z"%string
  /\ VorFixCalculation.get_radius_letter d = String (ascii_of_nat (64 + k)) "".
Proof.
  intros K A B.
  destruct (GapRun.in_gap d k K A B) as [L V].
  unfold Legacy.get_radius_letter, VorFixCalculation.get_radius_letter.
  rewrite L, V. split; reflexivity.
Qed.

Lemma radius_letter_gap_witness :
  Legacy.get_radius_letter $3.45 = "Z"%string
  /\ VorFixCalculation.get_radius_letter $3.45 = "C"%string.
Proof.
  apply (radius_letter_gap $3.45 3).
  - lia.
  - vm_compute. reflexivity.
  - vm_compute. reflexivity.
Defined.

(** X3: from 0.1 NM on, the two revisions of [get_radius_letter] differ only
    in the gaps of the earlier table. *)
Theorem radius_letter_revisions (d : Qc) :
  $0.1 <= d ->
  Legacy.get_radius_letter d <> VorFixCalculation.get_radius_letter d ->
  exists k, (1 <= k <= 25)%nat
            /\ Num.of_Z (Z.of_nat k) + $0.4 < d
            /\ d < Num.of_Z (Z.of_nat k) + $0.5.
Proof.
  intros L0 D.
  destruct (Legacy.scan_ranges d Legacy.ranges) as [l |] eqn:E.
  - exfalso. apply D. unfold Legacy.get_radius_letter. rewrite E.
    symmetry. apply GapFacts.legacy_hit. exact E.
  - pose proof (LettersFacts.legacy_scan_none _ _ E) as N.
    change Legacy.ranges
      with (($0.1, $1.4, "A"%string) :: tl Legacy.ranges) in N.
    cbv beta iota in N.
    change (($0.1, $1.4, "A"%string) :: tl Legacy.ranges) with Legacy.ranges in N.
    destruct N as [B | [[g [I [G1 G2]]] | A]].
    + exfalso. qc_lra.
    + pose proof (proj1 (forallb_forall _ _) GapRun.enumerated g I) as X.
      apply existsb_exists in X. destruct X as [k [K X]].
      apply andb_prop in X. destruct X as [X1 X2].
      apply eqb_true in X1, X2. apply in_seq in K.
      exists k. split; [lia|]. unfold Gap.after in X1, X2. simpl in X1, X2.
      rewrite <- X1, <- X2. auto.
    + exfalso. apply D. unfold Legacy.get_radius_letter. rewrite E.
      assert (H : $26.4 < d).
      { apply (A ($25.5, $26.4, "Z"%string)).
        vm_compute. repeat (try (left; reflexivity); right). }
      destruct (ltb_spec d $26.5) as [U | U].
      * unfold VorFixCalculation.get_radius_letter.
        rewrite (RadiusLetterFacts.scan_hit d _ RadiusLetterFacts.vor_fix_ascending
                   $25.5 $26.5 "Z"%string); [reflexivity | | qc_lra | exact U].
        vm_compute. repeat (try (left; reflexivity); right).
      * unfold VorFixCalculation.get_radius_letter.
        rewrite RadiusLetterFacts.scan_above.
        -- assert (F : (d <? $0.1) = false) by (apply ltb_false; qc_lra).
           rewrite F. reflexivity.
        -- intros r I.
           pose proof (RadiusLetterFacts.bounded_by
                         _ _ RadiusLetterFacts.vor_fix_highs r I) as Bd.
           simpl in Bd. apply leb_true in Bd. qc_lra.
Qed.

Lemma radius_letter_revisions_witness :
  exists k, (1 <= k <= 25)%nat
            /\ Num.of_Z (Z.of_nat k) + $0.4 < $3.45
            /\ $3.45 < Num.of_Z (Z.of_nat k) + $0.5.
Proof.
  apply (radius_letter_revisions $3.45).
  - vm_compute. discriminate.
  - vm_compute. discriminate.
Defined.

(** ** Radius letters: the buckets *)

Module BucketFacts.
Import Buckets.

Lemma vor_fix_rows :
  forallb (row VorFixCalculation.ranges high) (seq 1 26) = true.
Proof. vm_compute. reflexivity. Qed.

Lemma legacy_rows :
  forallb (fun k => row Legacy.ranges high_earlier k && before Legacy.ranges k)
    (seq 1 26) = true.
Proof. vm_compute. reflexivity. Qed.

Lemma legacy_highs :
  forallb (fun r => snd (fst r) <=? $26.4) Legacy.ranges = true.
Proof. vm_compute. reflexivity. Qed.

Lemma row_spec (rs : list (Qc * Qc * string)) (hi : nat -> Qc) (k : nat) :
  row rs hi k = true -> nth_error rs (k - 1) = Some (low k, hi k, Gap.letter k).
Proof.
  unfold row. destruct (nth_error rs (k - 1)) as [[[lo h] l] |]; [| discriminate].
  intro R. apply andb_prop in R. destruct R as [R R3].
  apply andb_prop in R. destruct R as [R1 R2].
  apply eqb_true in R1, R2. apply String.eqb_eq in R3. congruence.
Qed.

(** A row of the earlier table that holds the distance gives its letter
    when the rows before it end before the distance. *)
Lemma legacy_scan_nth (d : Qc) (rs : list (Qc * Qc * string)) (i : nat)
  (lo hi : Qc) (l : string) :
  nth_error rs i = Some (lo, hi, l) ->
  (forall r, In r (firstn i rs) -> snd (fst r) < d) ->
  lo <= d -> d <= hi ->
  Legacy.scan_ranges d rs = Some l.
Proof.
  revert rs. induction i as [| i IH]; intros rs N B L H.
  - destruct rs as [| r rs]; [discriminate|]. simpl in N. inversion N; subst.
    simpl. rewrite (proj2 (leb_true _ _) L), (proj2 (leb_true _ _) H).
    reflexivity.
  - destruct rs as [| [[lo' hi'] l'] rs]; [discriminate|]. simpl in N.
    simpl.
    assert (F : (d <=? hi') = false).
    { apply leb_false. apply (B (lo', hi', l')). now left. }
    rewrite F, andb_false_r. apply IH; auto.
    intros r I. apply B. now right.
Qed.

Lemma vor_fix_bucket (d : Qc) (k : nat) :
  (1 <= k <= 26)%nat -> low k <= d -> d < high k ->
  VorFixCalculation.get_radius_letter d = Gap.letter k.
Proof.
  intros K L H.
  assert (I : In k (seq 1 26)) by (apply in_seq; lia).
  pose proof (row_spec _ _ _ (proj1 (forallb_forall _ _) vor_fix_rows k I)) as N.
  unfold VorFixCalculation.get_radius_letter.
  rewrite (RadiusLetterFacts.scan_hit d _ RadiusLetterFacts.vor_fix_ascending
             (low k) (high k) (Gap.letter k) (nth_error_In _ _ N) L H).
  reflexivity.
Qed.

Lemma legacy_bucket (d : Qc) (k : nat) :
  (1 <= k <= 26)%nat -> low k <= d -> d <= high_earlier k ->
  Legacy.get_radius_letter d = Gap.letter k.
Proof.
  intros K L H.
  assert (I : In k (seq 1 26)) by (apply in_seq; lia).
  pose proof (proj1 (forallb_forall _ _) legacy_rows k I) as R.
  cbv beta in R. apply andb_prop in R. destruct R as [R B].
  apply row_spec in R. unfold before in B. rewrite forallb_forall in B.
  unfold Legacy.get_radius_letter.
  rewrite (legacy_scan_nth d _ _ _ _ _ R); [reflexivity | | exact L | exact H].
  intros r Ir. specialize (B r Ir). apply ltb_true in B. qc_lra.
Qed.

Lemma legacy_above (d : Qc) : $26.4 < d -> Legacy.get_radius_letter d = "Z"%string.
Proof.
  intro H. unfold Legacy.get_radius_letter.
  rewrite GapRun.legacy_scan_miss; [reflexivity|].
  intros r I. left.
  pose proof (RadiusLetterFacts.bounded_by _ _ legacy_highs r I) as B.
  simpl in B. apply leb_true in B. qc_lra.
Qed.

Lemma legacy_below (d : Qc) : d < $0.1 -> Legacy.get_radius_letter d = "Z"%string.
Proof.
  intro H. unfold Legacy.get_radius_letter.
  rewrite RadiusLetterFacts.legacy_scan_below; [reflexivity|].
  intros r I.
  pose proof (RadiusLetterFacts.bounded_by
                _ _ RadiusLetterFacts.legacy_lows r I) as B.
  simpl in B. apply leb_true in B. qc_lra.
Qed.

Lemma vor_fix_above (d : Qc) :
  $26.5 <= d -> VorFixCalculation.get_radius_letter d = "Z"%string.
Proof.
  intro H. unfold VorFixCalculation.get_radius_letter.
  rewrite RadiusLetterFacts.scan_above.
  - assert (F : (d <? $0.1) = false) by (apply ltb_false; qc_lra).
    rewrite F. reflexivity.
  - intros r I.
    pose proof (RadiusLetterFacts.bounded_by
                  _ _ RadiusLetterFacts.vor_fix_highs r I) as B.
    simpl in B. apply leb_true in B. qc_lra.
Qed.

Lemma vor_fix_below (d : Qc) :
  d < $0.1 -> VorFixCalculation.get_radius_letter d = "A"%string.
Proof.
  intro H. unfold VorFixCalculation.get_radius_letter.
  rewrite RadiusLetterFacts.scan_below.
  - rewrite (proj2 (ltb_true _ _) H). reflexivity.
  - intros r I.
    pose proof (RadiusLetterFacts.bounded_by
                  _ _ RadiusLetterFacts.vor_fix_lows r I) as B.
    simpl in B. apply leb_true in B. qc_lra.
Qed.

End BucketFacts.

(** C7, as the two revisions have it.  In [vor_fix_calculation.py] a distance
    from 0.1 up to 1.5 gets 'A' and a distance from [k - 0.5] up to
    [k + 0.5] gets the [k]-th letter, for [k] from 2 to 26, so that 1.4 gets
    'A' and 1.5 gets 'B'; a distance of 26.5 or more gets 'Z' and a distance
    below 0.1 gets 'A'.  In the earlier revision the buckets hold both their
    ends and are shorter: from 0.1 to 1.4 for 'A' and from [k - 0.5] to
    [k + 0.4] for the [k]-th letter; every other distance gets 'Z': below
    0.1, above 26.4, and strictly between [k + 0.4] and [k + 0.5]. *)
Theorem radius_letter_buckets :
  (forall d k, (1 <= k <= 26)%nat ->
     (if (k =? 1)%nat then $0.1 else Num.of_Z (Z.of_nat k) - $0.5) <= d ->
     d < Num.of_Z (Z.of_nat k) + $0.5 ->
     VorFixCalculation.get_radius_letter d = String (ascii_of_nat (64 + k)) "")
  /\ VorFixCalculation.get_radius_letter $1.4 = "A"%string
  /\ VorFixCalculation.get_radius_letter $1.5 = "B"%string
  /\ (forall d, $26.5 <= d -> VorFixCalculation.get_radius_letter d = "Z"%string)
  /\ (forall d, d < $0.1 -> VorFixCalculation.get_radius_letter d = "A"%string)
  /\ (forall d k, (1 <= k <= 26)%nat ->
        (if (k =? 1)%nat then $0.1 else Num.of_Z (Z.of_nat k) - $0.5) <= d ->
        d <= Num.of_Z (Z.of_nat k) + $0.4 ->
        Legacy.get_radius_letter d = String (ascii_of_nat (64 + k)) "")
  /\ Legacy.get_radius_letter $1.4 = "A"%string
  /\ Legacy.get_radius_letter $1.5 = "B"%string
  /\ (forall d, $26.4 < d -> Legacy.get_radius_letter d = "Z"%string)
  /\ (forall d, d < $0.1 -> Legacy.get_radius_letter d = "Z"%string)
  /\ (forall d k, (1 <= k <= 25)%nat ->
        Num.of_Z (Z.of_nat k) + $0.4 < d -> d < Num.of_Z (Z.of_nat k) + $0.5 ->
        Legacy.get_radius_letter d = "Z"%string).
Proof.
  assert (Low : forall k, (1 <= k)%nat ->
            (if (k =? 1)%nat then $0.1 else Num.of_Z (Z.of_nat k) - $0.5)
            = Buckets.low k).
  { intros k K. destruct k as [| [| k]]; [lia | reflexivity | reflexivity]. }
  split; [| split; [| split; [| split; [| split; [| split; [| split;
    [| split; [| split; [| split]]]]]]]]].
  - intros d k K L H. rewrite Low in L by lia.
    apply BucketFacts.vor_fix_bucket; assumption.
  - vm_compute. reflexivity.
  - vm_compute. reflexivity.
  - apply BucketFacts.vor_fix_above.
  - apply BucketFacts.vor_fix_below.
  - intros d k K L H. rewrite Low in L by lia.
    apply BucketFacts.legacy_bucket; assumption.
  - vm_compute. reflexivity.
  - vm_compute. reflexivity.
  - apply BucketFacts.legacy_above.
  - apply BucketFacts.legacy_below.
  - intros d k K A B.
    destruct (GapRun.in_gap d k K A B) as [L _].
    unfold Legacy.get_radius_letter. rewrite L. reflexivity.
Qed.

(** C7 as stated fails on the earlier revision.  The distance 1.45 lies in
    the bucket of 'A', which the claim has from 0.1 up to 1.5, and
    [vor_fix_calculation.py] gives it 'A'; the earlier table ends 'A' with
    1.4 and starts 'B' at 1.5, and gives 1.45 the fallback 'Z'. *)
Lemma radius_letter_earlier_gap :
  $0.1 <= $1.45 /\ $1.45 < $1.5
  /\ VorFixCalculation.get_radius_letter $1.45 = "A"%string
  /\ Legacy.get_radius_letter $1.45 = "Z"%string
  /\ Legacy.scan_ranges $1.45 Legacy.ranges = None.
Proof.
  split; [vm_compute; discriminate|]. split; [vm_compute; reflexivity|].
  repeat split; vm_compute; reflexivity.
Qed.

(** ** Ratings and statistics *)

Module RatingFacts.
Import Rating CoreVorCalc.

Lemma meets_spec (d a D A : Qc) : meets d a D A = true <-> d <= D /\ a <= A.
Proof.
  unfold meets. rewrite andb_true_iff, !leb_true. reflexivity.
Qed.

Lemma meets_wider (d a D A D' A' : Qc) :
  D <= D' -> A <= A' -> meets d a D A = true -> meets d a D' A' = true.
Proof.
  intros HD HA. rewrite !meets_spec. intros [H1 H2].
  split; eapply Qcle_trans; eauto.
Qed.

Lemma cascade (b0 b1 b2 b3 : bool) (n : nat) :
  (b0 = true -> b1 = true) -> (b1 = true -> b2 = true) ->
  (b2 = true -> b3 = true) ->
  let r := if b0 then "EXCELLENT"%string
           else if b1 then "VERY_GOOD"%string
           else if b2 then "GOOD"%string
           else if b3 then "ACCEPTABLE"%string else "POOR"%string in
  ((level r <= n)%nat
   <-> match n with
       | 0%nat => b0 = true
       | 1%nat => b1 = true
       | 2%nat => b2 = true
       | 3%nat => b3 = true
       | _ => True
       end).
Proof.
  intros H01 H12 H23.
  destruct b0, b1, b2, b3;
    try (specialize (H01 eq_refl); discriminate);
    try (specialize (H12 eq_refl); discriminate);
    try (specialize (H23 eq_refl); discriminate);
    destruct n as [| [| [| [| n]]]]; cbn; split; intro;
    try lia; try discriminate; auto.
Qed.

Lemma level_within (d a : Qc) (n : nat) (D A : Qc) :
  limits n = Some (D, A) ->
  ((level (_calculate_accuracy_rating d a) <= n)%nat <-> d <= D /\ a <= A).
Proof.
  intro L. rewrite <- meets_spec.
  pose proof (cascade (meets d a $1.0 $0.001) (meets d a $5.0 $0.01)
                (meets d a $10.0 $0.1) (meets d a $50.0 $1.0) n) as C.
  cbv zeta in C. unfold meets in C at 1 2 3 4.
  unfold _calculate_accuracy_rating. rewrite C.
  - destruct n as [| [| [| [| n]]]]; simpl in L; inversion L; reflexivity.
  - apply meets_wider; vm_compute; discriminate.
  - apply meets_wider; vm_compute; discriminate.
  - apply meets_wider; vm_compute; discriminate.
Qed.

End RatingFacts.

(** X4: the rating of [_calculate_accuracy_rating] is at a level or better
    exactly when both errors are within that level's limits, and so a result
    with smaller errors never gets a worse rating. *)
Theorem accuracy_rating_levels (d a : Qc) :
  ((Rating.level (CoreVorCalc._calculate_accuracy_rating d a) <= 0)%nat
     <-> d <= $1.0 /\ a <= $0.001)
  /\ ((Rating.level (CoreVorCalc._calculate_accuracy_rating d a) <= 1)%nat
     <-> d <= $5.0 /\ a <= $0.01)
  /\ ((Rating.level (CoreVorCalc._calculate_accuracy_rating d a) <= 2)%nat
     <-> d <= $10.0 /\ a <= $0.1)
  /\ ((Rating.level (CoreVorCalc._calculate_accuracy_rating d a) <= 3)%nat
     <-> d <= $50.0 /\ a <= $1.0)
  /\ (forall d' a', d' <= d -> a' <= a ->
        (Rating.level (CoreVorCalc._calculate_accuracy_rating d' a')
         <= Rating.level (CoreVorCalc._calculate_accuracy_rating d a))%nat).
Proof.
  split; [apply (RatingFacts.level_within d a 0); reflexivity|].
  split; [apply (RatingFacts.level_within d a 1); reflexivity|].
  split; [apply (RatingFacts.level_within d a 2); reflexivity|].
  split; [apply (RatingFacts.level_within d a 3); reflexivity|].
  intros d' a' Hd Ha.
  remember (Rating.level (CoreVorCalc._calculate_accuracy_rating d a)) as n eqn:N.
  assert (Le : (Rating.level (CoreVorCalc._calculate_accuracy_rating d a) <= n)%nat)
    by lia.
  destruct (Rating.limits n) as [[D A] |] eqn:L.
  - apply (RatingFacts.level_within d' a' n D A L).
    apply (RatingFacts.level_within d a n D A L) in Le. destruct Le as [L1 L2].
    split; eapply Qcle_trans; eauto.
  - assert (4 <= n)%nat by (destruct n as [| [| [| [| n]]]]; simpl in L; try discriminate; lia).
    assert (Rating.level (CoreVorCalc._calculate_accuracy_rating d' a') <= 4)%nat.
    { unfold CoreVorCalc._calculate_accuracy_rating.
      repeat match goal with |- context [if ?b then _ else _] => destruct b end;
        cbn; lia. }
    lia.
Qed.

Module MetricsFacts.
Import CoreVorCalc.

Lemma max_of_ge (xs : list Qc) (x : Qc) :
  x <= max_of x xs /\ Forall (fun y => y <= max_of x xs) xs.
Proof.
  unfold max_of. revert x. induction xs as [| y ys IH]; intro x; simpl.
  - split; [apply Qcle_refl | constructor].
  - destruct (IH (Num.max x y)) as [A B]. split.
    + eapply Qcle_trans; [apply MinMax.max_ge_l | exact A].
    + constructor; [| exact B].
      eapply Qcle_trans; [apply MinMax.max_ge_r | exact A].
Qed.

Lemma min_of_le (xs : list Qc) (x : Qc) :
  min_of x xs <= x /\ Forall (fun y => min_of x xs <= y) xs.
Proof.
  unfold min_of. revert x. induction xs as [| y ys IH]; intro x; simpl.
  - split; [apply Qcle_refl | constructor].
  - destruct (IH (Num.min x y)) as [A B]. split.
    + eapply Qcle_trans; [exact A | apply MinMax.min_le_l].
    + constructor; [| exact B].
      eapply Qcle_trans; [exact A | apply MinMax.min_le_r].
Qed.

Lemma max_of_in (xs : list Qc) (x : Qc) : In (max_of x xs) (x :: xs).
Proof.
  unfold max_of. revert x. induction xs as [| y ys IH]; intro x; simpl.
  - now left.
  - destruct (IH (Num.max x y)) as [E | I].
    + destruct (MinMax.max_cases x y) as [M | M]; rewrite M in *; auto.
    + auto.
Qed.

Lemma min_of_in (xs : list Qc) (x : Qc) : In (min_of x xs) (x :: xs).
Proof.
  unfold min_of. revert x. induction xs as [| y ys IH]; intro x; simpl.
  - now left.
  - destruct (IH (Num.min x y)) as [E | I].
    + destruct (MinMax.min_cases x y) as [M | M]; rewrite M in *; auto.
    + auto.
Qed.

Lemma len_cons {A : Type} (x : A) (xs : list A) : len (x :: xs) = len xs + 1.
Proof.
  unfold len, Num.of_Z. simpl List.length. rewrite Nat2Z.inj_succ.
  apply Qc_is_canon. qc_push. unfold Z.succ. rewrite inject_Z_plus.
  change (inject_Z 1) with 1%Q. change (this 1) with 1%Q. lra.
Qed.

Lemma len_nonneg {A : Type} (xs : list A) : 0 <= len xs.
Proof.
  induction xs as [| x xs IH]; [vm_compute; discriminate|].
  rewrite len_cons. change (this 0) with 0%Q in *. qc_lra.
Qed.

Lemma sum_from (xs : list Qc) (acc : Qc) :
  fold_left Qcplus xs acc = acc + sum xs.
Proof.
  unfold sum. revert acc. induction xs as [| x xs IH]; intro acc; simpl.
  - apply Qc_is_canon. qc_push. change (this $0) with 0%Q. lra.
  - rewrite (IH (acc + x)), (IH ($0 + x)).
    apply Qc_is_canon. qc_push. change (this $0) with 0%Q. lra.
Qed.

Lemma sum_cons (x : Qc) (xs : list Qc) : sum (x :: xs) = x + sum xs.
Proof.
  unfold sum at 1. simpl. rewrite sum_from.
  apply Qc_is_canon. qc_push. change (this $0) with 0%Q. lra.
Qed.

Lemma sum_bounds (xs : list Qc) (lo hi : Qc) :
  Forall (fun y => lo <= y /\ y <= hi) xs ->
  lo * len xs <= sum xs /\ sum xs <= hi * len xs.
Proof.
  induction 1 as [| x xs [L H] F [IL IH]].
  - split; unfold len, sum, Num.of_Z; simpl; qc2q; change (inject_Z 0) with 0%Q; lra.
  - rewrite sum_cons, len_cons. pose proof (len_nonneg xs) as P.
    change (this 0) with 0%Q in *. split; qc2q; change (this 1) with 1%Q; nra.
Qed.

Lemma mean_bounds (xs : list Qc) (x lo hi : Qc) :
  Forall (fun y => lo <= y /\ y <= hi) (x :: xs) ->
  lo <= sum (x :: xs) / len (x :: xs) /\ sum (x :: xs) / len (x :: xs) <= hi.
Proof.
  intro F. destruct (sum_bounds _ _ _ F) as [L H].
  assert (P : 0 < len (x :: xs)).
  { rewrite len_cons. pose proof (len_nonneg xs). change (this 0) with 0%Q in *.
    qc_lra. }
  set (n := len (x :: xs)) in *. set (s := sum (x :: xs)) in *.
  clearbody n s. clear F.
  assert (E : s = (s / n) * n).
  { unfold Qcdiv. rewrite <- Qcmult_assoc, (Qcmult_comm (/ n)), Qcmult_inv_r.
    - now rewrite Qcmult_1_r.
    - intro Z. rewrite Z in P. discriminate. }
  set (m := s / n) in *. clearbody m. subst s.
  split.
  - apply Qcnot_lt_le. intro C.
    assert (m * n < lo * n) by (apply Qcmult_lt_compat_r; assumption).
    exact (Qclt_not_le _ _ H0 L).
  - apply Qcnot_lt_le. intro C.
    assert (hi * n < m * n) by (apply Qcmult_lt_compat_r; assumption).
    exact (Qclt_not_le _ _ H0 H).
Qed.

End MetricsFacts.

Module BatchFacts.
Import CoreVorCalc Batch MetricsFacts.

Lemma summary (x : Qc) (xs : list Qc) :
  summarises (min_of x xs) (sum (x :: xs) / len (x :: xs)) (max_of x xs) (x :: xs).
Proof.
  assert (F : Forall (fun y => min_of x xs <= y /\ y <= max_of x xs) (x :: xs)).
  { destruct (max_of_ge xs x) as [A1 A2]. destruct (min_of_le xs x) as [B1 B2].
    constructor; [split; assumption|].
    rewrite Forall_forall in *. intros y I. split; [apply B2 | apply A2]; exact I. }
  split; [apply min_of_in|]. split; [apply max_of_in|]. split; [exact F|].
  apply mean_bounds. exact F.
Qed.

Lemma errors_nonneg (GEODESIC : Geodesic) (FLOAT : Num.Rounding) c :
  $0 <= distance_error_m (accuracy GEODESIC FLOAT c)
  /\ $0 <= azimuth_error_deg (accuracy GEODESIC FLOAT c)
  /\ azimuth_error_deg (accuracy GEODESIC FLOAT c) <= $180.
Proof.
  destruct c as [[[s e] a] d]. unfold accuracy, validate_calculation_accuracy.
  cbn [distance_error_m azimuth_error_deg].
  split; [apply MinMax.abs_nonneg|].
  apply AzimuthFacts.shortest_le_180; apply AzimuthFacts.pymod_360_range.
Qed.

End BatchFacts.


(** ** The bracket of the bisection *)

Module BracketFacts.
Import VorFixCalculation Bracket.

Lemma range_valid (D d : Qc) :
  $0 <= fst (search_range D d) /\ fst (search_range D d) < snd (search_range D d).
Proof.
  unfold search_range.
  destruct (ltb_spec d $0.05) as [H | H].
  - replace ($0.0 >=? $0.2) with false by (vm_compute; reflexivity).
    simpl. split; vm_compute; congruence.
  - destruct (ltb_spec d $0.5) as [H' | H'].
    + assert (F : ($0.0 >=? Num.max $1.0 (d * $2)) = false).
      { apply leb_false. pose proof (MinMax.max_ge_l $1.0 (d * $2)). qc_lra. }
      rewrite F. simpl. split; [vm_compute; congruence|].
      pose proof (MinMax.max_ge_l $1.0 (d * $2)). qc_lra.
    + destruct (leb_spec (D + d + $1) (Num.max $0.0 (D - d - $1))) as [W | W]; simpl.
      * split; [vm_compute; congruence|].
        pose proof (MinMax.max_ge_l $1.0 (d * $2)). qc_lra.
      * split; [| exact W].
        pose proof (MinMax.max_ge_l $0.0 (D - d - $1)). qc_lra.
Qed.

Lemma range_width (D d : Qc) :
  $0 <= d ->
  snd (search_range D d) - fst (search_range D d) <= $2 * d + $2.
Proof.
  intro P. unfold search_range.
  destruct (ltb_spec d $0.05) as [H | H].
  - replace ($0.0 >=? $0.2) with false by (vm_compute; reflexivity).
    simpl. qc_lra.
  - assert (M : Num.max $1.0 (d * $2) <= $2 * d + $2).
    { destruct (MinMax.max_cases $1.0 (d * $2)) as [E | E]; rewrite E; qc_lra. }
    destruct (ltb_spec d $0.5) as [H' | H'].
    + assert (F : ($0.0 >=? Num.max $1.0 (d * $2)) = false).
      { apply leb_false. pose proof (MinMax.max_ge_l $1.0 (d * $2)). qc_lra. }
      rewrite F. simpl. qc_lra.
    + destruct (leb_spec (D + d + $1) (Num.max $0.0 (D - d - $1))) as [W | W]; simpl.
      * qc_lra.
      * pose proof (MinMax.max_ge_r $0.0 (D - d - $1)). qc_lra.
Qed.

Lemma pow2_pos (k : nat) : $0 < pow2 k.
Proof.
  induction k as [| k IH]; simpl; [vm_compute; reflexivity|].
  qc2q. lra.
Qed.

Lemma pow2_mono (j k : nat) : (j <= k)%nat -> pow2 j <= pow2 k.
Proof.
  induction 1 as [| k L IH]; [apply Qcle_refl|].
  simpl. pose proof (pow2_pos k). qc2q. lra.
Qed.

Section WithQuery.

Variable GEODESIC : Geodesic.
Variables (fix_coords : Coordinates) (true_bearing : Qc).
Variables (dme_coords : Coordinates) (distance_m : Qc).
Variables lo0 hi0 : Qc.

Lemma narrow_step (k : nat) (st : Search) :
  narrowed lo0 hi0 k st ->
  match bisect_body GEODESIC fix_coords true_bearing dme_coords distance_m st with
  | Raise _ => True
  | Ok (Next st') => narrowed lo0 hi0 (S k) st'
  | Ok (Break st') => left lo0 hi0 (S k) st'
  end.
Proof.
  intros [Len [L [M [H [W [In Hv]]]]]]. unfold bisect_body.
  set (test_dist := (min_dist st + max_dist st) / $2.0).
  assert (T1 : min_dist st <= test_dist) by (unfold test_dist; qc_lra).
  assert (T2 : test_dist <= max_dist st) by (unfold test_dist; qc_lra).
  assert (W1 : (test_dist - min_dist st) * pow2 (S k) = hi0 - lo0).
  { rewrite <- W. unfold test_dist. simpl pow2. qc2q. nra. }
  assert (W2 : (max_dist st - test_dist) * pow2 (S k) = hi0 - lo0).
  { rewrite <- W. unfold test_dist. simpl pow2. qc2q. nra. }
  destruct (new_Coordinates _ _) as [test_point | e]; cbn [bind]; [| exact I].
  set (error_m := Num.abs _).
  destruct (Num.ltb_x error_m (best_approx_distance st));
    (destruct (ltb_spec error_m DISTANCE_TOLERANCE_M) as [T | T];
     [ split; [simpl; lia|]; split;
       [ constructor; [repeat split; simpl; try assumption; qc_lra | exact In]
       | split; [simpl; intro C; exfalso; qc_lra | exact Hv] ]
     | destruct (_ >? distance_m);
       match goal with
       | |- context [Num.ltb ?w $0.000001] => destruct (Num.ltb w $0.000001)
       end;
       (split; [simpl; lia|]);
       repeat split; simpl; try assumption; try qc_lra;
       try (constructor; [repeat split; simpl; try assumption; qc_lra | exact In]);
       try (rewrite Len; intros _; assumption) ]).
Qed.

End WithQuery.

End BracketFacts.

Module BracketRun.
Import VorFixCalculation Bracket BracketFacts.

Section WithQuery.

Variable GEODESIC : Geodesic.
Variables (fix_coords : Coordinates) (true_bearing : Qc).
Variables (dme_coords : Coordinates) (distance_nm : Qc).

Local Abbreviation running :=
  (Bisection.running GEODESIC fix_coords true_bearing dme_coords
     (nm_to_meters distance_nm)).
Local Abbreviation stopped :=
  (Bisection.stopped GEODESIC fix_coords true_bearing dme_coords
     (nm_to_meters distance_nm)).
Local Abbreviation initial :=
  (initial GEODESIC fix_coords dme_coords distance_nm).
Local Abbreviation narrowed := (narrowed (fst initial) (snd initial)).
Local Abbreviation left := (left (fst initial) (snd initial)).

Lemma init_narrowed :
  narrowed 0 (search_init GEODESIC fix_coords dme_coords distance_nm).
Proof.
  unfold search_init. fold initial.
  pose proof (range_valid
                (meters_to_nm
                   (s12 (Inverse GEODESIC (lat fix_coords) (lon fix_coords)
                           (lat dme_coords) (lon dme_coords)))) distance_nm)
    as [V1 V2].
  fold initial in V1, V2.
  destruct initial as [lo hi]. simpl in *.
  repeat split; simpl; try constructor; try apply Qcle_refl; try qc_lra.
Qed.

Lemma bracket_outcome (r : Search) :
  search GEODESIC fix_coords true_bearing dme_coords distance_nm = Ok r ->
  (exists m, (0 < m <= MAX_ITERATIONS)%nat /\ stopped m r /\ left m r)
  \/ (running MAX_ITERATIONS r /\ narrowed MAX_ITERATIONS r).
Proof.
  unfold search. intro E.
  eapply (LoopFacts.for_range_outcome _
            (fun k s => running k s /\ narrowed k s)
            (fun m s => stopped m s /\ left m s)) with (k := 0%nat) in E.
  - destruct E as [[m [L [S1 S2]]] | R]; [left; exists m; auto | right; exact R].
  - intros k s s' [R N] B.
    pose proof (BisectionFacts.body_step GEODESIC fix_coords true_bearing
                  dme_coords (nm_to_meters distance_nm) k s R) as H1.
    pose proof (narrow_step GEODESIC fix_coords true_bearing dme_coords
                  (nm_to_meters distance_nm) _ _ k s N) as H2.
    rewrite B in H1, H2. auto.
  - intros k s s' [R N] B.
    pose proof (BisectionFacts.body_step GEODESIC fix_coords true_bearing
                  dme_coords (nm_to_meters distance_nm) k s R) as H1.
    pose proof (narrow_step GEODESIC fix_coords true_bearing dme_coords
                  (nm_to_meters distance_nm) _ _ k s N) as H2.
    rewrite B in H1, H2. auto.
  - split; [apply BisectionRun.init_running | apply init_narrowed].
Qed.

(** A pass after which the loop went on was not one of the passes from
    [n] on, when [2^n] brackets of a millionth of a mile cover the initial
    one. *)
Lemma went_on_early (n : nat) (p : Pass) (earlier : list Pass) :
  snd initial - fst initial < $0.000001 * pow2 n ->
  Bisection.goes_on p ->
  halving (fst initial) (snd initial) (p :: earlier) ->
  (List.length (p :: earlier) < n)%nat.
Proof.
  intros W [T G] [H _]. specialize (H T).
  destruct (Nat.lt_ge_cases (List.length (p :: earlier)) n) as [L | L];
    [exact L | exfalso].
  pose proof (pow2_mono _ _ L) as M.
  pose proof (pow2_pos n) as P.
  set (w := pass_max p - pass_min p) in *.
  set (a := pow2 (List.length (p :: earlier))) in *.
  set (b := pow2 n) in *.
  clearbody w a b. rewrite <- H in W. clear - W G M P. qc2q. nra.
Qed.

Lemma passes_bound (n : nat) (r : Search) :
  (1 <= n)%nat ->
  snd initial - fst initial < $0.000001 * pow2 n ->
  search GEODESIC fix_coords true_bearing dme_coords distance_nm = Ok r ->
  (List.length (passes r) <= n)%nat.
Proof.
  intros N W E.
  destruct (bracket_outcome r E)
    as [[m [Lm [[Len [[last [earlier [P [St Go]]]] _]] [_ [_ Hv]]]]]
       | [[Len [Go _]] [_ [_ [_ [_ [_ [_ Hv]]]]]]]].
  - rewrite P in Hv |- *. destruct earlier as [| p earlier]; [simpl; lia|].
    destruct Hv as [_ Hv]. inversion Go as [| ? ? G _]; subst.
    pose proof (went_on_early n p earlier W G Hv). simpl in *. lia.
  - destruct (passes r) as [| p earlier]; [simpl; lia|].
    inversion Go as [| ? ? G _]; subst.
    pose proof (went_on_early n p earlier W G Hv). simpl in *. lia.
Qed.

End WithQuery.

End BracketRun.

(** X6: the bracket [_find_radial_distance_intersection] starts from is
    never empty and never starts behind the fix, whatever the two
    distances; for a target distance that is not negative it is at most
    [2 * distance_nm + 2] wide. *)
Theorem search_range_valid (fix_dme_distance_nm distance_nm : Qc) :
  let bracket := VorFixCalculation.search_range fix_dme_distance_nm distance_nm in
  $0 <= fst bracket /\ fst bracket < snd bracket
  /\ ($0 <= distance_nm -> snd bracket - fst bracket <= $2 * distance_nm + $2).
Proof.
  intro bracket.
  destruct (BracketFacts.range_valid fix_dme_distance_nm distance_nm) as [A B].
  split; [exact A|]. split; [exact B|].
  apply BracketFacts.range_width.
Qed.

(** X7: the bisection keeps inside its bracket.  Every distance the loop
    tries lies in the bracket the pass leaves behind, which lies in the
    initial bracket; pass [i] leaves a bracket [2^i] times narrower than the
    initial one, unless it ends the search on the tolerance.  The point
    returned is the oracle's answer for a tried distance, which is in the
    initial bracket and so not negative. *)
Theorem bisection_in_bracket (GEODESIC : Geodesic)
  (fix_coords : VorFixCalculation.Coordinates) (true_bearing : Qc)
  (dme_coords : VorFixCalculation.Coordinates) (distance_nm : Qc)
  (st : VorFixCalculation.Search) :
  VorFixCalculation.search GEODESIC fix_coords true_bearing dme_coords
    distance_nm = Ok st ->
  let lo := fst (Bracket.initial GEODESIC fix_coords dme_coords distance_nm) in
  let hi := snd (Bracket.initial GEODESIC fix_coords dme_coords distance_nm) in
  Forall (Bracket.inside lo hi) (VorFixCalculation.passes st)
  /\ Bracket.halving lo hi (VorFixCalculation.passes st)
  /\ exists p,
       In p (VorFixCalculation.passes st)
       /\ VorFixCalculation.best_approx_point st = VorFixCalculation.pass_point p
       /\ Bisection.recorded GEODESIC fix_coords true_bearing dme_coords
            (nm_to_meters distance_nm) p
       /\ $0 <= VorFixCalculation.pass_dist p
       /\ lo <= VorFixCalculation.pass_dist p
       /\ VorFixCalculation.pass_dist p <= hi.
Proof.
  intros E lo hi.
  assert (H : Forall (Bracket.inside lo hi) (VorFixCalculation.passes st)
              /\ Bracket.halving lo hi (VorFixCalculation.passes st)
              /\ VorFixCalculation.passes st <> []
              /\ Bisection.best_tracked GEODESIC fix_coords true_bearing
                   dme_coords (nm_to_meters distance_nm) st).
  { destruct (BracketRun.bracket_outcome GEODESIC fix_coords true_bearing dme_coords
                distance_nm st E)
      as [[m [Lm [[Len [_ T]] [_ [I Hv]]]]]
         | [[Len [_ T]] [_ [_ [_ [_ [_ [I Hv]]]]]]]].
    - split; [exact I|]. split; [exact Hv|]. split; [| exact T].
      intro N. rewrite N in Len. simpl in Len. lia.
    - split; [exact I|]. split; [exact Hv|]. split; [| exact T].
      intro N. rewrite N in Len. discriminate Len. }
  destruct H as [I [Hv [N [R [_ [B _]]]]]].
  split; [exact I|]. split; [exact Hv|].
  destruct (B N) as [p [Ip [Pp _]]]. exists p.
  rewrite Forall_forall in I, R.
  destruct (I p Ip) as [I1 [I2 [I3 I4]]].
  pose proof (BracketFacts.range_valid
                (meters_to_nm
                   (s12 (Inverse GEODESIC (VorFixCalculation.lat fix_coords)
                           (VorFixCalculation.lon fix_coords)
                           (VorFixCalculation.lat dme_coords)
                           (VorFixCalculation.lon dme_coords)))) distance_nm)
    as [V _].
  fold (Bracket.initial GEODESIC fix_coords dme_coords distance_nm) in V.
  fold lo in V.
  repeat split; try assumption; try (apply R; exact Ip); qc_lra.
Qed.

Lemma bisection_in_bracket_witness :
  exists st,
    VorFixCalculation.search Chart.taxicab
      {| VorFixCalculation.lat := $0; VorFixCalculation.lon := $0 |} $0
      {| VorFixCalculation.lat := $0; VorFixCalculation.lon := $0.1 / $60 |}
      $0.01 = Ok st
    /\ Forall (Bracket.inside $0 $0.2) (VorFixCalculation.passes st).
Proof.
  destruct (BisectionRun.search_returns Chart.taxicab
              {| VorFixCalculation.lat := $0; VorFixCalculation.lon := $0 |} $0
              {| VorFixCalculation.lat := $0; VorFixCalculation.lon := $0.1 / $60 |}
              $0.01 (SolverFacts.taxicab_in_range $0)) as [st E].
  exists st. split; [exact E|].
  exact (proj1 (bisection_in_bracket Chart.taxicab _ _ _ _ st E)).
Defined.

(** X8: how many passes the bisection makes.  When [2^n] brackets of a
    millionth of a mile cover the initial bracket, the loop makes at most [n]
    passes; for a target distance from 0 to 500 NM that is at most 30 passes,
    whatever the fix and the DME, and never the 200 of [MAX_ITERATIONS]. *)
Theorem bisection_passes_bound (GEODESIC : Geodesic)
  (fix_coords : VorFixCalculation.Coordinates) (true_bearing : Qc)
  (dme_coords : VorFixCalculation.Coordinates) (distance_nm : Qc)
  (st : VorFixCalculation.Search) :
  VorFixCalculation.search GEODESIC fix_coords true_bearing dme_coords
    distance_nm = Ok st ->
  let lo := fst (Bracket.initial GEODESIC fix_coords dme_coords distance_nm) in
  let hi := snd (Bracket.initial GEODESIC fix_coords dme_coords distance_nm) in
  (forall n, (1 <= n)%nat -> hi - lo < $0.000001 * Bracket.pow2 n ->
     (List.length (VorFixCalculation.passes st) <= n)%nat)
  /\ ($0 <= distance_nm -> distance_nm <= $500 ->
      (List.length (VorFixCalculation.passes st) <= 30)%nat).
Proof.
  intros E lo hi. split.
  - intros n N W.
    exact (BracketRun.passes_bound GEODESIC fix_coords true_bearing dme_coords
             distance_nm n st N W E).
  - intros P U.
    apply (BracketRun.passes_bound GEODESIC fix_coords true_bearing dme_coords
             distance_nm 30 st); [lia | | exact E].
    pose proof (BracketFacts.range_width
                  (meters_to_nm
                     (s12 (Inverse GEODESIC (VorFixCalculation.lat fix_coords)
                             (VorFixCalculation.lon fix_coords)
                             (VorFixCalculation.lat dme_coords)
                             (VorFixCalculation.lon dme_coords)))) distance_nm P)
      as W.
    fold (Bracket.initial GEODESIC fix_coords dme_coords distance_nm) in W.
    assert (C : $1002 < $0.000001 * Bracket.pow2 30) by (vm_compute; reflexivity).
    set (w := $0.000001 * Bracket.pow2 30) in *. clearbody w.
    qc_lra.
Qed.

Lemma bisection_passes_bound_witness :
  exists st,
    VorFixCalculation.search Chart.taxicab
      {| VorFixCalculation.lat := $0; VorFixCalculation.lon := $0 |} $0
      {| VorFixCalculation.lat := $0; VorFixCalculation.lon := $0.1 / $60 |}
      $0.01 = Ok st
    /\ (List.length (VorFixCalculation.passes st) <= 30)%nat.
Proof.
  destruct (BisectionRun.search_returns Chart.taxicab
              {| VorFixCalculation.lat := $0; VorFixCalculation.lon := $0 |} $0
              {| VorFixCalculation.lat := $0; VorFixCalculation.lon := $0.1 / $60 |}
              $0.01 (SolverFacts.taxicab_in_range $0)) as [st E].
  exists st. split; [exact E|].
  apply (proj2 (bisection_passes_bound Chart.taxicab _ _ _ _ st E));
    vm_compute; discriminate.
Defined.

(** ** Projection, bearing and declination *)

Module FmtFacts.
Import Fmt.

Lemma floor_spec (x : Qc) :
  Num.of_Z (Num.floor x) <= x /\ x < Num.of_Z (Num.floor x + 1).
Proof.
  unfold Num.floor, Num.of_Z.
  pose proof (Qfloor_le x) as L. pose proof (Qlt_floor x) as U.
  split; unfold Qcle, Qclt; rewrite this_Q2Qc; assumption.
Qed.

Lemma of_Z_le (a b : Z) : (a <= b)%Z -> Num.of_Z a <= Num.of_Z b.
Proof.
  intro H. unfold Num.of_Z, Qcle. rewrite !this_Q2Qc.
  rewrite <- Zle_Qle. exact H.
Qed.

Lemma of_Z_lt_inv (a b : Z) : Num.of_Z a < Num.of_Z b -> (a < b)%Z.
Proof.
  unfold Num.of_Z, Qclt. rewrite !this_Q2Qc. rewrite <- Zlt_Qlt. trivial.
Qed.

(** [floor x] is the integer [n] with [n <= x < n + 1]. *)
Lemma floor_unique (x : Qc) (n : Z) :
  Num.of_Z n <= x -> x < Num.of_Z (n + 1) -> Num.floor x = n.
Proof.
  intros L U. destruct (floor_spec x) as [L' U'].
  assert (A : (n < Num.floor x + 1)%Z).
  { apply of_Z_lt_inv. eapply Qcle_lt_trans; eauto. }
  assert (B : (Num.floor x < n + 1)%Z).
  { apply of_Z_lt_inv. eapply Qcle_lt_trans; eauto. }
  lia.
Qed.

Lemma floor_range (x : Qc) (a b : Z) :
  Num.of_Z a <= x -> x < Num.of_Z b -> (a <= Num.floor x < b)%Z.
Proof.
  intros L U. destruct (floor_spec x) as [L' U'].
  assert (A : (a < Num.floor x + 1)%Z).
  { apply of_Z_lt_inv. eapply Qcle_lt_trans; eauto. }
  assert (B : (Num.floor x < b)%Z).
  { apply of_Z_lt_inv. eapply Qcle_lt_trans; eauto. }
  lia.
Qed.

Lemma int_range (x : Qc) (b : Z) :
  $0 <= x -> x < Num.of_Z b -> (0 <= Num.int x < b)%Z.
Proof.
  intros L U. rewrite (ProjectFacts.int_floor_nonneg x L).
  apply floor_range; [exact L | exact U].
Qed.

Lemma of_Z_succ (n : Z) : Num.of_Z (n + 1) = Num.of_Z n + $1.
Proof.
  unfold Num.of_Z. apply Qc_is_canon. qc_push. rewrite inject_Z_plus.
  reflexivity.
Qed.

Lemma round_near (x : Qc) :
  (Num.floor x <= round x <= Num.floor x + 1)%Z.
Proof.
  unfold round. destruct (_ <? $0.5); [lia|].
  destruct ($0.5 <? _); [lia|]. destruct (Z.even _); lia.
Qed.

(** Above 26.5 the rounded distance is at least 27; from 0 to 26.5 it is at
    most 26. *)
Lemma round_above (d : Qc) : $26.5 < d -> (27 <= round d)%Z.
Proof.
  intro H. destruct (floor_spec d) as [L U]. rewrite of_Z_succ in U.
  assert (F : (26 <= Num.floor d)%Z).
  { assert (Num.of_Z 26 < Num.of_Z (Num.floor d + 1)).
    { rewrite of_Z_succ. change (Num.of_Z 26) with $26. qc_lra. }
    apply of_Z_lt_inv in H0. lia. }
  destruct (Z.eq_dec (Num.floor d) 26) as [E | E].
  - unfold round. rewrite E in *.
    change (Num.of_Z 26) with $26 in *.
    assert (R : $0.5 < d - $26) by qc_lra.
    rewrite (proj2 (ltb_false _ _) (Qclt_le_weak _ _ R)).
    rewrite (proj2 (ltb_true _ _) R). lia.
  - pose proof (round_near d). lia.
Qed.

Lemma round_upto (d : Qc) : $0 <= d -> d <= $26.5 -> (0 <= round d <= 26)%Z.
Proof.
  intros P H. destruct (floor_spec d) as [L U]. rewrite of_Z_succ in U.
  assert (F : (0 <= Num.floor d < 27)%Z).
  { apply floor_range; [exact P | change (Num.of_Z 27) with $27; qc_lra]. }
  pose proof (round_near d) as N.
  destruct (Z.eq_dec (Num.floor d) 26) as [E | E]; [| lia].
  unfold round. rewrite E in *.
  change (Num.of_Z 26) with $26 in *.
  assert (R : d - $26 <= $0.5) by qc_lra.
  destruct (ltb_spec (d - $26) $0.5); [lia|].
  rewrite (proj2 (ltb_false _ _) R). simpl. lia.
Qed.

End FmtFacts.

Module LegacyProjectionFacts.

Section WithOracle.

Variable GEODESIC : Geodesic.

Lemma walks_agree (azimuth step_distance : Qc) (n : nat)
  (s c : VorFixCalculation.Coordinates) :
  for_range n (VorFixCalculation.step_body GEODESIC azimuth step_distance) s = Ok c ->
  for_range_pure n (LegacyProjection.step_body GEODESIC azimuth step_distance)
    (VorFixCalculation.lat s, VorFixCalculation.lon s)
  = (VorFixCalculation.lat c, VorFixCalculation.lon c).
Proof.
  revert s. induction n as [| n IH]; intros s E; simpl in E |- *.
  - inversion E. reflexivity.
  - unfold VorFixCalculation.step_body in E at 1.
    destruct (VorFixCalculation.new_Coordinates _ _) as [p | e] eqn:N;
      cbn [bind] in E; [| discriminate].
    apply CoordinatesFacts.vor_fix_ok_fields in N. subst p.
    apply IH in E. exact E.
Qed.

Lemma ok_in_range (a b : Qc) (p : VorFixCalculation.Coordinates) :
  VorFixCalculation.new_Coordinates a b = Ok p ->
  p = {| VorFixCalculation.lat := a; VorFixCalculation.lon := b |}
  /\ - $90 <= a /\ a <= $90 /\ - $180 < b /\ b <= $180.
Proof.
  intro N.
  destruct (CoordinatesFacts.vor_fix_cases a b) as [[[[? ?] [? ?]] Ok_] | [_ [e Ne]]].
  - rewrite Ok_ in N. inversion N. auto.
  - rewrite Ne in N. discriminate.
Qed.

Lemma walk_in_range (azimuth step_distance : Qc) (n : nat)
  (s c : VorFixCalculation.Coordinates) :
  for_range n (VorFixCalculation.step_body GEODESIC azimuth step_distance) s = Ok c ->
  (0 < n)%nat ->
  - $90 <= VorFixCalculation.lat c /\ VorFixCalculation.lat c <= $90
  /\ - $180 < VorFixCalculation.lon c /\ VorFixCalculation.lon c <= $180.
Proof.
  revert s. induction n as [| n IH]; intros s F P; [lia|].
  simpl in F. unfold VorFixCalculation.step_body in F at 1.
  destruct (VorFixCalculation.new_Coordinates _ _) as [p | e] eqn:N;
    cbn [bind] in F; [| discriminate].
  destruct n as [| n'].
  - simpl in F. inversion F; subst p.
    apply ok_in_range in N. destruct N as [-> B]. exact B.
  - apply (IH p F). lia.
Qed.

(** The remainder by 360 of a number from 0 up to 360 is the number
    itself. *)
Lemma pymod_fixed (FLOAT : Num.Rounding) (x : Qc) :
  $0 <= x -> x < $360 -> Num.pymod FLOAT x $360 = x.
Proof.
  intros L U.
  destruct (AzimuthFacts.pymod_360_range FLOAT x) as [_ [_ P]].
  destruct (P L) as [-> _]. unfold Num.fmod.
  assert (N : $0 <= x / $360) by qc_lra.
  rewrite (ProjectFacts.int_floor_nonneg _ N).
  assert (F : Num.floor (x / $360) = 0%Z).
  { apply FmtFacts.floor_unique.
    - change (Num.of_Z 0) with $0. qc_lra.
    - change (Num.of_Z (0 + 1)) with $1. qc_lra. }
  rewrite F. change (Num.of_Z 0) with $0. apply Qc_is_canon. qc_push. lra.
Qed.

End WithOracle.

End LegacyProjectionFacts.

(** X9: the projection of the earlier revision and of
    [vor_fix_calculation.py].  Whenever the current one returns a point, the
    earlier one, which works on plain numbers and checks no range, returns
    the same latitude and longitude; and the point the current one returns
    is in range. *)
Theorem projection_revisions_agree (GEODESIC : Geodesic)
  (start_coords c : VorFixCalculation.Coordinates) (azimuth distance_nm : Qc) :
  VorFixCalculation.calculate_target_coords_geodesic GEODESIC start_coords
    azimuth distance_nm = Ok c ->
  LegacyProjection.calculate_target_coords_geodesic GEODESIC
    (VorFixCalculation.lat start_coords) (VorFixCalculation.lon start_coords)
    azimuth distance_nm
  = (VorFixCalculation.lat c, VorFixCalculation.lon c)
  /\ - $90 <= VorFixCalculation.lat c /\ VorFixCalculation.lat c <= $90
  /\ - $180 < VorFixCalculation.lon c /\ VorFixCalculation.lon c <= $180.
Proof.
  intro E.
  unfold VorFixCalculation.calculate_target_coords_geodesic in E.
  unfold LegacyProjection.calculate_target_coords_geodesic.
  cbv zeta in *.
  destruct (_ >? $0.1).
  - destruct (Z.ltb_spec 1 (Z.max 1 (Num.int (distance_nm / $500)))) as [N | N].
    + split.
      * apply LegacyProjectionFacts.walks_agree. exact E.
      * apply (LegacyProjectionFacts.walk_in_range _ _ _ _ _ _ E). lia.
    + apply LegacyProjectionFacts.ok_in_range in E. destruct E as [-> B].
      split; [reflexivity | exact B].
  - apply LegacyProjectionFacts.ok_in_range in E. destruct E as [-> B].
    split; [reflexivity | exact B].
Qed.

Lemma projection_revisions_agree_witness :
  exists c,
    VorFixCalculation.calculate_target_coords_geodesic Chart.drift
      {| VorFixCalculation.lat := $0; VorFixCalculation.lon := $0 |} $0 $2000
    = Ok c
    /\ LegacyProjection.calculate_target_coords_geodesic Chart.drift $0 $0 $0 $2000
       = (VorFixCalculation.lat c, VorFixCalculation.lon c).
Proof.
  destruct (VorFixCalculation.calculate_target_coords_geodesic Chart.drift
              {| VorFixCalculation.lat := $0; VorFixCalculation.lon := $0 |}
              $0 $2000) as [c | e] eqn:E.
  - exists c. split; [reflexivity|].
    exact (proj1 (projection_revisions_agree Chart.drift _ c $0 $2000 E)).
  - exfalso. vm_compute in E. discriminate E.
Defined.



(** X11: the bearing that is projected along.  In the earlier revision
    and in both frames of [vor_fix_calculation.py] it is the remainder by 360
    of the bearing, with the declination added in magnetic mode (the
    automatic one in mode "Auto").  It lies from 0 to 360, and 360 itself is
    reached: in magnetic mode the bearing 0 with a declination of [-2^-60]
    degrees is projected along 360.0, a bearing that [validate_bearing]
    turns down.  A bearing whose sum with the declination is not negative is
    projected along a bearing below 360; a sum from 0 up to 360, and a true
    bearing in this range, is used as it is. *)
Theorem true_bearing_conversion (FLOAT : Num.Rounding) (GEODESIC : Geodesic)
  (lat_vor lon_vor bearing distance_nm : Qc) (bearing_mode declination_mode : string)
  (declination auto_declination : Qc) :
  let actual_declination :=
    if String.eqb declination_mode "Auto" then auto_declination else declination in
  let magnetic := String.eqb bearing_mode "Magnetic" in
  let angle := if magnetic then bearing + actual_declination else bearing in
  let true_bearing :=
    WaypointCalculationFrame.true_bearing FLOAT magnetic bearing
      actual_declination in
  LegacyProjection.calculate_target_coords_vincenty GEODESIC FLOAT lat_vor
    lon_vor bearing distance_nm bearing_mode declination_mode declination
    auto_declination
  = LegacyProjection.calculate_target_coords_geodesic GEODESIC lat_vor lon_vor
      true_bearing distance_nm
  /\ $0 <= true_bearing /\ true_bearing <= $360
  /\ ($0 <= angle -> true_bearing < $360)
  /\ ($0 <= angle -> angle < $360 -> true_bearing = angle)
  /\ WaypointCalculationFrame.true_bearing Chart.doubles true $0
       (- ($1 / $1152921504606846976))
     = $360.
Proof.
  intros actual_declination magnetic angle true_bearing.
  assert (E : true_bearing = Num.pymod FLOAT angle $360).
  { subst true_bearing angle. unfold WaypointCalculationFrame.true_bearing.
    destruct magnetic; reflexivity. }
  destruct (AzimuthFacts.pymod_360_range FLOAT angle) as [R1 [R2 R3]].
  split; [| split; [| split; [| split; [| split]]]].
  - unfold LegacyProjection.calculate_target_coords_vincenty.
    subst true_bearing actual_declination magnetic.
    unfold WaypointCalculationFrame.true_bearing.
    destruct (String.eqb bearing_mode "Magnetic"); reflexivity.
  - rewrite E. exact R1.
  - rewrite E. exact R2.
  - intro P. rewrite E. exact (proj2 (R3 P)).
  - intros L U. rewrite E.
    apply LegacyProjectionFacts.pymod_fixed; assumption.
  - apply Qc_is_canon. vm_compute. reflexivity.
Qed.

(** X12: the time [get_declination] gives the model.  It is the year plus
    the days before today over 365: from the year up to the next on the
    days 1 to 365, and the next year itself on day 366, so that the last day
    of a leap year gets the declination of the first day of the next year.
    Without the library, or when the model raises, the declination is 0. *)
Theorem declination_time (self : MagneticDeclinationService.Service)
  (y : Z) (coordinates : VorFixCalculation.Coordinates) :
  (forall day, (1 <= day <= 365)%Z ->
     Num.of_Z y <= MagneticDeclinationService.decimal_year
                     {| MagneticDeclinationService.year := y;
                        MagneticDeclinationService.tm_yday := day |}
     /\ MagneticDeclinationService.decimal_year
          {| MagneticDeclinationService.year := y;
             MagneticDeclinationService.tm_yday := day |} < Num.of_Z (y + 1))
  /\ MagneticDeclinationService.get_declination self
       {| MagneticDeclinationService.year := y;
          MagneticDeclinationService.tm_yday := 366 |} coordinates
     = MagneticDeclinationService.get_declination self
         {| MagneticDeclinationService.year := y + 1;
            MagneticDeclinationService.tm_yday := 1 |} coordinates
  /\ (forall today,
        MagneticDeclinationService.pygeomag_available self = false
        \/ MagneticDeclinationService.geomag_initialized self = false
        \/ MagneticDeclinationService.calculate self
             (VorFixCalculation.lat coordinates)
             (VorFixCalculation.lon coordinates) $0
             (MagneticDeclinationService.decimal_year today) = None ->
        MagneticDeclinationService.get_declination self today coordinates = $0.0).
Proof.
  split; [| split].
  - intros day D. unfold MagneticDeclinationService.decimal_year. simpl.
    assert (A : Num.of_Z 0 <= Num.of_Z (day - 1)) by (apply FmtFacts.of_Z_le; lia).
    assert (B : Num.of_Z (day - 1) <= Num.of_Z 364) by (apply FmtFacts.of_Z_le; lia).
    change (Num.of_Z 0) with $0 in A. change (Num.of_Z 364) with $364 in B.
    rewrite FmtFacts.of_Z_succ.
    set (d := Num.of_Z (day - 1)) in *. set (z := Num.of_Z y). clearbody d z.
    split; qc_lra.
  - unfold MagneticDeclinationService.get_declination.
    replace (MagneticDeclinationService.decimal_year
               {| MagneticDeclinationService.year := y;
                  MagneticDeclinationService.tm_yday := 366 |})
      with (MagneticDeclinationService.decimal_year
              {| MagneticDeclinationService.year := y + 1;
                 MagneticDeclinationService.tm_yday := 1 |}); [reflexivity|].
    unfold MagneticDeclinationService.decimal_year. simpl.
    rewrite FmtFacts.of_Z_succ.
    change (Num.of_Z 0) with $0. change (Num.of_Z 365) with $365.
    set (z := Num.of_Z y). clearbody z. apply Qc_is_canon. qc_push. field.
  - intros today H. unfold MagneticDeclinationService.get_declination.
    destruct H as [H | [H | H]]; rewrite H; rewrite ?andb_false_r; simpl;
      try reflexivity.
    destruct (negb _); reflexivity.
Qed.

(** ** Text: validators, navigation data and dialogs *)

Module StrFacts.
Import Str Words.

Ltac each_char c := destruct c as [[] [] [] [] [] [] [] []].

Lemma upper_char_idem (c : ascii) : upper_char (upper_char c) = upper_char c.
Proof. each_char c; reflexivity. Qed.

Lemma upper_idem (s : string) : upper (upper s) = upper s.
Proof.
  induction s as [| c s IH]; simpl; [reflexivity|].
  now rewrite upper_char_idem, IH.
Qed.

Lemma upper_char_capital (c : ascii) : alpha c = true -> capital (upper_char c) = true.
Proof. each_char c; simpl; intro H; try reflexivity; discriminate H. Qed.

Lemma upper_char_not_lower (c : ascii) : lower (upper_char c) = false.
Proof. each_char c; reflexivity. Qed.

Lemma upper_char_alpha (c : ascii) : alpha (upper_char c) = alpha c.
Proof. each_char c; reflexivity. Qed.

Lemma upper_char_fixed (c : ascii) : capital c = true -> upper_char c = c.
Proof. each_char c; simpl; intro H; try reflexivity; discriminate H. Qed.

Lemma capital_not_space (c : ascii) : capital c = true -> space c = false.
Proof. each_char c; simpl; intro H; try reflexivity; discriminate H. Qed.

Lemma capital_alpha (c : ascii) : capital c = true -> alpha c = true.
Proof. each_char c; simpl; intro H; try reflexivity; discriminate H. Qed.

Lemma upper_length (s : string) : String.length (upper s) = String.length s.
Proof. induction s as [| c s IH]; simpl; congruence. Qed.

Lemma all_impl (p q : ascii -> bool) (s : string) :
  (forall c, p c = true -> q c = true) -> all p s = true -> all q s = true.
Proof.
  intro H. induction s as [| c s IH]; simpl; [reflexivity|].
  intro A. apply andb_prop in A. destruct A as [A1 A2].
  rewrite (H c A1), (IH A2). reflexivity.
Qed.

Lemma all_upper_capital (s : string) :
  all alpha (upper s) = true -> all capital (upper s) = true.
Proof.
  induction s as [| c s IH]; simpl; [reflexivity|].
  intro A. apply andb_prop in A. destruct A as [A1 A2].
  rewrite (IH A2), andb_true_r.
  rewrite upper_char_alpha in A1.
  apply upper_char_capital. exact A1.
Qed.

Lemma upper_fixed (s : string) : all capital s = true -> upper s = s.
Proof.
  induction s as [| c s IH]; simpl; [reflexivity|].
  intro A. apply andb_prop in A. destruct A as [A1 A2].
  now rewrite (upper_char_fixed c A1), (IH A2).
Qed.

Lemma lstrip_fixed (s : string) :
  all (fun c => negb (space c)) s = true -> lstrip s = s.
Proof.
  destruct s as [| c s]; simpl; [reflexivity|].
  intro A. apply andb_prop in A. destruct A as [A1 _].
  apply negb_true_iff in A1. now rewrite A1.
Qed.

Lemma rstrip_fixed (s : string) :
  all (fun c => negb (space c)) s = true -> rstrip s = s.
Proof.
  induction s as [| c s IH]; simpl; [reflexivity|].
  intro A. apply andb_prop in A. destruct A as [A1 A2].
  apply negb_true_iff in A1. rewrite (IH A2), A1.
  destruct s; reflexivity.
Qed.

Lemma strip_fixed (s : string) :
  all (fun c => negb (space c)) s = true -> strip s = s.
Proof.
  intro A. unfold strip. rewrite (rstrip_fixed s A). apply lstrip_fixed. exact A.
Qed.

(** [rstrip] keeps the first character of what it does not empty. *)
Lemma rstrip_head (c : ascii) (s : string) :
  (rstrip (String c s) = EmptyString /\ space c = true
   /\ rstrip s = EmptyString)
  \/ exists t, rstrip (String c s) = String c t
               /\ (t = rstrip s).
Proof.
  simpl. destruct (rstrip s) as [| c' t] eqn:R.
  - destruct (space c) eqn:S; [left; auto | right; exists EmptyString; auto].
  - right. exists (String c' t). auto.
Qed.

Lemma split_lstrip (s : string) : split (lstrip s) = split s.
Proof.
  induction s as [| c s IH]; [reflexivity|].
  simpl lstrip. destruct (space c) eqn:S; [| reflexivity].
  rewrite IH. simpl. now rewrite S.
Qed.

Lemma split_rstrip (s : string) : split (rstrip s) = split s.
Proof.
  induction s as [| c s IH]; [reflexivity|].
  destruct (rstrip_head c s) as [[E [S R]] | [t [E T]]]; rewrite E.
  - rewrite R in IH. simpl. rewrite S. exact IH.
  - subst t. cbn [split]. destruct (space c) eqn:S; [exact IH|].
    destruct s as [| c' s'].
    + reflexivity.
    + destruct (rstrip_head c' s') as [[E' [S' R']] | [t' [E' T']]].
      * rewrite E' in *. rewrite S'. now rewrite <- IH.
      * rewrite E' in *. destruct (space c'); rewrite IH; reflexivity.
Qed.

Lemma split_strip (s : string) : split (strip s) = split s.
Proof. unfold strip. now rewrite split_lstrip, split_rstrip. Qed.

Lemma lstrip_empty (s : string) : lstrip s = EmptyString <-> split s = [].
Proof.
  induction s as [| c s IH]; [simpl; tauto|].
  simpl. destruct (space c) eqn:S; [exact IH|].
  split; [discriminate|].
  destruct s as [| c' s']; [discriminate|].
  destruct (space c'); [discriminate|]. destruct (split _); discriminate.
Qed.

Lemma strip_empty (s : string) : strip s = EmptyString <-> split s = [].
Proof.
  unfold strip. rewrite lstrip_empty. now rewrite split_rstrip.
Qed.

(** The fields of a line are words. *)
Lemma split_words (s : string) : Forall (fun w => word w = true) (split s).
Proof.
  induction s as [| c s IH]; [constructor|].
  cbn [split]. destruct (space c) eqn:S; [exact IH|].
  destruct s as [| c' s'].
  - constructor; [simpl; now rewrite S | constructor].
  - destruct (space c') eqn:S'.
    + constructor; [simpl; now rewrite S | exact IH].
    + destruct (split (String c' s')) as [| w ws].
      * constructor; [simpl; now rewrite S | constructor].
      * inversion IH as [| ? ? W Ws]; subst.
        constructor; [| exact Ws].
        destruct w as [| a w]; [discriminate|].
        simpl in *. now rewrite S.
Qed.

(** A word followed by a space and more text is the first field. *)
Lemma split_word_then (w t : string) :
  word w = true -> split (w ++ String " " t) = w :: split t.
Proof.
  induction w as [| c w IH]; [discriminate|].
  intro W. simpl in W. apply andb_prop in W. destruct W as [S W].
  apply negb_true_iff in S.
  cbn [append split]. rewrite S.
  destruct w as [| c' w'].
  - reflexivity.
  - cbn [append]. simpl in W.
    pose proof W as W0.
    apply andb_prop in W. destruct W as [S' W'].
    apply negb_true_iff in S'. rewrite S'.
    cbn [append] in IH. rewrite IH; [reflexivity|].
    simpl. now rewrite S', W'.
Qed.

Lemma split_word (w : string) : word w = true -> split w = (w :: nil).
Proof.
  induction w as [| c w IH]; [discriminate|].
  intro W. simpl in W. apply andb_prop in W. destruct W as [S W].
  apply negb_true_iff in S.
  cbn [split]. rewrite S.
  destruct w as [| c' w']; [reflexivity|].
  simpl in W. pose proof W as W0.
  apply andb_prop in W. destruct W as [S' W'].
  apply negb_true_iff in S'. rewrite S'.
  rewrite IH; [reflexivity|]. simpl. now rewrite S', W'.
Qed.

(** Words joined by single spaces split back into themselves. *)
Lemma split_join (ws : list string) :
  Forall (fun w => word w = true) ws -> split (join " " ws) = ws.
Proof.
  induction 1 as [| w ws W F IH]; [reflexivity|].
  destruct ws as [| w' ws'].
  - simpl. apply split_word. exact W.
  - change (join " " (w :: w' :: ws'))
      with (w ++ String " " (join " " (w' :: ws')))%string.
    rewrite split_word_then; [| exact W]. now rewrite IH.
Qed.

End StrFacts.

Module ValidatorFacts.
Import Py Str Words StrFacts InputValidator.

Lemma isalpha_all (s : string) : isalpha s = true -> all alpha s = true.
Proof. destruct s; [discriminate | trivial]. Qed.

Lemma capital_isalpha (s : string) :
  s <> EmptyString -> all capital s = true -> isalpha s = true.
Proof.
  destruct s as [| c s]; [congruence|]. intros _ A.
  unfold isalpha. apply (all_impl capital alpha); [apply capital_alpha | exact A].
Qed.

Lemma capital_no_space (s : string) :
  all capital s = true -> all (fun c => negb (space c)) s = true.
Proof.
  apply all_impl. intros c C. now rewrite (capital_not_space c C).
Qed.

(** On finite numbers the constructor is the one of the solver. *)
Lemma Coordinates_finite (a b : Qc) :
  Coordinates_ (Finite a) (Finite b)
  = match VorFixCalculation.new_Coordinates a b with
    | Ok c => Return c
    | Raise (LatitudeOutOfRange x) => Throw (OutOfRange true (Finite x))
    | Raise (LongitudeOutOfRange x) => Throw (OutOfRange false (Finite x))
    end.
Proof.
  unfold Coordinates_, VorFixCalculation.new_Coordinates. simpl.
  destruct (negb _); [reflexivity|]. destruct (negb _); reflexivity.
Qed.

Lemma Coordinates_return (lat lon : pyfloat) (c : VorFixCalculation.Coordinates) :
  Coordinates_ lat lon = Return c ->
  lat = Finite (VorFixCalculation.lat c) /\ lon = Finite (VorFixCalculation.lon c)
  /\ - $90 <= VorFixCalculation.lat c /\ VorFixCalculation.lat c <= $90
  /\ - $180 < VorFixCalculation.lon c /\ VorFixCalculation.lon c <= $180.
Proof.
  unfold Coordinates_.
  destruct lat as [a | | |]; simpl; try discriminate;
    destruct (leb_spec (- $90) a); simpl; try discriminate;
    destruct (leb_spec a $90); simpl; try discriminate;
    destruct lon as [b | | |]; simpl; try discriminate;
    destruct (ltb_spec (- $180) b); simpl; try discriminate;
    destruct (leb_spec b $180); simpl; try discriminate.
  intro E. inversion E; subst. simpl. auto 7.
Qed.

End ValidatorFacts.

(** X13: an airport code that passes [validate_airport_code] is the input
    without the whitespace around it, in capitals; it has four capital
    letters, and validating it again returns it unchanged. *)
Theorem airport_code_validated (airport_code code : string) :
  Str.ascii_only airport_code = true ->
  InputValidator.validate_airport_code airport_code = Py.Return code ->
  code = Str.upper (Str.strip airport_code)
  /\ String.length code = 4%nat
  /\ Str.all Str.capital code = true
  /\ InputValidator.validate_airport_code code = Py.Return code.
Proof.
  intros _ V. unfold InputValidator.validate_airport_code in V.
  set (c := Str.upper (Str.strip airport_code)) in *.
  destruct (Z.eqb_spec (Str.len c) 4) as [L | L]; simpl in V; [| discriminate].
  destruct (Str.isalpha c) eqn:A; simpl in V; [| discriminate].
  inversion V; subst code. clear V.
  assert (C : Str.all Str.capital c = true)
    by (apply StrFacts.all_upper_capital, ValidatorFacts.isalpha_all; exact A).
  split; [reflexivity|]. split; [unfold Str.len in L; lia|]. split; [exact C|].
  unfold InputValidator.validate_airport_code.
  rewrite (StrFacts.strip_fixed c (ValidatorFacts.capital_no_space c C)).
  rewrite (StrFacts.upper_fixed c C).
  rewrite L, A. reflexivity.
Qed.

Lemma airport_code_validated_witness :
  "ZBAA"%string = Str.upper (Str.strip " zbaa ")
  /\ String.length "ZBAA" = 4%nat
  /\ Str.all Str.capital "ZBAA" = true
  /\ InputValidator.validate_airport_code "ZBAA" = Py.Return "ZBAA"%string.
Proof.
  apply (airport_code_validated " zbaa " "ZBAA"); reflexivity.
Defined.

(** X14: [validate_vor_identifier] returns the empty string as it is, rejects
    a string that is not empty but all whitespace, and otherwise returns
    only one to three capital letters. *)
Theorem vor_identifier_validated (vor_id : string) :
  Str.ascii_only vor_id = true ->
  InputValidator.validate_vor_identifier "" = Py.Return ""%string
  /\ (vor_id <> ""%string -> Str.strip vor_id = ""%string ->
      InputValidator.validate_vor_identifier vor_id
      = Py.Throw (Py.ValueError_ InputValidator.vor_identifier_letters))
  /\ (forall code,
        InputValidator.validate_vor_identifier vor_id = Py.Return code ->
        (vor_id = ""%string /\ code = ""%string)
        \/ (code = Str.upper (Str.strip vor_id)
            /\ (1 <= String.length code <= 3)%nat
            /\ Str.all Str.capital code = true)).
Proof.
  intros _. split; [reflexivity|]. split.
  - intros N S. destruct vor_id as [| c s]; [congruence|].
    unfold InputValidator.validate_vor_identifier. rewrite S. reflexivity.
  - intros code V. destruct vor_id as [| c s].
    + left. inversion V. auto.
    + right. unfold InputValidator.validate_vor_identifier in V.
      set (u := Str.upper (Str.strip (String c s))) in *.
      destruct (Z.leb_spec 1 (Str.len u)) as [L1 | L1]; simpl in V; [| discriminate].
      destruct (Z.leb_spec (Str.len u) 3) as [L3 | L3]; simpl in V; [| discriminate].
      destruct (Str.isalpha u) eqn:A; simpl in V; [| discriminate].
      inversion V; subst code.
      split; [reflexivity|]. split; [unfold Str.len in *; lia|].
      apply StrFacts.all_upper_capital, ValidatorFacts.isalpha_all. exact A.
Qed.

Lemma vor_identifier_validated_witness :
  InputValidator.validate_vor_identifier "  "
  = Py.Throw (Py.ValueError_ InputValidator.vor_identifier_letters).
Proof.
  apply (proj1 (proj2 (vor_identifier_validated "  " eq_refl))).
  - discriminate.
  - reflexivity.
Defined.

(** X15: what the two numeric validators let through.  [validate_bearing]
    returns only finite numbers from 0 up to, and not including, 360.
    [validate_distance] returns no finite number that is not positive, but
    it returns [nan] and the positive infinity when [float] reads them:
    [nan <= 0] and [inf <= 0] are both false. *)
Theorem bearing_and_distance_validated (float : string -> option Py.pyfloat)
  (s : string) :
  (forall bearing,
      InputValidator.validate_bearing float s = Py.Return bearing ->
      exists x, bearing = Py.Finite x /\ $0 <= x /\ x < $360)
  /\ (forall distance,
         InputValidator.validate_distance float s = Py.Return distance ->
         (exists x, distance = Py.Finite x /\ $0 < x)
         \/ distance = Py.PosInf \/ distance = Py.NaN)
  /\ (float s = Some Py.NaN ->
      InputValidator.validate_distance float s = Py.Return Py.NaN)
  /\ (float s = Some Py.PosInf ->
      InputValidator.validate_distance float s = Py.Return Py.PosInf).
Proof.
  unfold InputValidator.validate_bearing, InputValidator.validate_distance.
  destruct (float s) as [[x | | |] |]; simpl;
    (split; [| split; [| split]]); try discriminate; try reflexivity;
    try (intros ? E; discriminate E).
  - intros b E. destruct (leb_spec $0 x); simpl in E; [| discriminate].
    destruct (ltb_spec x $360); simpl in E; [| discriminate].
    inversion E. exists x. auto.
  - intros d E. destruct (leb_spec x $0); simpl in E; [discriminate|].
    inversion E. left. exists x. auto.
  - intros d E. inversion E. auto.
  - intros d E. inversion E. auto.
Qed.

(** X16: coordinates that pass [validate_coordinates] come from a text of
    exactly two fields, whatever whitespace is around and between them;
    [float] read two finite numbers from them, a latitude from -90 to 90
    and a longitude above -180 and up to 180.  A text with no field is
    rejected as empty. *)
Theorem coordinates_validated (float : string -> option Py.pyfloat)
  (coords_str : string) :
  Str.ascii_only coords_str = true ->
  (forall c,
      InputValidator.validate_coordinates float coords_str = Py.Return c ->
      exists a b,
        Str.split coords_str = a :: b :: nil
        /\ float a = Some (Py.Finite (VorFixCalculation.lat c))
        /\ float b = Some (Py.Finite (VorFixCalculation.lon c))
        /\ - $90 <= VorFixCalculation.lat c /\ VorFixCalculation.lat c <= $90
        /\ - $180 < VorFixCalculation.lon c /\ VorFixCalculation.lon c <= $180)
  /\ (Str.split coords_str = nil ->
      InputValidator.validate_coordinates float coords_str
      = Py.Throw (Py.ValueError_ "Coordinates cannot be empty")).
Proof.
  intros _. unfold InputValidator.validate_coordinates.
  rewrite StrFacts.split_strip. split.
  - intros c V. destruct (Str.strip coords_str) as [| c0 s0]; [discriminate|].
    destruct (Str.split coords_str) as [| a [| b [| ? ?]]]; try discriminate.
    destruct (float a) as [lat |] eqn:Fa; [| discriminate].
    destruct (float b) as [lon |] eqn:Fb; [| discriminate].
    destruct (InputValidator.Coordinates_ lat lon) as [c' | e] eqn:C;
      [| destruct e; discriminate].
    inversion V; subst c'.
    destruct (ValidatorFacts.Coordinates_return _ _ _ C) as [-> [-> R]].
    exists a, b. auto.
  - intro E. apply StrFacts.strip_empty in E. rewrite E. reflexivity.
Qed.

Lemma coordinates_validated_witness :
  (exists a b,
      Str.split " 39.5  116.4 " = a :: b :: nil
      /\ Literals.float a = Some (Py.Finite $39.5)
      /\ Literals.float b = Some (Py.Finite $116.4))
  /\ InputValidator.validate_coordinates Literals.float "   "
     = Py.Throw (Py.ValueError_ "Coordinates cannot be empty").
Proof.
  split.
  - destruct (proj1 (coordinates_validated Literals.float " 39.5  116.4 " eq_refl)
                {| VorFixCalculation.lat := $39.5;
                   VorFixCalculation.lon := $116.4 |} eq_refl)
      as [a [b [S [A [B _]]]]].
    exists a, b. auto.
  - apply (proj2 (coordinates_validated Literals.float "   " eq_refl)).
    reflexivity.
Defined.

Module SearchFacts.
Import Py Str Words StrFacts NavigationDataService Matching.

Lemma line_body_filter (identifier : string) (file_type : FileType)
  (lines : list string) (acc : list (list string)) :
  fold_left (line_body identifier file_type) lines acc
  = acc ++ map split (filter (matches identifier file_type) lines).
Proof.
  revert acc. induction lines as [| line lines IH]; intro acc; simpl.
  - now rewrite app_nil_r.
  - rewrite IH. unfold line_body, matches. rewrite split_strip.
    destruct (nth_error (split line) (relevant_index file_type)) as [p |] eqn:N.
    + assert (L : (relevant_index file_type <? List.length (split line))%nat = true).
      { apply Nat.ltb_lt. apply nth_error_Some. congruence. }
      rewrite L. simpl. destruct (String.eqb p (upper identifier)); simpl.
      * now rewrite <- app_assoc.
      * reflexivity.
    + rewrite andb_false_r. reflexivity.
Qed.

Lemma search_lines (open : string -> Opened) (self : Service)
  (identifier : string) (file_type : FileType) (ms : list (list string)) :
  search_identifier open self identifier file_type = Return ms ->
  exists lines,
    open (match file_type with
          | NAV => nav_file_path self
          | FIX => fix_file_path self
          end) = Lines lines
    /\ ms = map split (filter (matches identifier file_type) lines).
Proof.
  unfold search_identifier.
  set (p := match file_type with NAV => _ | FIX => _ end).
  destruct p as [| c s] eqn:P; [discriminate|].
  destruct (open (String c s)) as [lines | |] eqn:O; try discriminate.
  intro E. inversion E. exists lines. split; [reflexivity|].
  apply (line_body_filter identifier file_type lines []).
Qed.

Lemma files_ascii : ascii_files Files.files.
Proof.
  intros path lines. unfold Files.files.
  destruct (String.eqb path "nav.dat"); [intro E; inversion E; reflexivity|].
  destruct (String.eqb path "fix.dat"); [intro E; inversion E; reflexivity|].
  discriminate.
Qed.

Lemma upper_no_lower (s : string) : all (fun c => negb (lower c)) (upper s) = true.
Proof.
  induction s as [| c s IH]; simpl; [reflexivity|].
  now rewrite upper_char_not_lower, IH.
Qed.

End SearchFacts.

(** X17: what [search_identifier] returns, on ASCII text.  The result is,
    in the order of the file, the fields of every line whose field 7 (file
    NAV) or 2 (file FIX) is the identifier in capitals; so every record has
    that field, every field of a record is a word, the field that matched
    has no small letter (a line that spells the identifier with one is never
    returned), an identifier that is not a word in capitals finds nothing,
    and an identifier and its capitals find the same. *)
Theorem search_identifier_records (open : string -> NavigationDataService.Opened)
  (self : NavigationDataService.Service) (identifier : string)
  (file_type : Py.FileType) (matching_lines : list (list string)) :
  Str.ascii_only identifier = true ->
  Matching.ascii_files open ->
  NavigationDataService.search_identifier open self identifier file_type
  = Py.Return matching_lines ->
  (exists lines,
      open (match file_type with
            | Py.NAV => NavigationDataService.nav_file_path self
            | Py.FIX => NavigationDataService.fix_file_path self
            end) = NavigationDataService.Lines lines
      /\ matching_lines
         = map Str.split (filter (Matching.matches identifier file_type) lines))
  /\ Forall (fun parts =>
               (NavigationDataService.relevant_index file_type
                < List.length parts)%nat
               /\ nth_error parts (NavigationDataService.relevant_index file_type)
                  = Some (Str.upper identifier)
               /\ Forall (fun w => Words.word w = true) parts) matching_lines
  /\ Str.all (fun c => negb (Str.lower c)) (Str.upper identifier) = true
  /\ (Words.word (Str.upper identifier) = false -> matching_lines = nil)
  /\ NavigationDataService.search_identifier open self (Str.upper identifier)
       file_type = Py.Return matching_lines.
Proof.
  intros _ _ S.
  destruct (SearchFacts.search_lines _ _ _ _ _ S) as [lines [O M]].
  assert (F : Forall (fun parts =>
               (NavigationDataService.relevant_index file_type
                < List.length parts)%nat
               /\ nth_error parts (NavigationDataService.relevant_index file_type)
                  = Some (Str.upper identifier)
               /\ Forall (fun w => Words.word w = true) parts) matching_lines).
  { subst matching_lines. apply Forall_forall. intros parts I.
    apply in_map_iff in I. destruct I as [line [<- I]].
    apply filter_In in I. destruct I as [_ I]. unfold Matching.matches in I.
    destruct (nth_error _ _) as [p |] eqn:N; [| discriminate].
    apply String.eqb_eq in I. subst p.
    split; [apply nth_error_Some; rewrite N; discriminate|].
    split; [reflexivity | apply StrFacts.split_words]. }
  split; [exists lines; auto|]. split; [exact F|].
  split; [apply SearchFacts.upper_no_lower|]. split.
  - intro W. destruct matching_lines as [| parts ms]; [reflexivity|].
    inversion F as [| ? ? [_ [N Ws]] _]; subst.
    apply nth_error_In in N. rewrite Forall_forall in Ws.
    rewrite (Ws _ N) in W. discriminate.
  - unfold NavigationDataService.search_identifier in *.
    destruct (match file_type with Py.NAV => _ | Py.FIX => _ end) as [| c s];
      [discriminate|].
    destruct (open (String c s)) as [ls | |]; try discriminate.
    rewrite <- S. f_equal.
    rewrite !SearchFacts.line_body_filter. simpl. f_equal.
    apply filter_ext. intro line. unfold Matching.matches.
    now rewrite StrFacts.upper_idem.
Qed.

Lemma search_identifier_records_witness :
  exists matching_lines,
    NavigationDataService.search_identifier Files.files Files.service "pek"
      Py.NAV = Py.Return matching_lines
    /\ List.length matching_lines = 2%nat
    /\ Forall (fun parts =>
                 nth_error parts 7 = Some "PEK"%string
                 /\ Forall (fun w => Words.word w = true) parts) matching_lines.
Proof.
  eexists. split; [reflexivity|]. split; [reflexivity|].
  pose proof (search_identifier_records Files.files Files.service "pek"
                Py.NAV _ eq_refl SearchFacts.files_ascii eq_refl) as [_ [F _]].
  eapply Forall_impl; [| exact F]. simpl. intros parts [_ [N W]]. auto.
Defined.

Module DialogFacts.
Import Py Str Words StrFacts Frames.

Lemma comma_free_cons (c : ascii) (w : string) :
  comma_free (String c w) = negb (Ascii.eqb c ",") && comma_free w.
Proof. reflexivity. Qed.

Lemma split_on_cons (c : ascii) (s : string) :
  split_on "," (String c s)
  = if Ascii.eqb c "," then EmptyString :: split_on "," s
    else match split_on "," s with
         | w :: ws => String c w :: ws
         | [] => String c EmptyString :: nil
         end.
Proof. reflexivity. Qed.

Lemma split_on_comma_free (s : string) :
  Forall (fun w => comma_free w = true) (split_on "," s).
Proof.
  induction s as [| c s IH].
  - constructor; [reflexivity | constructor].
  - rewrite split_on_cons. destruct (Ascii.eqb c ",") eqn:E.
    + constructor; [reflexivity | exact IH].
    + destruct (split_on "," s) as [| w ws].
      * constructor; [rewrite comma_free_cons, E; reflexivity | constructor].
      * inversion IH as [| ? ? H1 H2]; subst.
        constructor; [rewrite comma_free_cons, E; exact H1 | assumption].
Qed.

Lemma split_on_piece (w : string) :
  comma_free w = true -> split_on "," w = w :: nil.
Proof.
  induction w as [| c w IH]; [reflexivity|].
  rewrite comma_free_cons. intro F. apply andb_prop in F. destruct F as [F1 F2].
  apply negb_true_iff in F1. rewrite split_on_cons, F1, (IH F2). reflexivity.
Qed.

Lemma split_on_piece_then (w t : string) :
  comma_free w = true -> split_on "," (w ++ String "," t) = w :: split_on "," t.
Proof.
  induction w as [| c w IH]; [reflexivity|].
  rewrite comma_free_cons. intro F. apply andb_prop in F. destruct F as [F1 F2].
  apply negb_true_iff in F1. cbn [append]. rewrite split_on_cons, F1, (IH F2).
  reflexivity.
Qed.

Lemma split_on_join (parts : list string) :
  parts <> [] ->
  Forall (fun w => comma_free w = true) parts ->
  split_on "," (join "," parts) = parts.
Proof.
  intros N F. induction F as [| w ws W F IH]; [congruence|].
  destruct ws as [| w' ws'].
  - simpl. apply split_on_piece. exact W.
  - change (join "," (w :: w' :: ws'))
      with (w ++ String "," (join "," (w' :: ws')))%string.
    rewrite split_on_piece_then; [| exact W]. rewrite IH; [reflexivity | discriminate].
Qed.

Lemma join_not_empty (sep : string) (w : string) (ws : list string) :
  w <> EmptyString -> join sep (w :: ws) <> EmptyString.
Proof.
  intro N. destruct w as [| c w]; [congruence|].
  destruct ws; simpl; discriminate.
Qed.

Lemma radio_button_raises (i : nat) (line_parts : list string) (e : Exception) :
  radio_button i line_parts = Throw e ->
  e = IndexError "list index out of range".
Proof.
  unfold radio_button, part.
  destruct (nth_error line_parts 0); [| intro E; inversion E; reflexivity].
  destruct (nth_error line_parts i); [| intro E; inversion E; reflexivity].
  discriminate.
Qed.

Lemma radio_button_short (i : nat) (line_parts : list string) :
  (List.length line_parts <= i)%nat ->
  radio_button i line_parts = Throw (IndexError "list index out of range").
Proof.
  intro L. unfold radio_button, part.
  destruct (nth_error line_parts 0); [| reflexivity].
  apply nth_error_None in L. rewrite L. reflexivity.
Qed.

Lemma radio_button_long (i : nat) (line_parts : list string) :
  (i < List.length line_parts)%nat ->
  exists text, radio_button i line_parts = Return (text, join "," line_parts).
Proof.
  intro L. unfold radio_button, part.
  destruct line_parts as [| p ps]; [simpl in L; lia|]. cbn [nth_error].
  destruct (nth_error (p :: ps) i) eqn:N.
  - eexists. reflexivity.
  - apply nth_error_None in N. lia.
Qed.

Lemma radio_buttons_long (i : nat) (matching_lines : list (list string)) :
  Forall (fun parts => (i < List.length parts)%nat) matching_lines ->
  exists rbs,
    radio_buttons i matching_lines = Return rbs
    /\ map snd rbs = map (join ",") matching_lines.
Proof.
  induction 1 as [| parts ms L F [rbs [R M]]]; simpl.
  - exists []. auto.
  - destruct (radio_button_long i parts L) as [text B]. rewrite B, R.
    exists ((text, join "," parts) :: rbs). simpl. now rewrite M.
Qed.

Lemma radio_buttons_short (i : nat) (matching_lines : list (list string))
  (parts : list string) :
  In parts matching_lines -> (List.length parts <= i)%nat ->
  radio_buttons i matching_lines = Throw (IndexError "list index out of range").
Proof.
  intros I L. induction matching_lines as [| p ms IH]; [contradiction|].
  simpl. destruct (radio_button i p) as [rb | e] eqn:B.
  - destruct I as [-> | I].
    + rewrite (radio_button_short i parts L) in B. discriminate.
    + rewrite (IH I). reflexivity.
  - now rewrite (radio_button_raises _ _ _ B).
Qed.

End DialogFacts.

Module FrameFacts.
Import Py Str Frames.

Lemma set_coords_long (float : string -> option pyfloat) (lat_index lon_index : nat)
  (insufficient : string) (line_parts : list string) (e : Exception) :
  (Nat.max lat_index lon_index < List.length line_parts)%nat ->
  set_coords float lat_index lon_index insufficient line_parts = Throw e ->
  Py.is_ValueError e = true.
Proof.
  intros L. unfold set_coords.
  destruct (Nat.leb_spec (List.length line_parts) (Nat.max lat_index lon_index));
    [lia|].
  destruct (nth_error line_parts lat_index) as [a |] eqn:A;
    [| apply nth_error_None in A; lia].
  destruct (nth_error line_parts lon_index) as [b |] eqn:B;
    [| apply nth_error_None in B; lia].
  unfold parse_coordinates.
  destruct (float a) as [lat |]; [| intro E; inversion E; reflexivity].
  destruct (float b) as [lon |]; [| intro E; inversion E; reflexivity].
  unfold InputValidator.Coordinates_.
  destruct (negb _); [intro E; inversion E; reflexivity|].
  destruct (negb _); [intro E; inversion E; reflexivity|].
  destruct lat, lon; intro E; inversion E; reflexivity.
Qed.

End FrameFacts.

(** X18: the records [search_identifier] returns, on ASCII text, are safe
    in the waypoint frame.  Its dialog builds one radio button for each of
    them, whose value is the fields joined with commas, and
    [_set_coordinates] never finds too few fields in one of them: what it can
    raise there is a [ValueError]. *)
Theorem waypoint_frame_takes_records (open : string -> NavigationDataService.Opened)
  (float : string -> option Py.pyfloat)
  (self : NavigationDataService.Service) (identifier : string)
  (file_type : Py.FileType) (matching_lines : list (list string)) :
  Str.ascii_only identifier = true ->
  Matching.ascii_files open ->
  NavigationDataService.search_identifier open self identifier file_type
  = Py.Return matching_lines ->
  (exists radio_buttons,
      WaypointCalculationFrame._handle_duplicate_entries file_type matching_lines
      = Py.Return radio_buttons
      /\ map snd radio_buttons = map (Str.join ",") matching_lines)
  /\ Forall (fun line_parts =>
               forall e,
                 WaypointCalculationFrame._set_coordinates float file_type line_parts
                 = Py.Throw e ->
                 Py.is_ValueError e = true) matching_lines.
Proof.
  intros _ _ S.
  destruct (SearchFacts.search_lines _ _ _ _ _ S) as [lines [_ M]].
  assert (F : Forall (fun parts =>
                        (NavigationDataService.relevant_index file_type
                         < List.length parts)%nat) matching_lines).
  { subst matching_lines. apply Forall_forall. intros parts I.
    apply in_map_iff in I. destruct I as [line [<- I]].
    apply filter_In in I. destruct I as [_ I]. unfold Matching.matches in I.
    destruct (nth_error _ _) as [p |] eqn:N; [| discriminate].
    apply nth_error_Some. rewrite N. discriminate. }
  split.
  - unfold WaypointCalculationFrame._handle_duplicate_entries.
    apply DialogFacts.radio_buttons_long.
    destruct file_type; exact F.
  - eapply Forall_impl; [| exact F]. intros parts L e.
    unfold WaypointCalculationFrame._set_coordinates.
    apply FrameFacts.set_coords_long.
    destruct file_type; simpl in *; lia.
Qed.

Lemma waypoint_frame_takes_records_witness :
  exists radio_buttons,
    WaypointCalculationFrame._handle_duplicate_entries Py.FIX
      (map Str.split (firstn 2 Files.fix_lines))
    = Py.Return radio_buttons
    /\ map snd radio_buttons
       = map (Str.join ",") (map Str.split (firstn 2 Files.fix_lines)).
Proof.
  exact (proj1 (waypoint_frame_takes_records Files.files (fun _ => None)
                  Files.service "abcde" Py.FIX _ eq_refl SearchFacts.files_ascii
                  eq_refl)).
Defined.

(** X19: the dialog of the FIX frame reads field 7 of every record, whatever
    the file the records came from.  With a record of fewer than eight
    fields among them it raises [IndexError]; the records of a FIX file are
    found by their field 2, and may have as few as three. *)
Theorem fix_frame_dialog_raises (matching_lines : list (list string))
  (line_parts : list string) :
  In line_parts matching_lines ->
  (List.length line_parts <= 7)%nat ->
  FixCalculationFrame._handle_duplicate_entries matching_lines
  = Py.Throw (Py.IndexError "list index out of range").
Proof.
  intros I L. unfold FixCalculationFrame._handle_duplicate_entries.
  eapply DialogFacts.radio_buttons_short; eauto.
Qed.

Lemma fix_frame_dialog_raises_witness :
  exists matching_lines,
    NavigationDataService.search_identifier Files.files Files.service
      "ABCDE" Py.FIX = Py.Return matching_lines
    /\ List.length matching_lines = 2%nat
    /\ FixCalculationFrame._handle_duplicate_entries matching_lines
       = Py.Throw (Py.IndexError "list index out of range").
Proof.
  eexists. split; [reflexivity|]. split; [reflexivity|].
  apply (fix_frame_dialog_raises _ ["39.1"; "116.1"; "ABCDE"; "ENRT"; "ZB"]%string).
  - left. reflexivity.
  - simpl. lia.
Defined.

Module DmeFacts.
Import Py Str Frames.

Lemma set_dme_coords_long (float : string -> option pyfloat)
  (line_parts : list string) (e : Exception) :
  (2 < List.length line_parts)%nat ->
  FixCalculationFrame._set_dme_coords float line_parts = Throw e ->
  Py.is_ValueError e = true.
Proof.
  intros L. unfold FixCalculationFrame._set_dme_coords.
  destruct (Nat.ltb_spec (List.length line_parts) 3); [lia|].
  destruct (nth_error line_parts 1) as [a |] eqn:A;
    [| apply nth_error_None in A; lia].
  destruct (nth_error line_parts 2) as [b |] eqn:B;
    [| apply nth_error_None in B; lia].
  unfold parse_coordinates.
  destruct (float a) as [lat |]; [| intro E; inversion E; reflexivity].
  destruct (float b) as [lon |]; [| intro E; inversion E; reflexivity].
  unfold InputValidator.Coordinates_.
  destruct (negb _); [intro E; inversion E; reflexivity|].
  destruct (negb _); [intro E; inversion E; reflexivity|].
  destruct lat, lon; intro E; inversion E; reflexivity.
Qed.

End DmeFacts.

(** X20: the DME search of the FIX frame, on ASCII text.  The records it
    keeps of a search in the NAV file start with the type 12 or 13 and have
    the identifier in capitals as field 7; the dialog builds a radio button
    for each of them, and [_set_dme_coords] never finds too few fields in one
    of them: what it can raise there is a [ValueError]. *)
Theorem dme_search_records (open : string -> NavigationDataService.Opened)
  (float : string -> option Py.pyfloat)
  (self : NavigationDataService.Service) (identifier : string)
  (matching_lines : list (list string)) :
  Str.ascii_only identifier = true ->
  Matching.ascii_files open ->
  NavigationDataService.search_identifier open self identifier Py.NAV
  = Py.Return matching_lines ->
  let dme_lines := FixCalculationFrame.dme_lines matching_lines in
  (exists radio_buttons,
      FixCalculationFrame._handle_duplicate_entries dme_lines
      = Py.Return radio_buttons
      /\ map snd radio_buttons = map (Str.join ",") dme_lines)
  /\ Forall (fun line_parts =>
               (nth_error line_parts 0 = Some "12"%string
                \/ nth_error line_parts 0 = Some "13"%string)
               /\ nth_error line_parts 7 = Some (Str.upper identifier)
               /\ forall e,
                    FixCalculationFrame._set_dme_coords float line_parts
                    = Py.Throw e ->
                    Py.is_ValueError e = true) dme_lines.
Proof.
  intros _ _ S dme_lines.
  destruct (SearchFacts.search_lines _ _ _ _ _ S) as [lines [_ M]].
  assert (F : Forall (fun parts => nth_error parts 7 = Some (Str.upper identifier))
                matching_lines).
  { subst matching_lines. apply Forall_forall. intros parts I.
    apply in_map_iff in I. destruct I as [line [<- I]].
    apply filter_In in I. destruct I as [_ I].
    unfold Matching.matches, NavigationDataService.relevant_index in I.
    destruct (nth_error _ 7) as [p |] eqn:N; [| discriminate].
    apply String.eqb_eq in I. now subst p. }
  assert (G : Forall (fun parts => nth_error parts 7 = Some (Str.upper identifier))
                dme_lines).
  { apply Forall_forall. intros parts I. apply filter_In in I.
    rewrite Forall_forall in F. apply F. tauto. }
  assert (L : Forall (fun parts => (7 < List.length parts)%nat) dme_lines).
  { eapply Forall_impl; [| exact G]. intros parts N.
    apply nth_error_Some. rewrite N. discriminate. }
  split.
  - apply DialogFacts.radio_buttons_long. exact L.
  - apply Forall_forall. intros parts I.
    rewrite Forall_forall in G, L.
    split; [| split; [apply G; exact I|]].
    + apply filter_In in I. destruct I as [_ I].
      apply andb_prop in I. destruct I as [_ I].
      destruct parts as [| first rest]; [discriminate|].
      apply orb_prop in I. destruct I as [I | I]; apply String.eqb_eq in I;
        subst first; simpl; auto.
    + intros e. apply DmeFacts.set_dme_coords_long.
      specialize (L parts I). lia.
Qed.

Lemma dme_search_records_witness :
  exists matching_lines radio_buttons,
    NavigationDataService.search_identifier Files.files Files.service "pek"
      Py.NAV = Py.Return matching_lines
    /\ FixCalculationFrame._handle_duplicate_entries
         (FixCalculationFrame.dme_lines matching_lines)
       = Py.Return radio_buttons.
Proof.
  assert (E : NavigationDataService.search_identifier Files.files
                Files.service "pek" Py.NAV
              = Py.Return
                  (fold_left (NavigationDataService.line_body "pek" Py.NAV)
                     Files.nav_lines [])) by reflexivity.
  destruct (dme_search_records Files.files (fun _ => None) Files.service
              "pek" _ eq_refl SearchFacts.files_ascii E) as [[rbs [R _]] _].
  eexists. exists rbs. split; [exact E | exact R].
Defined.

(** X21: the value of a radio button of [_handle_duplicate_entries] gives the
    record back in [confirm_choice] exactly when no field of the record has
    a comma. *)
Theorem radio_value_round_trip (line_parts : list string) :
  line_parts <> nil ->
  Forall (fun w => Words.word w = true) line_parts ->
  (Frames.confirm_choice (Str.join "," line_parts) = Some line_parts
   <-> Forall (fun w => Words.comma_free w = true) line_parts).
Proof.
  intros N W. unfold Frames.confirm_choice.
  destruct line_parts as [| w ws]; [congruence|].
  assert (J : Str.join "," (w :: ws) <> EmptyString).
  { apply DialogFacts.join_not_empty. inversion W; subst.
    destruct w; [discriminate | discriminate]. }
  destruct (Str.join "," (w :: ws)) as [| c s] eqn:E; [congruence|].
  split.
  - intro H.
    assert (H' : Str.split_on "," (String c s) = w :: ws) by congruence.
    rewrite <- H'. apply DialogFacts.split_on_comma_free.
  - intro F. f_equal. rewrite <- E. apply DialogFacts.split_on_join; [discriminate | exact F].
Qed.

Lemma radio_value_round_trip_witness :
  Frames.confirm_choice (Str.join "," ["3"; "39.5"; "116.4"]%string)
  = Some ["3"; "39.5"; "116.4"]%string.
Proof.
  apply (proj2 (radio_value_round_trip ["3"; "39.5"; "116.4"]%string
                  ltac:(discriminate)
                  ltac:(repeat constructor))).
  repeat constructor.
Defined.

(** ** The output lines *)

Module DigitFacts.
Import Str Words StrFacts Fmt Chars.

Lemma all_app (p : ascii -> bool) (a b : string) :
  all p (a ++ b) = all p a && all p b.
Proof.
  induction a as [| c a IH]; simpl; [reflexivity|].
  now rewrite IH, andb_assoc.
Qed.

Lemma length_app (a b : string) :
  String.length (a ++ b) = (String.length a + String.length b)%nat.
Proof. induction a as [| c a IH]; simpl; congruence. Qed.

Lemma digit_isdigit (n : N) : (n < 10)%N -> isdigit (digit n) = true.
Proof.
  intro H.
  assert (C : In n [0; 1; 2; 3; 4; 5; 6; 7; 8; 9]%N).
  { destruct n as [| p]; [now left|].
    do 9 (destruct p as [p | p |]; try lia; try (simpl; tauto)). }
  simpl in C.
  repeat (destruct C as [<- | C]; [reflexivity|]). contradiction.
Qed.

Lemma digits_all (fuel : nat) (n : N) : all isdigit (digits fuel n) = true.
Proof.
  revert n. induction fuel as [| fuel IH]; intro n; simpl; [reflexivity|].
  destruct (N.ltb_spec n 10) as [L | L].
  - simpl. rewrite (digit_isdigit n L). reflexivity.
  - rewrite all_app, IH. simpl.
    rewrite digit_isdigit; [reflexivity|]. apply N.mod_lt. lia.
Qed.

Lemma digits_some (fuel : nat) (n : N) : digits (S fuel) n <> EmptyString.
Proof.
  simpl. destruct (n <? 10)%N; [discriminate|].
  destruct (digits fuel (n / 10)); discriminate.
Qed.

Lemma decimal_all (n : N) : all isdigit (decimal n) = true.
Proof. apply digits_all. Qed.

Lemma decimal_some (n : N) : decimal n <> EmptyString.
Proof. apply digits_some. Qed.

Lemma zeros_all (k : nat) : all isdigit (zeros k) = true.
Proof. induction k as [| k IH]; simpl; [reflexivity | exact IH]. Qed.

Lemma isdigit_numeric (c : ascii) : isdigit c = true -> numeric c = true.
Proof. intro H. unfold numeric. now rewrite H. Qed.

Lemma numeric_not_space (c : ascii) : numeric c = true -> negb (space c) = true.
Proof. each_char c; simpl; intro H; try reflexivity; discriminate H. Qed.

Lemma isdigit_not_space (c : ascii) : isdigit c = true -> negb (space c) = true.
Proof. intro H. apply numeric_not_space, isdigit_numeric, H. Qed.

Lemma capital_word_char (c : ascii) : capital c = true -> negb (space c) = true.
Proof. intro H. now rewrite (capital_not_space c H). Qed.

Lemma fixed_numeric (precision : nat) (x : Qc) :
  all numeric (fixed precision x) = true /\ fixed precision x <> EmptyString.
Proof.
  unfold fixed.
  set (n := round _). set (scale := (10 ^ Z.of_nat precision)%Z).
  split.
  - rewrite !all_app.
    rewrite (all_impl isdigit numeric _ isdigit_numeric (decimal_all _)).
    rewrite (all_impl isdigit numeric _ isdigit_numeric (zeros_all _)).
    rewrite (all_impl isdigit numeric _ isdigit_numeric (decimal_all _)).
    destruct (x <? $0); reflexivity.
  - destruct (x <? $0); [discriminate|]. simpl.
    pose proof (decimal_some (Z.to_N (n / scale))) as D.
    destruct (decimal (Z.to_N (n / scale))); [congruence | discriminate].
Qed.

Lemma word_of (p : ascii -> bool) (s : string) :
  (forall c, p c = true -> negb (space c) = true) ->
  s <> EmptyString -> all p s = true -> word s = true.
Proof.
  intros H N A. destruct s as [| c s]; [congruence|].
  unfold word. eapply all_impl; eauto.
Qed.

Lemma fixed_word (precision : nat) (x : Qc) : word (fixed precision x) = true.
Proof.
  destruct (fixed_numeric precision x) as [A N].
  exact (word_of numeric _ numeric_not_space N A).
Qed.

(** Three digits for 0 to 999, two for 0 to 99. *)
Lemma zero_padded_table (width : nat) :
  In width [2%nat; 3%nat] ->
  forallb (fun k =>
             (String.length (zero_padded width (Z.of_nat k)) =? width)%nat
             && all isdigit (zero_padded width (Z.of_nat k)))
    (seq 0 (10 ^ width)) = true.
Proof.
  intros [<- | [<- | []]]; vm_compute; reflexivity.
Qed.

Lemma zero_padded_width (width : nat) (n : Z) :
  In width [2%nat; 3%nat] -> (0 <= n < 10 ^ Z.of_nat width)%Z ->
  String.length (zero_padded width n) = width
  /\ all isdigit (zero_padded width n) = true.
Proof.
  intros W R.
  assert (I : In (Z.to_nat n) (seq 0 (10 ^ width))).
  { apply in_seq. split; [lia|].
    destruct W as [<- | [<- | []]].
    - change (10 ^ Z.of_nat 2)%Z with 100%Z in R.
      change (10 ^ 2)%nat with 100%nat. lia.
    - change (10 ^ Z.of_nat 3)%Z with 1000%Z in R.
      change (10 ^ 3)%nat with 1000%nat. lia. }
  pose proof (proj1 (forallb_forall _ _) (zero_padded_table width W)
                (Z.to_nat n) I) as H.
  cbv beta in H. rewrite Z2Nat.id in H by lia.
  apply andb_prop in H. destruct H as [H1 H2].
  apply Nat.eqb_eq in H1. auto.
Qed.

Lemma str_digits (n : Z) :
  (0 <= n)%Z -> all isdigit (str n) = true /\ str n <> EmptyString.
Proof.
  intro P. unfold str.
  destruct (Z.ltb_spec n 0); [lia|]. simpl.
  split; [apply decimal_all | apply decimal_some].
Qed.

End DigitFacts.

Module OutputFacts.
Import Py Str Words StrFacts Fmt Chars DigitFacts Frames.

Lemma app_assoc (a b c : string) : ((a ++ b) ++ c)%string = (a ++ (b ++ c))%string.
Proof. induction a as [| x a IH]; simpl; congruence. Qed.

Lemma wordy_app (a b : string) : wordy a -> wordy b -> wordy (a ++ b).
Proof. unfold wordy. intros A B. now rewrite all_app, A, B. Qed.

Lemma wordy_capital (s : string) : all capital s = true -> wordy s.
Proof. apply all_impl. exact capital_word_char. Qed.

Lemma wordy_digits (s : string) : all isdigit s = true -> wordy s.
Proof. apply all_impl. exact isdigit_not_space. Qed.

Lemma wordy_word (s : string) : s <> EmptyString -> wordy s -> word s = true.
Proof. intros N W. destruct s; [congruence | exact W]. Qed.

Lemma app_some_l (a b : string) : a <> EmptyString -> (a ++ b)%string <> EmptyString.
Proof. destruct a; [congruence | discriminate]. Qed.

Lemma app_some_r (a b : string) : b <> EmptyString -> (a ++ b)%string <> EmptyString.
Proof. destruct a; [trivial | discriminate]. Qed.

Lemma prefix_all (p : ascii -> bool) (n : nat) (s : string) :
  all p s = true -> all p (prefix n s) = true.
Proof.
  revert s. induction n as [| n IH]; intros [| c s]; simpl; try reflexivity.
  intro A. apply andb_prop in A. destruct A as [A1 A2].
  now rewrite A1, (IH s A2).
Qed.

Lemma prefix_length (n : nat) (s : string) :
  (n <= String.length s)%nat -> String.length (prefix n s) = n.
Proof.
  revert s. induction n as [| n IH]; intros [| c s]; simpl; try reflexivity;
    try lia.
  intro L. rewrite IH; lia.
Qed.

Lemma length_some (s : string) : (0 < String.length s)%nat -> s <> EmptyString.
Proof. destruct s; simpl; [lia | discriminate]. Qed.

(** The codes of the three tables are words. *)
Lemma code_word (d : list (string * string)) (key v : string) :
  In d [OPERATION_CODES; FIX_TYPE_CODES; FIX_USAGE_CODES] ->
  get d key = Some v -> word v = true.
Proof.
  intros [<- | [<- | [<- | []]]]; unfold get, OPERATION_CODES, FIX_TYPE_CODES,
    FIX_USAGE_CODES;
    repeat (match goal with
            | |- context [String.eqb ?a key] => destruct (String.eqb a key)
            end; [intro E; inversion E; reflexivity|]);
    discriminate.
Qed.

(** The codes of a FIX type and of a FIX usage are one letter. *)
Lemma code_letter (d : list (string * string)) (key v : string) :
  In d [FIX_TYPE_CODES; FIX_USAGE_CODES] ->
  get d key = Some v -> String.length v = 1%nat /\ all capital v = true.
Proof.
  intros [<- | [<- | []]]; unfold get, FIX_TYPE_CODES, FIX_USAGE_CODES;
    repeat (match goal with
            | |- context [String.eqb ?a key] => destruct (String.eqb a key)
            end; [intro E; inversion E; split; reflexivity|]);
    discriminate.
Qed.

Lemma letter_word (l : string) :
  Letters.capital l = true -> String.length l = 1%nat /\ all capital l = true.
Proof.
  destruct l as [| c [| c' l]]; simpl; try discriminate.
  intro H. split; [reflexivity|]. unfold capital, code. now rewrite H.
Qed.

Lemma coordinates_str_words (c : VorFixCalculation.Coordinates) (rest : list string) :
  Forall (fun w => word w = true) rest -> rest <> [] ->
  split (Coordinates_str c ++ " " ++ join " " rest)
  = fixed 9 (VorFixCalculation.lat c) :: fixed 9 (VorFixCalculation.lon c) :: rest.
Proof.
  intros F N. unfold Coordinates_str.
  rewrite !app_assoc.
  change (fixed 9 (VorFixCalculation.lat c) ++ " " ++
          fixed 9 (VorFixCalculation.lon c) ++ " " ++ join " " rest)%string
    with (fixed 9 (VorFixCalculation.lat c)
          ++ String " " (fixed 9 (VorFixCalculation.lon c)
                         ++ String " " (join " " rest)))%string.
  rewrite split_word_then by apply fixed_word.
  rewrite split_word_then by apply fixed_word.
  now rewrite split_join.
Qed.

End OutputFacts.

Module WaypointRun.
Import Py Str Words StrFacts Fmt Chars DigitFacts Frames OutputFacts WaypointLine.

Lemma bearing_digits (bearing : Qc) :
  $0 <= bearing -> bearing < $360 ->
  String.length (zero_padded 3 (Num.int bearing)) = 3%nat
  /\ all isdigit (zero_padded 3 (Num.int bearing)) = true.
Proof.
  intros L U. apply zero_padded_width; [right; left; reflexivity|].
  assert ((0 <= Num.int bearing < 360)%Z).
  { apply FmtFacts.int_range; [exact L | exact U]. }
  change (10 ^ Z.of_nat 3)%Z with 1000%Z. lia.
Qed.

Lemma name_word (bearing distance_nm : Qc) (vor_identifier : string) :
  $0 <= bearing -> bearing < $360 -> $0 < distance_nm ->
  all capital vor_identifier = true ->
  word (name bearing distance_nm vor_identifier) = true.
Proof.
  intros L U P V. unfold name.
  destruct (ltb_spec $26.5 distance_nm) as [D | D].
  - assert (R : (0 <= round distance_nm)%Z)
      by (pose proof (FmtFacts.round_above _ D); lia).
    destruct (str_digits _ R) as [S1 S2].
    apply wordy_word; [apply app_some_r; exact S2|].
    apply wordy_app; [apply wordy_capital; exact V | apply wordy_digits; exact S1].
  - destruct (bearing_digits bearing L U) as [_ B].
    destruct (letter_word _ (LettersFacts.letter_capital distance_nm)) as [_ C].
    apply wordy_word; [discriminate|].
    apply (wordy_app "D"); [reflexivity|].
    apply wordy_app; [apply wordy_digits; exact B | apply wordy_capital; exact C].
Qed.

Lemma reference_words (bearing distance_nm : Qc) (vor_identifier : string) :
  $0 <= bearing -> bearing < $360 -> $0 < distance_nm ->
  all capital vor_identifier = true ->
  Forall (fun w => word w = true) (reference bearing distance_nm vor_identifier).
Proof.
  intros L U P V. unfold reference.
  destruct vor_identifier as [| c s] eqn:E; [constructor|].
  rewrite <- E in *. constructor; [| constructor].
  apply wordy_word; [apply app_some_l; congruence|].
  apply wordy_app; [apply wordy_capital; exact V|].
  destruct (bearing_digits bearing L U) as [_ B].
  apply wordy_app; [apply wordy_digits; exact B|].
  apply wordy_digits. unfold zero_padded.
  assert (R : (0 <= round distance_nm)%Z).
  { pose proof (FmtFacts.round_near distance_nm).
    assert (0 <= Num.floor distance_nm)%Z; [| lia].
    destruct (FmtFacts.floor_spec distance_nm) as [_ F].
    assert (0 < Num.floor distance_nm + 1)%Z; [| lia].
    apply FmtFacts.of_Z_lt_inv. change (Num.of_Z 0) with $0.
    eapply Qclt_trans; eauto. }
  destruct (Z.ltb_spec (round distance_nm) 0); [lia|].
  simpl. rewrite all_app, zeros_all, decimal_all. reflexivity.
Qed.

End WaypointRun.

(** X22: the line [calculate] puts out.  For a bearing from 0 up to 360, a
    positive distance, an airport code of four capital letters and a VOR
    identifier of capital letters, the line splits at whitespace into the
    latitude and the longitude with nine decimals, the name of the waypoint,
    the airport code, its first two letters, the operation code and, with a
    VOR identifier, the reference.  Up to 26.5 NM the name is "D", the
    truncated bearing in three digits and the radius letter, five
    characters in all; above, it is the VOR identifier followed by the
    rounded distance, which is at least 27. *)
Theorem waypoint_output_fields (target_coords : VorFixCalculation.Coordinates)
  (bearing distance_nm : Qc)
  (airport_code vor_identifier operation_type out : string) :
  $0 <= bearing -> bearing < $360 -> $0 < distance_nm ->
  String.length airport_code = 4%nat ->
  Str.all Str.capital airport_code = true ->
  Str.all Str.capital vor_identifier = true ->
  WaypointCalculationFrame.output target_coords bearing distance_nm
    airport_code vor_identifier operation_type = Py.Return out ->
  exists operation_code,
    Frames.get Frames.OPERATION_CODES operation_type = Some operation_code
    /\ Str.split out
       = Fmt.fixed 9 (VorFixCalculation.lat target_coords)
         :: Fmt.fixed 9 (VorFixCalculation.lon target_coords)
         :: WaypointLine.name bearing distance_nm vor_identifier
         :: airport_code :: Str.prefix 2 airport_code :: operation_code
         :: WaypointLine.reference bearing distance_nm vor_identifier
    /\ (distance_nm <= $26.5 ->
        String.length (WaypointLine.name bearing distance_nm vor_identifier)
        = 5%nat)
    /\ ($26.5 < distance_nm -> (27 <= Fmt.round distance_nm)%Z).
Proof.
  intros L U P A4 AC VC O.
  unfold WaypointCalculationFrame.output, Frames.item in O.
  destruct (Frames.get Frames.OPERATION_CODES operation_type) as [op |] eqn:G;
    [| discriminate].
  exists op. split; [reflexivity|].
  assert (W : Forall (fun w => Words.word w = true)
                (WaypointLine.name bearing distance_nm vor_identifier
                 :: airport_code :: Str.prefix 2 airport_code :: op
                 :: WaypointLine.reference bearing distance_nm vor_identifier)).
  { constructor; [apply WaypointRun.name_word; assumption|].
    constructor.
    { apply OutputFacts.wordy_word;
        [apply OutputFacts.length_some; lia | apply OutputFacts.wordy_capital; exact AC]. }
    constructor.
    { apply OutputFacts.wordy_word.
      - apply OutputFacts.length_some.
        rewrite OutputFacts.prefix_length; lia.
      - apply OutputFacts.wordy_capital, OutputFacts.prefix_all. exact AC. }
    constructor.
    { apply (OutputFacts.code_word Frames.OPERATION_CODES operation_type);
        [left; reflexivity | exact G]. }
    apply WaypointRun.reference_words; assumption. }
  split; [| split].
  - rewrite <- (OutputFacts.coordinates_str_words target_coords _ W)
      by discriminate.
    f_equal. unfold WaypointLine.name, WaypointLine.reference.
    destruct (Num.ltb $26.5 distance_nm);
      destruct vor_identifier as [| c s]; injection O as <-;
      cbn [Str.join];
      repeat (first [rewrite OutputFacts.app_assoc | progress cbn [append]]);
      reflexivity.
  - intro D. unfold WaypointLine.name.
    rewrite (proj2 (ltb_false _ _) D).
    destruct (WaypointRun.bearing_digits bearing L U) as [B _].
    destruct (OutputFacts.letter_word _ (LettersFacts.letter_capital distance_nm))
      as [C _].
    rewrite !DigitFacts.length_app, B, C. reflexivity.
  - apply FmtFacts.round_above.
Qed.

Lemma waypoint_output_fields_witness :
  exists out,
    WaypointCalculationFrame.output
      {| VorFixCalculation.lat := $39.5; VorFixCalculation.lon := $116.4 |}
      $90.5 $12.3 "ZBAA" "PEK" "Arrival" = Py.Return out
    /\ Str.split out
       = ["39.500000000"; "116.400000000"; "D090L"; "ZBAA"; "ZB"; "4530249";
          "PEK090012"]%string.
Proof.
  eexists. split; [reflexivity|].
  destruct (waypoint_output_fields
              {| VorFixCalculation.lat := $39.5; VorFixCalculation.lon := $116.4 |}
              $90.5 $12.3 "ZBAA" "PEK" "Arrival" _
              ltac:(vm_compute; discriminate) ltac:(vm_compute; reflexivity)
              ltac:(vm_compute; reflexivity) eq_refl eq_refl eq_refl eq_refl)
    as [op [G [S _]]].
  rewrite S. inversion G. vm_compute. reflexivity.
Defined.

Module FixRun.
Import Py Str Words StrFacts Fmt Chars DigitFacts Frames OutputFacts InputValidator.

Lemma airport_returns (s code : string) :
  validate_airport_code s = Return code ->
  String.length code = 4%nat /\ all capital code = true.
Proof.
  unfold validate_airport_code.
  set (c := upper (strip s)).
  destruct (Z.eqb_spec (len c) 4) as [L | L]; simpl; [| discriminate].
  destruct (isalpha c) eqn:A; simpl; [| discriminate].
  intro E. inversion E; subst code.
  split; [unfold len in L; lia|].
  apply all_upper_capital, ValidatorFacts.isalpha_all. exact A.
Qed.

Lemma runway_returns (int : string -> IntParse) (s : string) (runway : Z) :
  validate_runway_code int s = Return runway -> (0 <= runway <= 99)%Z.
Proof.
  unfold validate_runway_code. destruct (int s) as [n | |]; try discriminate.
  destruct (Z.leb_spec 0 n); simpl; [| discriminate].
  destruct (Z.leb_spec n 99); simpl; [| discriminate].
  intro E. inversion E. lia.
Qed.

Lemma Coordinates_raises (lat lon : pyfloat) (e : Exception) :
  Coordinates_ lat lon = Throw e -> exists l x, e = OutOfRange l x.
Proof.
  unfold Coordinates_.
  destruct (negb _); [intro E; inversion E; eauto|].
  destruct (negb _); [intro E; inversion E; eauto|].
  destruct lat, lon; intro E; inversion E; eauto.
Qed.

Lemma validators_raise_ValueError (float : string -> option pyfloat)
  (int : string -> IntParse) (s : string) (e : Exception) :
  validate_coordinates float s = Throw e
  \/ validate_runway_code int s = Throw e
  \/ validate_airport_code s = Throw e ->
  Py.is_ValueError e = true.
Proof.
  intros [V | [V | V]].
  - unfold validate_coordinates in V.
    destruct (strip s) as [| c0 s0]; [inversion V; reflexivity|].
    destruct (split _) as [| a [| b [| ? ?]]]; try (inversion V; reflexivity).
    destruct (float a); [| inversion V; reflexivity].
    destruct (float b); [| inversion V; reflexivity].
    destruct (Coordinates_ _ _) as [c | x] eqn:C; [discriminate|].
    destruct (Coordinates_raises _ _ _ C) as [l [y ->]].
    inversion V; reflexivity.
  - unfold validate_runway_code in V.
    destruct (int s); try (inversion V; reflexivity).
    destruct (negb _); inversion V; reflexivity.
  - unfold validate_airport_code in V.
    destruct (negb _); [inversion V; reflexivity|].
    destruct (negb _); inversion V; reflexivity.
Qed.

End FixRun.

(** X23: the line [calculate_fix] puts out.  When it calls back, the three
    entries passed their validators, and the line splits at whitespace into
    the latitude and the longitude with nine decimals, the name of the fix,
    the airport code, its first two letters and the operation code.  The
    name has four characters: the letter of the usage, the letter of the
    type and the runway in two digits. *)
Theorem calculate_fix_fields (float : string -> option Py.pyfloat)
  (int : string -> Py.IntParse)
  (entry_fix_coords entry_runway_code entry_fix_airport_code : string)
  (combo_fix_type combo_fix_usage combo_fix_operation_type now : string)
  (result : FixCalculationFrame.CalculationResult) :
  Str.ascii_only entry_fix_coords = true ->
  Str.ascii_only entry_fix_airport_code = true ->
  FixCalculationFrame.calculate_fix float int entry_fix_coords entry_runway_code
    entry_fix_airport_code combo_fix_type combo_fix_usage
    combo_fix_operation_type now
  = FixCalculationFrame.Calculated result ->
  exists runway_code airport_code fix_code usage_code operation_code,
    InputValidator.validate_coordinates float entry_fix_coords
    = Py.Return (FixCalculationFrame.coordinates result)
    /\ InputValidator.validate_runway_code int entry_runway_code
       = Py.Return runway_code
    /\ InputValidator.validate_airport_code entry_fix_airport_code
       = Py.Return airport_code
    /\ Frames.get Frames.FIX_TYPE_CODES combo_fix_type = Some fix_code
    /\ Frames.get Frames.FIX_USAGE_CODES combo_fix_usage = Some usage_code
    /\ Frames.get Frames.OPERATION_CODES combo_fix_operation_type
       = Some operation_code
    /\ Str.split (FixCalculationFrame.output_string result)
       = [ Fmt.fixed 9 (VorFixCalculation.lat (FixCalculationFrame.coordinates result));
           Fmt.fixed 9 (VorFixCalculation.lon (FixCalculationFrame.coordinates result));
           (usage_code ++ fix_code ++ Fmt.zero_padded 2 runway_code)%string;
           airport_code; Str.prefix 2 airport_code; operation_code ]
    /\ String.length (usage_code ++ fix_code ++ Fmt.zero_padded 2 runway_code)
       = 4%nat
    /\ FixCalculationFrame.timestamp result = now
    /\ FixCalculationFrame.mode result = FixCalculationFrame.FIX_MODE.
Proof.
  intros _ _ C. unfold FixCalculationFrame.calculate_fix, Frames.item in C.
  destruct (InputValidator.validate_coordinates float entry_fix_coords)
    as [coordinates | e] eqn:V1;
    [| unfold FixCalculationFrame.handle in C; destruct (_ e); discriminate].
  destruct (InputValidator.validate_runway_code int entry_runway_code)
    as [runway_code | e] eqn:V2;
    [| unfold FixCalculationFrame.handle in C; destruct (_ e); discriminate].
  destruct (InputValidator.validate_airport_code entry_fix_airport_code)
    as [airport_code | e] eqn:V3;
    [| unfold FixCalculationFrame.handle in C; destruct (_ e); discriminate].
  destruct (Frames.get Frames.FIX_TYPE_CODES combo_fix_type)
    as [fix_code |] eqn:G1; [| discriminate].
  destruct (Frames.get Frames.FIX_USAGE_CODES combo_fix_usage)
    as [usage_code |] eqn:G2; [| discriminate].
  destruct (Frames.get Frames.OPERATION_CODES combo_fix_operation_type)
    as [operation_code |] eqn:G3; [| discriminate].
  injection C as <-. cbn [FixCalculationFrame.coordinates
    FixCalculationFrame.output_string FixCalculationFrame.timestamp
    FixCalculationFrame.mode].
  exists runway_code, airport_code, fix_code, usage_code, operation_code.
  destruct (FixRun.airport_returns _ _ V3) as [A4 AC].
  pose proof (FixRun.runway_returns _ _ _ V2) as R.
  destruct (OutputFacts.code_letter Frames.FIX_TYPE_CODES _ _
              ltac:(left; reflexivity) G1) as [T1 TC].
  destruct (OutputFacts.code_letter Frames.FIX_USAGE_CODES _ _
              ltac:(right; left; reflexivity) G2) as [U1 UC].
  destruct (DigitFacts.zero_padded_width 2 runway_code
              ltac:(left; reflexivity)
              ltac:(change (10 ^ Z.of_nat 2)%Z with 100%Z; lia)) as [Z2 ZD].
  assert (W : Forall (fun w => Words.word w = true)
                [ (usage_code ++ fix_code ++ Fmt.zero_padded 2 runway_code)%string;
                  airport_code; Str.prefix 2 airport_code; operation_code ]).
  { constructor.
    { apply OutputFacts.wordy_word;
        [apply OutputFacts.app_some_l, OutputFacts.length_some; lia|].
      apply OutputFacts.wordy_app; [apply OutputFacts.wordy_capital; exact UC|].
      apply OutputFacts.wordy_app;
        [apply OutputFacts.wordy_capital; exact TC
        | apply OutputFacts.wordy_digits; exact ZD]. }
    constructor.
    { apply OutputFacts.wordy_word;
        [apply OutputFacts.length_some; lia
        | apply OutputFacts.wordy_capital; exact AC]. }
    constructor.
    { apply OutputFacts.wordy_word.
      - apply OutputFacts.length_some. rewrite OutputFacts.prefix_length; lia.
      - apply OutputFacts.wordy_capital, OutputFacts.prefix_all. exact AC. }
    constructor; [| constructor].
    apply (OutputFacts.code_word Frames.OPERATION_CODES combo_fix_operation_type);
      [left; reflexivity | exact G3]. }
  repeat (split; [reflexivity|]).
  split; [| split; [| split; reflexivity]].
  - rewrite <- (OutputFacts.coordinates_str_words coordinates _ W) by discriminate.
    f_equal. cbn [Str.join].
    repeat (first [rewrite OutputFacts.app_assoc | progress cbn [append]]).
    reflexivity.
  - rewrite !DigitFacts.length_app, U1, T1, Z2. reflexivity.
Qed.

Lemma calculate_fix_fields_witness :
  exists result,
    FixCalculationFrame.calculate_fix Literals.float Literals.int
      " 39.5  116.4 " "7" "zbaa" "VORDME" "Final approach fix" "Approach"
      "2024-01-01 00:00:00" = FixCalculationFrame.Calculated result
    /\ Str.split (FixCalculationFrame.output_string result)
       = ["39.500000000"; "116.400000000"; "FD07"; "ZBAA"; "ZB"; "4595785"]%string.
Proof.
  eexists. split; [reflexivity|].
  destruct (calculate_fix_fields Literals.float Literals.int
              " 39.5  116.4 " "7" "zbaa" "VORDME" "Final approach fix" "Approach"
              "2024-01-01 00:00:00" _ eq_refl eq_refl eq_refl)
    as [r [a [f [u [o [_ [V2 [V3 [G1 [G2 [G3 [S _]]]]]]]]]]]].
  rewrite S. inversion V2. inversion V3. inversion G1. inversion G2. inversion G3.
  vm_compute. reflexivity.
Defined.

(** X24: the dialogs of [calculate_fix].  "Input Error" is shown with a
    [ValueError], which comes from one of the three validators;
    "Calculation Error" is shown with the [KeyError] of a combobox text that
    is not a key of its table. *)
Theorem calculate_fix_dialogs (float : string -> option Py.pyfloat)
  (int : string -> Py.IntParse)
  (entry_fix_coords entry_runway_code entry_fix_airport_code : string)
  (combo_fix_type combo_fix_usage combo_fix_operation_type now : string) :
  let shown :=
    FixCalculationFrame.calculate_fix float int entry_fix_coords
      entry_runway_code entry_fix_airport_code combo_fix_type combo_fix_usage
      combo_fix_operation_type now in
  (forall e, shown = FixCalculationFrame.InputError e ->
     InputValidator.validate_coordinates float entry_fix_coords = Py.Throw e
     \/ InputValidator.validate_runway_code int entry_runway_code = Py.Throw e
     \/ InputValidator.validate_airport_code entry_fix_airport_code = Py.Throw e)
  /\ (forall e, shown = FixCalculationFrame.CalculationError e ->
        (e = Py.KeyError combo_fix_type
         /\ Frames.get Frames.FIX_TYPE_CODES combo_fix_type = None)
        \/ (e = Py.KeyError combo_fix_usage
            /\ Frames.get Frames.FIX_USAGE_CODES combo_fix_usage = None)
        \/ (e = Py.KeyError combo_fix_operation_type
            /\ Frames.get Frames.OPERATION_CODES combo_fix_operation_type = None)).
Proof.
  intro shown. subst shown.
  unfold FixCalculationFrame.calculate_fix, Frames.item.
  destruct (InputValidator.validate_coordinates float entry_fix_coords)
    as [coordinates | e1] eqn:V1.
  2:{ pose proof (FixRun.validators_raise_ValueError float int _ _ (or_introl V1)) as H.
      unfold FixCalculationFrame.handle. rewrite H.
      split; intros e E; inversion E; subst; auto. }
  destruct (InputValidator.validate_runway_code int entry_runway_code)
    as [runway_code | e2] eqn:V2.
  2:{ pose proof (FixRun.validators_raise_ValueError float int _ _
                    (or_intror (or_introl V2))) as H.
      unfold FixCalculationFrame.handle. rewrite H.
      split; intros e E; inversion E; subst; auto. }
  destruct (InputValidator.validate_airport_code entry_fix_airport_code)
    as [airport_code | e3] eqn:V3.
  2:{ pose proof (FixRun.validators_raise_ValueError float int _ _
                    (or_intror (or_intror V3))) as H.
      unfold FixCalculationFrame.handle. rewrite H.
      split; intros e E; inversion E; subst; auto. }
  destruct (Frames.get Frames.FIX_TYPE_CODES combo_fix_type) eqn:G1;
    [| split; intros e E; inversion E; subst; auto].
  destruct (Frames.get Frames.FIX_USAGE_CODES combo_fix_usage) eqn:G2;
    [| split; intros e E; inversion E; subst; auto].
  destruct (Frames.get Frames.OPERATION_CODES combo_fix_operation_type) eqn:G3;
    [| split; intros e E; inversion E; subst; auto].
  split; intros e E; discriminate.
Qed.

(** ** Coordinates as text *)

Module DecimalFacts.
Import Str Chars Py Fmt Decimal StrFacts DigitFacts FmtFacts.

Lemma number_app (a b : string) (acc : N) :
  number acc (a ++ b)
  = match number acc a with
    | Some n => number n b
    | None => None
    end.
Proof.
  revert acc. induction a as [| c a IH]; intro acc; [reflexivity|].
  simpl. destruct (isdigit c); [apply IH | reflexivity].
Qed.

Lemma digit_code (n : N) : (n < 10)%N -> (code (digit n) - 48 = n)%N.
Proof.
  intro H.
  assert (C : In n [0; 1; 2; 3; 4; 5; 6; 7; 8; 9]%N).
  { destruct n as [| p]; [now left|].
    do 9 (destruct p as [p | p |]; try lia; try (simpl; tauto)). }
  simpl in C.
  repeat (destruct C as [<- | C]; [reflexivity|]). contradiction.
Qed.

Lemma number_digits (fuel : nat) (n acc : N) :
  (n < 10 ^ N.of_nat fuel)%N ->
  number acc (digits fuel n)
  = Some (acc * 10 ^ N.of_nat (String.length (digits fuel n)) + n)%N.
Proof.
  revert n acc. induction fuel as [| fuel IH]; intros n acc H.
  - simpl in H. assert (n = 0%N) by lia. subst. simpl. f_equal. lia.
  - cbn [digits]. destruct (N.ltb_spec n 10) as [L | L].
    + cbn [number String.length]. rewrite (digit_isdigit n L), (digit_code n L).
      cbn [number]. f_equal. change (N.of_nat 1) with 1%N. lia.
    + rewrite number_app, IH.
      2:{ rewrite Nat2N.inj_succ, N.pow_succ_r' in H.
          apply N.Div0.div_lt_upper_bound. exact H. }
      cbn [number]. assert (M : (n mod 10 < 10)%N) by (apply N.mod_lt; lia).
      rewrite (digit_isdigit _ M), (digit_code _ M).
      rewrite length_app. cbn [String.length].
      rewrite Nat.add_1_r, Nat2N.inj_succ, N.pow_succ_r'. f_equal.
      pose proof (N.div_mod n 10 ltac:(lia)). lia.
Qed.

Lemma decimal_fuel (n : N) : (n < 10 ^ N.of_nat (S (N.to_nat (N.log2 n))))%N.
Proof.
  rewrite Nat2N.inj_succ, N2Nat.id.
  destruct n as [| p]; [reflexivity|].
  pose proof (N.log2_spec (N.pos p) ltac:(lia)) as [_ U].
  eapply N.lt_le_trans; [exact U|].
  apply N.pow_le_mono_l. lia.
Qed.

Lemma number_decimal (n : N) : number 0 (decimal n) = Some n.
Proof.
  unfold decimal. rewrite number_digits by apply decimal_fuel. f_equal; lia.
Qed.

Lemma natural_decimal (n : N) : natural (decimal n) = Some n.
Proof.
  unfold natural. pose proof (decimal_some n) as S.
  destruct (decimal n) eqn:E; [congruence|]. rewrite <- E. apply number_decimal.
Qed.

Lemma digits_length (fuel k : nat) (n : N) :
  (1 <= k)%nat -> (n < 10 ^ N.of_nat k)%N ->
  (String.length (digits fuel n) <= k)%nat.
Proof.
  revert k n. induction fuel as [| fuel IH]; intros k n K H; [simpl; lia|].
  cbn [digits]. destruct (N.ltb_spec n 10) as [L | L]; [simpl; lia|].
  rewrite length_app. cbn [String.length].
  destruct k as [| k]; [lia|].
  destruct k as [| k].
  - change (10 ^ N.of_nat 1)%N with 10%N in H. lia.
  - specialize (IH (S k) (n / 10)%N ltac:(lia)).
    rewrite (Nat2N.inj_succ (S k)), N.pow_succ_r' in H.
    specialize (IH (N.Div0.div_lt_upper_bound _ _ _ H)). lia.
Qed.

Lemma number_zeros (k : nat) (s : string) : number 0 (zeros k ++ s) = number 0 s.
Proof. induction k as [| k IH]; [reflexivity | exact IH]. Qed.

Lemma zeros_length (k : nat) : String.length (zeros k) = k.
Proof. induction k as [| k IH]; simpl; congruence. Qed.


Lemma split_on_free (sep : ascii) (w : string) :
  free sep w = true -> split_on sep w = w :: nil.
Proof.
  induction w as [| c w IH]; [reflexivity|].
  intro F. apply andb_prop in F. destruct F as [F1 F2].
  apply negb_true_iff in F1. cbn [split_on]. rewrite F1, (IH F2). reflexivity.
Qed.

Lemma split_on_free_then (sep : ascii) (w t : string) :
  free sep w = true -> split_on sep (w ++ String sep t) = w :: split_on sep t.
Proof.
  induction w as [| c w IH].
  - intros _. cbn [append split_on]. now rewrite Ascii.eqb_refl.
  - intro F. apply andb_prop in F. destruct F as [F1 F2].
    apply negb_true_iff in F1. cbn [append split_on]. rewrite F1, (IH F2).
    reflexivity.
Qed.

Lemma isdigit_no_point (c : ascii) :
  isdigit c = true -> negb (Ascii.eqb c ".") = true.
Proof. each_char c; simpl; intro H; try reflexivity; discriminate H. Qed.

Lemma isdigit_no_minus (c : ascii) : isdigit c = true -> Ascii.eqb c "-" = false.
Proof. each_char c; simpl; intro H; try reflexivity; discriminate H. Qed.

Lemma digits_free (s : string) : all isdigit s = true -> free "." s = true.
Proof. apply StrFacts.all_impl. exact isdigit_no_point. Qed.

Lemma of_Z_plus (a b : Z) : Num.of_Z (a + b) = Num.of_Z a + Num.of_Z b.
Proof.
  unfold Num.of_Z. apply Qc_is_canon. qc_push. rewrite inject_Z_plus.
  reflexivity.
Qed.

Lemma of_Z_mult (a b : Z) : Num.of_Z (a * b) = Num.of_Z a * Num.of_Z b.
Proof.
  unfold Num.of_Z. apply Qc_is_canon. qc_push. rewrite inject_Z_mult.
  reflexivity.
Qed.

Lemma pow10_of_Z (k : nat) : pow10 k = Num.of_Z (10 ^ Z.of_nat k).
Proof.
  induction k as [| k IH]; [reflexivity|].
  cbn [pow10]. rewrite IH, Nat2Z.inj_succ, Z.pow_succ_r by lia.
  rewrite of_Z_mult. reflexivity.
Qed.

Lemma of_Z_pos (a : Z) : (0 < a)%Z -> Num.of_Z a <> $0.
Proof.
  intros H E. assert (L : Num.of_Z 0 < Num.of_Z a).
  { unfold Num.of_Z, Qclt. rewrite !this_Q2Qc. rewrite <- Zlt_Qlt. exact H. }
  rewrite E in L. exact (Qclt_not_le _ _ L (Qcle_refl _)).
Qed.

(** Digits, a point and [p] digits denote the quotient by [10 ^ p]. *)
Lemma unsigned_fixed (p : nat) (n : Z) :
  (1 <= p)%nat -> (0 <= n)%Z ->
  let scale := (10 ^ Z.of_nat p)%Z in
  let frac := decimal (Z.to_N (n mod scale)) in
  unsigned (decimal (Z.to_N (n / scale)) ++ "."
            ++ zeros (p - String.length frac) ++ frac)
  = Some (Num.of_Z n / Num.of_Z scale).
Proof.
  intros P N scale frac.
  assert (S0 : (0 < scale)%Z) by (apply Z.pow_pos_nonneg; lia).
  assert (M : (0 <= n mod scale < scale)%Z) by (apply Z.mod_pos_bound; exact S0).
  assert (D : (0 <= n / scale)%Z) by (apply Z.div_pos; lia).
  assert (L : (String.length frac <= p)%nat).
  { apply digits_length; [exact P|].
    rewrite <- (N2Z.id (10 ^ N.of_nat p)). apply Z2N.inj_lt; lia. }
  unfold unsigned.
  change (decimal (Z.to_N (n / scale)) ++ "." ++ zeros (p - String.length frac) ++ frac)%string
    with (decimal (Z.to_N (n / scale))
          ++ String "." (zeros (p - String.length frac) ++ frac))%string.
  rewrite split_on_free_then by apply digits_free, decimal_all.
  rewrite split_on_free.
  2:{ apply digits_free. rewrite all_app, zeros_all. apply decimal_all. }
  rewrite natural_decimal.
  assert (F : natural (zeros (p - String.length frac) ++ frac)
              = Some (Z.to_N (n mod scale))).
  { unfold natural.
    destruct (zeros (p - String.length frac) ++ frac)%string eqn:E.
    - exfalso. apply (f_equal String.length) in E. rewrite length_app in E.
      pose proof (decimal_some (Z.to_N (n mod scale))) as S.
      fold frac in S. destruct frac; [congruence | simpl in E; lia].
    - rewrite <- E, number_zeros. apply number_decimal. }
  rewrite F. f_equal.
  rewrite length_app, zeros_length.
  replace (p - String.length frac + String.length frac)%nat with p by lia.
  rewrite pow10_of_Z. fold scale. rewrite !Z2N.id by lia.
  rewrite (Z.div_mod n scale) at 3 by lia.
  rewrite of_Z_plus, of_Z_mult.
  pose proof (of_Z_pos scale S0) as NZ.
  field. exact NZ.
Qed.

End DecimalFacts.

Module RoundFacts.
Import Str Chars Py Fmt Decimal StrFacts DigitFacts FmtFacts DecimalFacts.

Lemma of_Z_le_inv (a b : Z) : Num.of_Z a <= Num.of_Z b -> (a <= b)%Z.
Proof.
  unfold Num.of_Z, Qcle. rewrite !this_Q2Qc. rewrite <- Zle_Qle. trivial.
Qed.

(** [round] is within a half of its argument. *)
Lemma round_half (y : Qc) :
  y - $0.5 <= Num.of_Z (round y) /\ Num.of_Z (round y) <= y + $0.5.
Proof.
  destruct (floor_spec y) as [L U]. rewrite of_Z_succ in U.
  unfold round.
  destruct (ltb_spec (y - Num.of_Z (Num.floor y)) $0.5) as [A | A].
  - split; qc_lra.
  - destruct (ltb_spec $0.5 (y - Num.of_Z (Num.floor y))) as [B | B].
    + rewrite of_Z_succ. split; qc_lra.
    + destruct (Z.even (Num.floor y)); [| rewrite of_Z_succ]; split; qc_lra.
Qed.

Lemma round_nonneg (y : Qc) : $0 <= y -> (0 <= round y)%Z.
Proof.
  intro P. destruct (round_half y) as [L _].
  assert (H : Num.of_Z (-1) < Num.of_Z (round y)).
  { change (Num.of_Z (-1)) with (- $1). qc_lra. }
  apply of_Z_lt_inv in H. lia.
Qed.

Lemma round_le_int (y : Qc) (K : Z) : y <= Num.of_Z K -> (round y <= K)%Z.
Proof.
  intro H. pose proof (round_near y) as N.
  destruct (floor_spec y) as [L U].
  assert (F : (Num.floor y <= K)%Z).
  { apply of_Z_le_inv. eapply Qcle_trans; eauto. }
  destruct (Z.eq_dec (Num.floor y) K) as [E | E]; [| lia].
  unfold round. rewrite E in *.
  assert (R : y - Num.of_Z K < $0.5) by qc_lra.
  rewrite (proj2 (ltb_true _ _) R). lia.
Qed.

Lemma round_below (y : Qc) (K : Z) :
  y < Num.of_Z K - $0.5 -> (round y <= K - 1)%Z.
Proof.
  intro H. destruct (round_half y) as [_ U].
  assert (L : Num.of_Z (round y) < Num.of_Z K) by qc_lra.
  apply of_Z_lt_inv in L. lia.
Qed.

Lemma round_above_half (y : Qc) (K : Z) :
  Num.of_Z K - $0.5 < y -> (K <= round y)%Z.
Proof.
  intro H. destruct (round_half y) as [L _].
  assert (A : Num.of_Z (K - 1) < Num.of_Z (round y)).
  { replace (K - 1)%Z with (K + -1)%Z by lia. rewrite of_Z_plus.
    change (Num.of_Z (-1)) with (- $1). qc_lra. }
  apply of_Z_lt_inv in A. lia.
Qed.

Lemma value_digits (a rest : string) :
  all isdigit a = true -> a <> EmptyString ->
  value (a ++ rest) = unsigned (a ++ rest).
Proof.
  intros A N. destruct a as [| c a]; [congruence|].
  simpl in A. apply andb_prop in A. destruct A as [C _].
  cbn [append]. unfold value. now rewrite (isdigit_no_minus c C).
Qed.

Lemma scaled_nonneg (x : Qc) (scale : Z) :
  (0 < scale)%Z -> $0 <= Num.abs x * Num.of_Z scale.
Proof.
  intro S.
  assert (A : $0 <= Num.abs x) by apply Qcabs_nonneg.
  assert (B : $0 <= Num.of_Z scale).
  { change $0 with (Num.of_Z 0). apply of_Z_le. lia. }
  pose proof (Qcmult_le_compat_r _ _ _ A B) as H.
  replace ($0 * Num.of_Z scale) with $0 in H by ring. exact H.
Qed.

Lemma value_fixed (precision : nat) (x : Qc) :
  (1 <= precision)%nat ->
  value (fixed precision x) = Some (nearest precision x).
Proof.
  intro P. unfold fixed, nearest. cbv zeta.
  set (scale := (10 ^ Z.of_nat precision)%Z).
  assert (S0 : (0 < scale)%Z) by (apply Z.pow_pos_nonneg; lia).
  set (n := round (Num.abs x * Num.of_Z scale)).
  assert (N : (0 <= n)%Z) by (apply round_nonneg, scaled_nonneg, S0).
  pose proof (unsigned_fixed precision n P N) as U. cbv zeta in U. fold scale in U.
  cbn [append] in U.
  destruct (x <? $0).
  - cbn [append]. unfold value. rewrite Ascii.eqb_refl, U. reflexivity.
  - cbn [append]. rewrite value_digits; [exact U | apply decimal_all | apply decimal_some].
Qed.

End RoundFacts.

Module TextFacts.
Import Str Chars Py Fmt Decimal StrFacts DigitFacts FmtFacts DecimalFacts RoundFacts.

Lemma giga_value : Num.of_Z giga = $1000000000.
Proof. reflexivity. Qed.

(** Nine decimals are within half a unit of the ninth. *)
Lemma nearest_close (x : Qc) : Num.abs (nearest 9 x - x) <= $0.0000000005.
Proof.
  unfold nearest. fold giga. rewrite giga_value.
  destruct (round_half (Num.abs x * $1000000000)) as [L U].
  set (n := Num.of_Z (round (Num.abs x * $1000000000))) in *.
  unfold Num.abs in *.
  destruct (ltb_spec x $0) as [N | N].
  - rewrite (Qcabs_neg x) in * by (apply Qclt_le_weak; exact N).
    apply Qcabs_Qcle_condition. split; qc_lra.
  - rewrite (Qcabs_pos x) in * by exact N.
    apply Qcabs_Qcle_condition. split; qc_lra.
Qed.

(** A bound that is a whole number is kept. *)
Lemma nearest_bound (x : Qc) (K : Z) :
  (0 <= K)%Z -> - Num.of_Z K <= x -> x <= Num.of_Z K ->
  - Num.of_Z K <= nearest 9 x /\ nearest 9 x <= Num.of_Z K.
Proof.
  intros P L U. unfold nearest. fold giga.
  assert (A : Num.abs x <= Num.of_Z K).
  { unfold Num.abs. apply Qcabs_Qcle_condition. split; assumption. }
  assert (B : Num.abs x * Num.of_Z giga <= Num.of_Z (K * giga)).
  { rewrite of_Z_mult. apply Qcmult_le_compat_r; [exact A|].
    rewrite giga_value. qc_lra. }
  apply round_le_int in B.
  pose proof (round_nonneg _ (scaled_nonneg x giga eq_refl)) as C.
  set (n := round (Num.abs x * Num.of_Z giga)) in *.
  assert (D : Num.of_Z n <= Num.of_Z K * $1000000000).
  { rewrite <- giga_value, <- of_Z_mult. apply of_Z_le. exact B. }
  assert (E : $0 <= Num.of_Z n).
  { change $0 with (Num.of_Z 0). apply of_Z_le. exact C. }
  assert (F : $0 <= Num.of_Z K).
  { change $0 with (Num.of_Z 0). apply of_Z_le. exact P. }
  rewrite giga_value.
  destruct (x <? $0); split; qc_lra.
Qed.


(** Just above -180 the nine decimals are those of -180. *)
Lemma nearest_minus_180 (x : Qc) :
  - $180 < x ->
  (x <= - $179.9999999995 -> nearest 9 x = - $180)
  /\ (- $179.9999999995 < x -> - $180 < nearest 9 x).
Proof.
  intro L. unfold nearest. fold giga. split; intro H.
  - assert (N : x < $0) by qc_lra.
    rewrite (proj2 (ltb_true _ _) N).
    assert (A : Num.abs x = - x).
    { unfold Num.abs. apply Qcabs_neg, Qclt_le_weak, N. }
    rewrite A, giga_value.
    assert (R : round (- x * $1000000000) = 180000000000%Z).
    { apply Z.le_antisymm.
      - apply round_le_int. change (Num.of_Z 180000000000) with $180000000000.
        qc_lra.
      - destruct (Qc_eq_dec (- x * $1000000000) $179999999999.5) as [E | E].
        + rewrite E. vm_compute. discriminate.
        + apply round_above_half.
          change (Num.of_Z 180000000000) with $180000000000.
          assert (T : $179999999999.5 <= - x * $1000000000) by qc_lra.
          destruct (Qcle_lt_or_eq _ _ T) as [T' | T']; [qc_lra | congruence]. }
    rewrite R. apply Qc_is_canon. reflexivity.
  - destruct (ltb_spec x $0) as [N | N].
    + assert (A : Num.abs x = - x).
      { unfold Num.abs. apply Qcabs_neg, Qclt_le_weak, N. }
      rewrite A, giga_value.
      assert (R : (round (- x * $1000000000) <= 180000000000 - 1)%Z).
      { apply round_below. change (Num.of_Z 180000000000) with $180000000000.
        qc_lra. }
      apply of_Z_le in R.
      change (Num.of_Z (180000000000 - 1)) with $179999999999 in R.
      qc_lra.
    + pose proof (round_nonneg _ (scaled_nonneg x giga eq_refl)) as C.
      apply of_Z_le in C. change (Num.of_Z 0) with $0 in C.
      rewrite giga_value in *. qc_lra.
Qed.

Lemma float_reads : reads Decimal.float.
Proof. intros s x V _. unfold Decimal.float. now rewrite V. Qed.

Lemma within_float (x : Qc) : - $180 <= x -> x <= $180 -> Num.abs x < pow10 308.
Proof.
  intros L U. apply Qcle_lt_trans with $180.
  - unfold Num.abs. apply Qcabs_Qcle_condition. split; assumption.
  - vm_compute. reflexivity.
Qed.

(** What [float] reads from the nine decimals of a number up to 180 in
    size. *)
Lemma reads_fixed (float : string -> option pyfloat) (x : Qc) :
  reads float -> - $180 <= x -> x <= $180 ->
  float (fixed 9 x) = Some (Finite (nearest 9 x)).
Proof.
  intros R L U. apply R; [apply value_fixed; lia|].
  destruct (nearest_bound x 180 ltac:(lia) L U) as [A B].
  apply within_float; assumption.
Qed.

Lemma coordinates_str_split (c : VorFixCalculation.Coordinates) :
  split (Frames.Coordinates_str c)
  = fixed 9 (VorFixCalculation.lat c) :: fixed 9 (VorFixCalculation.lon c) :: nil.
Proof.
  unfold Frames.Coordinates_str.
  change (fixed 9 (VorFixCalculation.lat c) ++ " "
          ++ fixed 9 (VorFixCalculation.lon c))%string
    with (fixed 9 (VorFixCalculation.lat c)
          ++ String " " (fixed 9 (VorFixCalculation.lon c)))%string.
  rewrite split_word_then by apply fixed_word.
  now rewrite split_word by apply fixed_word.
Qed.

(** The text of coordinates, read again. *)
Lemma validate_coordinates_str (float : string -> option pyfloat)
  (c : VorFixCalculation.Coordinates) :
  reads float ->
  - $180 <= VorFixCalculation.lat c -> VorFixCalculation.lat c <= $180 ->
  - $180 <= VorFixCalculation.lon c -> VorFixCalculation.lon c <= $180 ->
  InputValidator.validate_coordinates float (Frames.Coordinates_str c)
  = match InputValidator.Coordinates_
            (Finite (nearest 9 (VorFixCalculation.lat c)))
            (Finite (nearest 9 (VorFixCalculation.lon c))) with
    | Return c' => Return c'
    | Throw (OutOfRange l x) => Throw (InvalidCoordinateFormat l x)
    | Throw e => Throw e
    end.
Proof.
  intros R La Lb Oa Ob. unfold InputValidator.validate_coordinates.
  rewrite split_strip, coordinates_str_split.
  destruct (strip (Frames.Coordinates_str c)) eqn:E.
  - apply strip_empty in E. rewrite coordinates_str_split in E. discriminate.
  - rewrite (reads_fixed float _ R La Lb), (reads_fixed float _ R Oa Ob).
    reflexivity.
Qed.

End TextFacts.

(** X25: coordinates written to an entry and read again.  Where [float]
    reads texts in fixed notation as the numbers they denote,
    [validate_coordinates] returns from the text [Coordinates.__str__] gives
    for coordinates in range the coordinates the text denotes, within half a
    unit of the ninth decimal of the original ones; unless the longitude is
    -179.9999999995 or below: its nine decimals are those of -180, which the
    constructor rejects, and the text of valid coordinates is turned down as
    an invalid coordinate format. *)
Theorem coordinates_text_round_trip (float : string -> option Py.pyfloat)
  (c : VorFixCalculation.Coordinates) :
  Decimal.reads float ->
  - $90 <= VorFixCalculation.lat c -> VorFixCalculation.lat c <= $90 ->
  - $180 < VorFixCalculation.lon c -> VorFixCalculation.lon c <= $180 ->
  let text := Frames.Coordinates_str c in
  (- $179.9999999995 < VorFixCalculation.lon c ->
   exists c',
     InputValidator.validate_coordinates float text = Py.Return c'
     /\ Decimal.value (Fmt.fixed 9 (VorFixCalculation.lat c))
        = Some (VorFixCalculation.lat c')
     /\ Decimal.value (Fmt.fixed 9 (VorFixCalculation.lon c))
        = Some (VorFixCalculation.lon c')
     /\ Num.abs (VorFixCalculation.lat c' - VorFixCalculation.lat c)
        <= $0.0000000005
     /\ Num.abs (VorFixCalculation.lon c' - VorFixCalculation.lon c)
        <= $0.0000000005)
  /\ (VorFixCalculation.lon c <= - $179.9999999995 ->
      InputValidator.validate_coordinates float text
      = Py.Throw (Py.InvalidCoordinateFormat false (Py.Finite (- $180)))).
Proof.
  intros R La Lb Oa Ob text. subst text.
  rewrite (TextFacts.validate_coordinates_str float c R)
    by (try assumption; try apply Qclt_le_weak; try assumption; qc_lra).
  rewrite ValidatorFacts.Coordinates_finite.
  destruct (TextFacts.nearest_bound (VorFixCalculation.lat c) 90 ltac:(lia) La Lb)
    as [A1 A2].
  destruct (TextFacts.nearest_bound (VorFixCalculation.lon c) 180 ltac:(lia)
              (Qclt_le_weak _ _ Oa) Ob) as [B1 B2].
  change (Num.of_Z 90) with $90 in *. change (Num.of_Z 180) with $180 in *.
  destruct (TextFacts.nearest_minus_180 _ Oa) as [E G].
  unfold VorFixCalculation.new_Coordinates.
  rewrite (proj2 (leb_true _ _) A1), (proj2 (leb_true _ _) A2).
  cbn [negb andb]. split; intro H.
  - rewrite (proj2 (ltb_true _ _) (G H)), (proj2 (leb_true _ _) B2).
    cbn [negb andb].
    eexists. split; [reflexivity|]. cbn [VorFixCalculation.lat VorFixCalculation.lon].
    rewrite !RoundFacts.value_fixed by lia.
    repeat split; apply TextFacts.nearest_close.
  - rewrite (E H). reflexivity.
Qed.

Lemma coordinates_text_round_trip_witness :
  (exists c',
      InputValidator.validate_coordinates Decimal.float
        (Frames.Coordinates_str
           {| VorFixCalculation.lat := $39.5; VorFixCalculation.lon := $116.4 |})
      = Py.Return c')
  /\ InputValidator.validate_coordinates Decimal.float
       (Frames.Coordinates_str
          {| VorFixCalculation.lat := $39.5;
             VorFixCalculation.lon := - $179.9999999999 |})
     = Py.Throw (Py.InvalidCoordinateFormat false (Py.Finite (- $180))).
Proof.
  split.
  - destruct (proj1 (coordinates_text_round_trip Decimal.float
                       {| VorFixCalculation.lat := $39.5;
                          VorFixCalculation.lon := $116.4 |}
                       TextFacts.float_reads
                       ltac:(vm_compute; discriminate) ltac:(vm_compute; discriminate)
                       ltac:(vm_compute; reflexivity) ltac:(vm_compute; discriminate))
                ltac:(vm_compute; reflexivity)) as [c' [V _]].
    exists c'. exact V.
  - apply (coordinates_text_round_trip Decimal.float
             {| VorFixCalculation.lat := $39.5;
                VorFixCalculation.lon := - $179.9999999999 |}
             TextFacts.float_reads);
      vm_compute; first [reflexivity | discriminate].
Defined.

Module CoreTextFacts.
Import Str Chars Py Fmt Decimal StrFacts DigitFacts FmtFacts DecimalFacts RoundFacts.

Lemma core_coordinates_str_split (c : CoreVorCalc.Coordinates) :
  split (CoreInputValidator.Coordinates_str c)
  = fixed 9 (CoreVorCalc.lat c) :: fixed 9 (CoreVorCalc.lon c) :: nil.
Proof.
  unfold CoreInputValidator.Coordinates_str.
  change (fixed 9 (CoreVorCalc.lat c) ++ " " ++ fixed 9 (CoreVorCalc.lon c))%string
    with (fixed 9 (CoreVorCalc.lat c)
          ++ String " " (fixed 9 (CoreVorCalc.lon c)))%string.
  rewrite split_word_then by apply fixed_word.
  now rewrite split_word by apply fixed_word.
Qed.

Lemma core_validate_coordinates_str (float : string -> option pyfloat)
  (c : CoreVorCalc.Coordinates) :
  reads float ->
  - $180 <= CoreVorCalc.lat c -> CoreVorCalc.lat c <= $180 ->
  - $180 <= CoreVorCalc.lon c -> CoreVorCalc.lon c <= $180 ->
  CoreInputValidator.validate_coordinates float (CoreInputValidator.Coordinates_str c)
  = match CoreInputValidator.Coordinates_
            (Finite (nearest 9 (CoreVorCalc.lat c)))
            (Finite (nearest 9 (CoreVorCalc.lon c))) with
    | Return c' => Return c'
    | Throw (OutOfRange l x) => Throw (InvalidCoordinateFormat l x)
    | Throw e => Throw e
    end.
Proof.
  intros R La Lb Oa Ob. unfold CoreInputValidator.validate_coordinates.
  rewrite split_strip, core_coordinates_str_split.
  destruct (strip (CoreInputValidator.Coordinates_str c)) eqn:E.
  - apply strip_empty in E. rewrite core_coordinates_str_split in E. discriminate.
  - rewrite (TextFacts.reads_fixed float _ R La Lb).
    rewrite (TextFacts.reads_fixed float _ R Oa Ob).
    reflexivity.
Qed.

End CoreTextFacts.

(** X26: in [core_vor_calc.py], whose constructor takes the longitude -180,
    the text of coordinates in range always reads back.  Where [float]
    reads texts in fixed notation as the numbers they denote,
    [validate_coordinates] returns from the text of [__str__] the
    coordinates the text denotes, within half a unit of the ninth decimal of
    the original ones. *)
Theorem core_coordinates_text_round_trip (float : string -> option Py.pyfloat)
  (c : CoreVorCalc.Coordinates) :
  Decimal.reads float ->
  - $90 <= CoreVorCalc.lat c -> CoreVorCalc.lat c <= $90 ->
  - $180 <= CoreVorCalc.lon c -> CoreVorCalc.lon c <= $180 ->
  exists c',
    CoreInputValidator.validate_coordinates float
      (CoreInputValidator.Coordinates_str c) = Py.Return c'
    /\ Decimal.value (Fmt.fixed 9 (CoreVorCalc.lat c)) = Some (CoreVorCalc.lat c')
    /\ Decimal.value (Fmt.fixed 9 (CoreVorCalc.lon c)) = Some (CoreVorCalc.lon c')
    /\ Num.abs (CoreVorCalc.lat c' - CoreVorCalc.lat c) <= $0.0000000005
    /\ Num.abs (CoreVorCalc.lon c' - CoreVorCalc.lon c) <= $0.0000000005.
Proof.
  intros R La Lb Oa Ob.
  rewrite (CoreTextFacts.core_validate_coordinates_str float c R)
    by (try assumption; qc_lra).
  destruct (TextFacts.nearest_bound (CoreVorCalc.lat c) 90 ltac:(lia) La Lb)
    as [A1 A2].
  destruct (TextFacts.nearest_bound (CoreVorCalc.lon c) 180 ltac:(lia) Oa Ob)
    as [B1 B2].
  change (Num.of_Z 90) with $90 in *. change (Num.of_Z 180) with $180 in *.
  unfold CoreInputValidator.Coordinates_, Py.le_const, Py.const_le.
  rewrite (proj2 (leb_true _ _) A1), (proj2 (leb_true _ _) A2).
  rewrite (proj2 (leb_true _ _) B1), (proj2 (leb_true _ _) B2).
  cbn [negb andb].
  eexists. split; [reflexivity|]. cbn [CoreVorCalc.lat CoreVorCalc.lon].
  rewrite !RoundFacts.value_fixed by lia.
  repeat split; apply TextFacts.nearest_close.
Qed.

Lemma core_coordinates_text_round_trip_witness :
  exists c',
    CoreInputValidator.validate_coordinates Decimal.float
      (CoreInputValidator.Coordinates_str
         {| CoreVorCalc.lat := $39.5; CoreVorCalc.lon := - $179.9999999999 |})
    = Py.Return c'.
Proof.
  destruct (core_coordinates_text_round_trip Decimal.float
              {| CoreVorCalc.lat := $39.5; CoreVorCalc.lon := - $179.9999999999 |}
              TextFacts.float_reads
              ltac:(vm_compute; discriminate) ltac:(vm_compute; discriminate)
              ltac:(vm_compute; discriminate) ltac:(vm_compute; discriminate))
    as [c' [V _]].
  exists c'. exact V.
Defined.

(** ** The calculation from a DME *)

Module DmeRun.
Import Py VorFixCalculation.

Section WithQuery.

Variable GEODESIC : Geodesic.
Variables (fix_coords : Coordinates) (true_bearing : Qc).
Variables (dme_coords : Coordinates) (distance_nm : Qc).

(** The precision of the message, in meters, is the error of the point. *)
Lemma accuracy_in_meters (p : Coordinates) :
  Num.abs (s12 (Inverse GEODESIC (lat p) (lon p) (lat dme_coords) (lon dme_coords))
           / $1852 - distance_nm) * $1852
  = error_of GEODESIC dme_coords (nm_to_meters distance_nm) p.
Proof.
  unfold error_of, nm_to_meters, METERS_PER_NM, Num.abs.
  set (s := s12 _).
  replace (s - distance_nm * $1852.0) with ((s / $1852 - distance_nm) * $1852).
  2:{ apply Qc_is_canon. qc_push. qc_const_inv. field. }
  rewrite Qcabs_Qcmult. f_equal. symmetry. apply Qcabs_pos. qc_lra.
Qed.

(** The loop makes at least one pass. *)
Lemma passes_some (st : Search) :
  search GEODESIC fix_coords true_bearing dme_coords distance_nm = Ok st ->
  Bisection.best_tracked GEODESIC fix_coords true_bearing dme_coords
    (nm_to_meters distance_nm) st
  /\ passes st <> [].
Proof.
  intro E. destruct (BisectionRun.search_outcome _ _ _ _ _ _ E)
    as [[m [M [L [[last [earlier [P _]]] T]]]] | [L [_ T]]].
  - split; [exact T|]. rewrite P. discriminate.
  - split; [exact T|]. intro N. rewrite N in L. discriminate L.
Qed.

End WithQuery.

End DmeRun.

(** X27: what [calculate_from_dme] reports.  With the distance taken from
    the DME, the precision of the message, in meters, is the error of the
    point written to the FIX entry, which is a point the search tried; no
    point the search tried has a smaller error.  A [ValueError] of the
    [Coordinates] constructor during the search is left to the "Input
    Error" dialog.  With the distance taken from the FIX, the point is the
    one the projection returns and the precision is 0, and what the
    projection raises goes to the "Calculation Error" dialog. *)
Theorem calculate_from_dme_reports (FLOAT : Num.Rounding) (GEODESIC : Geodesic)
  (fix_coords dme_coords : VorFixCalculation.Coordinates)
  (bearing distance_nm declination : Qc) (magnetic : bool) :
  let true_bearing :=
    WaypointCalculationFrame.true_bearing FLOAT magnetic bearing declination in
  let run :=
    FixCalculationFrame.calculate_from_dme FLOAT GEODESIC fix_coords dme_coords
      bearing distance_nm declination magnetic in
  (forall intersection_point accuracy_error_nm,
      run "DME"%string = Py.Return (intersection_point, accuracy_error_nm) ->
      exists st p,
        VorFixCalculation.search GEODESIC fix_coords true_bearing dme_coords
          distance_nm = Ok st
        /\ In p (VorFixCalculation.passes st)
        /\ intersection_point = VorFixCalculation.pass_point p
        /\ accuracy_error_nm * $1852 = VorFixCalculation.pass_error p
        /\ forall q, In q (VorFixCalculation.passes st) ->
             accuracy_error_nm * $1852 <= VorFixCalculation.pass_error q)
  /\ (forall e, run "DME"%string = Py.Throw e ->
        FixCalculationFrame.handle e = FixCalculationFrame.InputError e)
  /\ (forall distance_reference,
        distance_reference <> "DME"%string ->
        (forall intersection_point accuracy_error_nm,
            run distance_reference
            = Py.Return (intersection_point, accuracy_error_nm) ->
            VorFixCalculation.calculate_target_coords_geodesic GEODESIC
              fix_coords true_bearing distance_nm = Ok intersection_point
            /\ accuracy_error_nm = $0)
        /\ (forall e, run distance_reference = Py.Throw e ->
              FixCalculationFrame.handle e = FixCalculationFrame.CalculationError e)).
Proof.
  intros true_bearing run. subst run.
  unfold FixCalculationFrame.calculate_from_dme.
  fold (WaypointCalculationFrame.true_bearing FLOAT magnetic bearing
          declination).
  fold true_bearing.
  split; [| split].
  - intros ip acc. rewrite String.eqb_refl.
    unfold VorFixCalculation._find_radial_distance_intersection.
    destruct (VorFixCalculation.search _ _ _ _ _) as [st | e] eqn:E;
      [| discriminate].
    cbn [bind]. intro H. inversion H; subst ip acc; clear H.
    destruct (DmeRun.passes_some _ _ _ _ _ _ E) as [T NE].
    pose proof (BisectionRun.best_is_least _ _ _ _ _ _ T NE) as Least.
    destruct T as [R [_ [W _]]]. destruct (W NE) as [p [Ip [Pp _]]].
    rewrite Forall_forall in R.
    exists st, p. split; [reflexivity|]. split; [exact Ip|]. split; [exact Pp|].
    rewrite DmeRun.accuracy_in_meters. split.
    + destruct (R p Ip) as [_ Ep]. rewrite Ep, Pp. reflexivity.
    + intros q Iq. destruct (R q Iq) as [_ Eq]. rewrite Eq. exact (Least q Iq).
  - intro e. rewrite String.eqb_refl.
    destruct (VorFixCalculation._find_radial_distance_intersection _ _ _ _ _)
      as [ip | e']; [discriminate|].
    intro H. inversion H; subst e. destruct e'; reflexivity.
  - intros r N. apply String.eqb_neq in N. rewrite N.
    destruct (VorFixCalculation.calculate_target_coords_geodesic _ _ _ _)
      as [ip | e']; split.
    + intros ip' acc H. inversion H. auto.
    + intros e H. discriminate H.
    + intros ip' acc H. discriminate H.
    + intros e H. inversion H. reflexivity.
Qed.
